(** * matrix-migration: the exporter (collector) and the importer (reconciler)

    A shallow embedding of [src/exporter/exporter.py] and
    [src/importer/importer.py].  Python values loaded from JSON are modelled
    by the type [json]; Python dictionaries are insertion-ordered association
    lists; a call that may raise returns a [result].  The importer runs
    against a target server given as a state machine, and logs every request
    and sleep in a trace; the exporter reads a source server given by its
    answers, request by request. *)

From Stdlib Require Import String Ascii List Bool ZArith QArith Qminmax Lia.
From Stdlib Require Import Sorted Qpower.
From Stdlib Require OrderedTypeEx.
Import ListNotations.
Local Close Scope Q_scope.
Local Open Scope list_scope.
Local Open Scope string_scope.
Set Warnings "-register-all".

(** ** Python values, truthiness, strings and dictionaries *)

Module Py.

(** A value produced by [json.load] / [Response.json()].  Numbers are the
    integers; no field read by the code is a float. *)
Inductive json : Type :=
| JNull
| JBool (b : bool)
| JNum (n : Z)
| JStr (s : string)
| JArr (l : list json)
| JObj (d : list (string * json)).

(** Python truth value testing ([if v:], [not v], [v or w]). *)
Definition truthy (v : json) : bool :=
  match v with
  | JNull => false
  | JBool b => b
  | JNum n => negb (n =? 0)%Z
  | JStr s => negb (s =? "")
  | JArr l => match l with [] => false | _ :: _ => true end
  | JObj d => match d with [] => false | _ :: _ => true end
  end.

(** [hash(v)] succeeds: lists and dicts are unhashable. *)
Definition hashable (v : json) : bool :=
  match v with JArr _ | JObj _ => false | _ => true end.

(** [v == w]: [True == 1] and [False == 0]; lists compare element by
    element, dicts key by key whatever their order. *)
Definition as_num (v : json) : option Z :=
  match v with
  | JBool true => Some 1%Z
  | JBool false => Some 0%Z
  | JNum n => Some n
  | _ => None
  end.

Fixpoint py_eq (v w : json) {struct v} : bool :=
  match v, w with
  | JNull, JNull => true
  | JStr s, JStr t => (s =? t)
  | JArr l, JArr m =>
      (fix all2 (l m : list json) {struct l} : bool :=
         match l, m with
         | [], [] => true
         | x :: l', y :: m' => py_eq x y && all2 l' m'
         | _, _ => false
         end) l m
  | JObj d, JObj e =>
      Nat.eqb (List.length d) (List.length e) &&
      (fix keys (d : list (string * json)) {struct d} : bool :=
         match d with
         | [] => true
         | (k, x) :: d' =>
             match (fix find (e : list (string * json)) : option json :=
                      match e with
                      | [] => None
                      | (k', y) :: e' => if (k =? k') then Some y else find e'
                      end) e with
             | Some y => py_eq x y
             | None => false
             end && keys d'
         end) d
  | _, _ => match as_num v, as_num w with
            | Some a, Some b => (a =? b)%Z
            | _, _ => false
            end
  end.

(** [v == "literal"]. *)
Definition eq_str (v : json) (s : string) : bool :=
  match v with JStr t => (t =? s) | _ => false end.

(** [sorted(set(l))] on strings: ordered by code point, duplicates merged. *)
Fixpoint insert_sorted (x : string) (l : list string) : list string :=
  match l with
  | [] => [x]
  | y :: rest =>
      match String.compare x y with
      | Lt => x :: l
      | Eq => l
      | Gt => y :: insert_sorted x rest
      end
  end.

Definition sorted_set (l : list string) : list string :=
  fold_left (fun acc x => insert_sorted x acc) l [].

(** A raised exception: its class and [str(e)]. *)
Inductive exn : Type := Raise (kind msg : string).

Definition str_of_exn (e : exn) : string :=
  match e with Raise _ m => m end.

Inductive result (A : Type) : Type :=
| Ok (a : A)
| Err (e : exn).
Arguments Ok {A} a.
Arguments Err {A} e.

(** *** Strings *)

Definition startswith (s pre : string) : bool := String.prefix pre s.

Definition endswith (s suf : string) : bool :=
  Nat.leb (String.length suf) (String.length s) &&
  (substring (String.length s - String.length suf) (String.length suf) s =? suf).

(** [needle in hay]. *)
Fixpoint contains (needle hay : string) : bool :=
  String.prefix needle hay ||
  match hay with
  | EmptyString => false
  | String _ rest => contains needle rest
  end.

(** [s.split(sep)] for a one-character separator. *)
Fixpoint split (sep : ascii) (s : string) : list string :=
  match s with
  | EmptyString => [""]
  | String c rest =>
      if Ascii.eqb c sep then "" :: split sep rest
      else match split sep rest with
           | h :: t => String c h :: t
           | [] => [String c ""]
           end
  end.

(** [sep.join(parts)]. *)
Fixpoint join (sep : string) (parts : list string) : string :=
  match parts with
  | [] => ""
  | [p] => p
  | p :: ps => p ++ sep ++ join sep ps
  end.

Fixpoint repeat_str (s : string) (n : nat) : string :=
  match n with O => "" | S k => s ++ repeat_str s k end.

(** [str.lower()] on ASCII letters. *)
Definition lower_ascii (c : ascii) : ascii :=
  let n := nat_of_ascii c in
  if Nat.leb 65 n && Nat.leb n 90 then ascii_of_nat (n + 32) else c.

Fixpoint lower (s : string) : string :=
  match s with
  | EmptyString => EmptyString
  | String c rest => String (lower_ascii c) (lower rest)
  end.

(** *** Dictionaries: insertion-ordered, one binding per key *)

Section Dict.
Context {K V : Type}.
Variable keq : K -> K -> bool.

Fixpoint dict_get (k : K) (d : list (K * V)) : option V :=
  match d with
  | [] => None
  | (k', v) :: rest => if keq k k' then Some v else dict_get k rest
  end.

(** [d[k] = v]: overwrite in place, or append a new binding. *)
Fixpoint dict_set (k : K) (v : V) (d : list (K * V)) : list (K * V) :=
  match d with
  | [] => [(k, v)]
  | (k', v') :: rest =>
      if keq k k' then (k', v) :: rest else (k', v') :: dict_set k v rest
  end.

(** [d.pop(k, None)]. *)
Fixpoint dict_pop (k : K) (d : list (K * V)) : list (K * V) :=
  match d with
  | [] => []
  | (k', v') :: rest =>
      if keq k k' then rest else (k', v') :: dict_pop k rest
  end.
End Dict.

(** Dictionaries keyed by strings (every JSON object). *)
Definition sget {V} := @dict_get string V String.eqb.
Definition sset {V} := @dict_set string V String.eqb.
Definition spop {V} := @dict_pop string V String.eqb.

(** [d.get(key)]: Python's [None] is JSON [null]. *)
Definition or_null (v : option json) : json :=
  match v with Some w => w | None => JNull end.

Definition pyget (d : list (string * json)) (key : string) : json :=
  or_null (sget key d).

(** [v.get(key)] on a loaded JSON value: only a dict has [.get]. *)
Definition type_name (v : json) : string :=
  match v with
  | JNull => "NoneType"
  | JBool _ => "bool"
  | JNum _ => "int"
  | JStr _ => "str"
  | JArr _ => "list"
  | JObj _ => "dict"
  end.

Definition attribute_error (v : json) (attr : string) : exn :=
  Raise "AttributeError"
        ("'" ++ type_name v ++ "' object has no attribute '" ++ attr ++ "'").

Definition obj_get (v : json) (key : string) : result json :=
  match v with
  | JObj d => Ok (or_null (sget key d))
  | _ => Err (attribute_error v "get")
  end.

(** [v.get(key, default)]. *)
Definition obj_get_default (v : json) (key : string) (default : json)
  : result json :=
  match v with
  | JObj d => Ok (match sget key d with Some w => w | None => default end)
  | _ => Err (attribute_error v "get")
  end.

Definition unhashable (v : json) : exn :=
  Raise "TypeError" ("unhashable type: '" ++ type_name v ++ "'").

(** [for x in v]: a list gives its elements, a dict its keys, a string its
    characters; nothing else is iterable. *)
Definition iterate (v : json) : result (list json) :=
  match v with
  | JArr l => Ok l
  | JObj d => Ok (map (fun p => JStr (fst p)) d)
  | JStr s => Ok (map (fun c => JStr (String c "")) (list_ascii_of_string s))
  | _ => Err (Raise "TypeError" ("'" ++ type_name v ++ "' object is not iterable"))
  end.

(** Sequencing of computations that may raise. *)
Definition bind {A B} (m : result A) (f : A -> result B) : result B :=
  match m with Ok a => f a | Err e => Err e end.

(** Dictionaries keyed by hashable JSON values. *)
Definition jget {V} := @dict_get json V py_eq.
Definition jset {V} := @dict_set json V py_eq.

(** [v or {}]. *)
Definition or_empty (v : option json) : json :=
  match v with
  | Some w => if truthy w then w else JObj []
  | None => JObj []
  end.

(** *** [os.path] on POSIX *)

Definition isabs (p : string) : bool := startswith p "/".

Definition is_nil {A} (l : list A) : bool :=
  match l with [] => true | _ :: _ => false end.

(** One iteration of the component loop of [os.path.normpath]. *)
Definition normpath_step (initial_slashes : nat) (new_comps : list string)
           (comp : string) : list string :=
  if (comp =? "") || (comp =? ".") then new_comps
  else if negb (comp =? "..")
          || (Nat.eqb initial_slashes 0 && is_nil new_comps)
          || (negb (is_nil new_comps) && (last new_comps "" =? ".."))
       then (new_comps ++ [comp])%list
       else if negb (is_nil new_comps) then removelast new_comps
            else new_comps.

Definition normpath (path : string) : string :=
  if path =? "" then "."
  else
    let initial_slashes :=
      if startswith path "/" then
        if startswith path "//" && negb (startswith path "///") then 2 else 1
      else 0 in
    let comps := fold_left (normpath_step initial_slashes) (split "/" path) [] in
    let p := repeat_str "/" initial_slashes ++ join "/" comps in
    if p =? "" then "." else p.

End Py.

Import Py.

(** ** The importer: [src/importer/importer.py] *)

Module Importer.

(** *** Bundle reader *)

(** The disk as far as extraction is concerned: the archive members that
    [tar.extract] was given and has extracted, in that order.  Where the
    library puts the content of a member (under the target directory, or
    elsewhere through a link extracted before) is not part of the model. *)
Definition disk := list string.

Section SafeExtract.
(** [tar.extract(member, path)] for the archive at hand: the exception it
    raises, if it raises one, given the members extracted before. *)
Variable tar_extract : disk -> string -> option exn.

(** [_safe_extract(tar, path)]; [members] is [tar.getmembers()] by name. *)
Fixpoint _safe_extract (members : list string) (written : disk)
  : result unit * disk :=
  match members with
  | [] => (Ok tt, written)
  | name :: rest =>
      let normalized := normpath name in
      if startswith normalized "/" || startswith normalized ".."
         || isabs normalized
      then (Err (Raise "ValueError" ("Unsafe path in archive: " ++ name)),
            written)
      else match tar_extract written name with
           | Some e => (Err e, written)
           | None => _safe_extract rest (written ++ [name])%list
           end
  end.
End SafeExtract.

(** [Path.suffix]: the last dot-separated part of the file name, with its
    dot, when the dot is neither the first nor the last character. *)
Fixpoint rfind_dot (s : string) (pos : nat) (found : option nat) : option nat :=
  match s with
  | EmptyString => found
  | String c rest =>
      rfind_dot rest (S pos) (if Ascii.eqb c "."%char then Some pos else found)
  end.

Definition path_suffix (name : string) : string :=
  match rfind_dot name 0 None with
  | Some i =>
      if Nat.ltb 0 i && Nat.ltb i (String.length name - 1)
      then substring i (String.length name - i) name
      else ""
  | None => ""
  end.

(** What [_extract_bundle_to_temp] sees of its argument. *)
Record BundlePath : Type := {
  bp_path : string;            (* the path itself *)
  bp_name : string;            (* its final component *)
  bp_is_dir : bool;
  bp_members : list string     (* member names when it is a tar archive *)
}.

Section ExtractBundle.
(** [zstd] is importable; the directory [tempfile.mkdtemp] returns;
    [tmpdir.iterdir()] as a function of what was extracted; and
    [tar.extract] on the members of the archive. *)
Variable zstd : bool.
Variable tmpdir : string.
Variable iterdir : disk -> list string.
Variable tar_extract : disk -> string -> option exn.

(** [_extract_bundle_to_temp(bundle_path)]. *)
Definition _extract_bundle_to_temp (bundle_path : BundlePath)
  : result string * disk :=
  if bp_is_dir bundle_path then (Ok (bp_path bundle_path), [])
  else
    let suffix := lower (path_suffix (bp_name bundle_path)) in
    let extracted :=
      if (suffix =? ".zst") || endswith (bp_name bundle_path) ".tar.zst" then
        if negb zstd
        then (Err (Raise "RuntimeError"
                         "zstandard not installed; cannot unpack .zst archive"),
              [])
        else _safe_extract tar_extract (bp_members bundle_path) []
      else if suffix =? ".tar" then
        _safe_extract tar_extract (bp_members bundle_path) []
      else (Err (Raise "RuntimeError"
                       ("Unsupported bundle format: " ++ bp_path bundle_path)),
            []) in
    match extracted with
    | (Err e, written) => (Err e, written)
    | (Ok _, written) =>
        let entries := iterdir written in
        let root := match entries with e :: _ => e | [] => tmpdir end in
        (Ok root, written)
    end.
End ExtractBundle.


(** *** Bundle and plan *)

(** A room record of [rooms.json], by the keys the importer reads.  Room
    identifiers are strings ([ImportPlan.join_rooms : List[str]]). *)
Record Room : Type := {
  room_id : option string;     (* r.get("room_id"); None when absent or null *)
  federatable : option json;   (* the value under "federatable" when the key is present *)
  version : json               (* r.get("version") *)
}.

(** A state event: a Python dict. *)
Definition Event := list (string * json).

Record Bundle : Type := {
  rooms : list Room;
  room_state : list (string * list Event);
  memberships : list (string * list (string * string));
  aliases : list (string * string)
}.

Record ImportPlan : Type := {
  join_rooms : list string;
  create_rooms : list string;
  create_aliases : list (string * string)
}.

(** [r.get("federatable", True)] taken as a condition. *)
Definition federatable_or_default (r : Room) : bool :=
  match federatable r with
  | None => true
  | Some v => truthy v
  end.

(** The room loop of [build_plan], one record at a time; [not rid] holds
    for [None] and for the empty string. *)
Fixpoint plan_rooms (do_create_local_rooms : bool) (rs : list Room)
         (join create : list string) : list string * list string :=
  match rs with
  | [] => (join, create)
  | r :: rest =>
      match room_id r with
      | None => plan_rooms do_create_local_rooms rest join create
      | Some rid =>
          if rid =? "" then
            plan_rooms do_create_local_rooms rest join create
          else if federatable_or_default r then
            plan_rooms do_create_local_rooms rest (join ++ [rid])%list create
          else if do_create_local_rooms then
            plan_rooms do_create_local_rooms rest join (create ++ [rid])%list
          else plan_rooms do_create_local_rooms rest join create
      end
  end.

(** The alias loop of [build_plan]. *)
Fixpoint plan_aliases (server_name : string) (items : list (string * string))
         (acc : list (string * string)) : list (string * string) :=
  match items with
  | [] => acc
  | (alias, rid) :: rest =>
      if endswith alias (":" ++ server_name)
      then plan_aliases server_name rest (sset alias rid acc)
      else plan_aliases server_name rest acc
  end.

Definition build_plan (bundle : Bundle) (server_name : string)
           (do_create_local_rooms do_create_aliases : bool) : ImportPlan :=
  let '(join, create) := plan_rooms do_create_local_rooms (rooms bundle) [] [] in
  let als := if do_create_aliases
             then plan_aliases server_name (aliases bundle) []
             else [] in
  {| join_rooms := join; create_rooms := create; create_aliases := als |}.

(** *** The target homeserver and the run *)

(** A request sent to the target server. *)
Inductive request : Type :=
| GetJoinedRooms
| PostJoin (room : string) (via : list string)
| PutAlias (alias rid : string)
| PostCreateRoom (body : list (string * json)).

(** What the importer does to the outside, in order: a request, with the
    text of the exception it ended in if it did, or a sleep. *)
Inductive event : Type :=
| Request (q : request) (error : option string)
| Slept (seconds : Q).

(** [min(30, 1.5 ** attempt)]. *)
Definition backoff_delay (attempt : nat) : Q :=
  Qred (Qmin (30 # 1) (Qpower (3 # 2) (Z.of_nat attempt))).

Record Results : Type := {
  joined : list string;
  join_failed : list (string * string);
  aliases_created : list string;
  aliases_failed : list (string * string);
  rooms_created : list json;
  rooms_failed : list (string * string)
}.

Definition add_joined (rid : string) (res : Results) : Results :=
  {| joined := (joined res ++ [rid])%list; join_failed := join_failed res;
     aliases_created := aliases_created res; aliases_failed := aliases_failed res;
     rooms_created := rooms_created res; rooms_failed := rooms_failed res |}.

Definition set_join_failed (f : list (string * string)) (res : Results) : Results :=
  {| joined := joined res; join_failed := f;
     aliases_created := aliases_created res; aliases_failed := aliases_failed res;
     rooms_created := rooms_created res; rooms_failed := rooms_failed res |}.

Definition add_alias_created (alias : string) (res : Results) : Results :=
  {| joined := joined res; join_failed := join_failed res;
     aliases_created := (aliases_created res ++ [alias])%list;
     aliases_failed := aliases_failed res;
     rooms_created := rooms_created res; rooms_failed := rooms_failed res |}.

Definition set_alias_failed (alias msg : string) (res : Results) : Results :=
  {| joined := joined res; join_failed := join_failed res;
     aliases_created := aliases_created res;
     aliases_failed := sset alias msg (aliases_failed res);
     rooms_created := rooms_created res; rooms_failed := rooms_failed res |}.

Definition add_room_created (rid : json) (res : Results) : Results :=
  {| joined := joined res; join_failed := join_failed res;
     aliases_created := aliases_created res; aliases_failed := aliases_failed res;
     rooms_created := (rooms_created res ++ [rid])%list;
     rooms_failed := rooms_failed res |}.

Definition set_room_failed (rid msg : string) (res : Results) : Results :=
  {| joined := joined res; join_failed := join_failed res;
     aliases_created := aliases_created res; aliases_failed := aliases_failed res;
     rooms_created := rooms_created res;
     rooms_failed := sset rid msg (rooms_failed res) |}.

Definition empty_results : Results :=
  {| joined := []; join_failed := []; aliases_created := [];
     aliases_failed := []; rooms_created := []; rooms_failed := [] |}.

Section Reconciler.
(** The target server: each endpoint either answers or makes the client
    raise, and moves the server to a new state. *)
Variable World : Type.

Record Target : Type := {
  get_joined_rooms : World -> result (list string) * World;
  post_join : string -> list string -> World -> result json * World;
  put_alias : string -> string -> World -> result json * World;
  post_create_room : list (string * json) -> World -> result json * World
}.

Variable target : Target.

(** The state of a run: the server, and what was done so far. *)
Record Run : Type := { world : World; trace : list event }.

Definition error_of {A} (x : result A) : option string :=
  match x with Ok _ => None | Err e => Some (str_of_exn e) end.

Definition perform {A} (q : request) (f : World -> result A * World)
           (r : Run) : result A * Run :=
  let '(x, w) := f (world r) in
  (x, {| world := w; trace := (trace r ++ [Request q (error_of x)])%list |}).

(** [MatrixClient.joined_rooms]. *)
Definition joined_rooms (r : Run) : result (list string) * Run :=
  perform GetJoinedRooms (get_joined_rooms target) r.

(** [MatrixClient.join_room]: [room.startswith] exists only on strings. *)
Definition join_room (room : json) (via : list string) (r : Run)
  : result json * Run :=
  match room with
  | JStr s => perform (PostJoin s via) (post_join target s via) r
  | _ => (Err (attribute_error room "startswith"), r)
  end.

(** [MatrixClient.put_room_alias]. *)
Definition put_room_alias (alias rid : string) (r : Run) : result json * Run :=
  perform (PutAlias alias rid) (put_alias target alias rid) r.

(** [MatrixClient.create_room]: falsy arguments are left out of the body. *)
Definition create_room_body (preset : string) (invite : list string)
           (name topic room_version : json) (initial_state : list json)
  : list (string * json) :=
  let body := [("preset", JStr preset)] in
  let body := if is_nil invite then body
              else sset "invite" (JArr (map JStr invite)) body in
  let body := if truthy name then sset "name" name body else body in
  let body := if truthy topic then sset "topic" topic body else body in
  let body := if truthy room_version
              then sset "room_version" room_version body else body in
  if is_nil initial_state then body
  else sset "initial_state" (JArr initial_state) body.

Definition create_room (preset : string) (invite : list string)
           (name topic room_version : json) (initial_state : list json)
           (r : Run) : result json * Run :=
  let body := create_room_body preset invite name topic room_version
                               initial_state in
  perform (PostCreateRoom body) (post_create_room target body) r.

(** [backoff_sleep]. *)
Definition backoff_sleep (attempt : nat) (r : Run) : Run :=
  {| world := world r;
     trace := (trace r ++ [Slept (backoff_delay attempt)])%list |}.

(** *** [perform_import], phase 1: join federatable rooms *)

(** [for attempt in range(0, 5)] around [client.join_room(rid, via=via)];
    the boolean is [ok]. *)
Fixpoint join_attempts (attempts : list nat) (rid : string)
         (via : list string) (res : Results) (r : Run)
  : bool * Results * Run :=
  match attempts with
  | [] => (false, res, r)
  | attempt :: rest =>
      match join_room (JStr rid) via r with
      | (Ok _, r') => (true, add_joined rid res, r')
      | (Err e, r') =>
          if Nat.ltb attempt 4
          then join_attempts rest rid via res (backoff_sleep attempt r')
          else join_attempts rest rid via
                 (set_join_failed (sset rid (str_of_exn e) (join_failed res)) res)
                 r'
      end
  end.

(** Aliases of the [m.room.canonical_alias] events of a state snapshot. *)
Fixpoint canonical_aliases (st : list Event) : result (list json) :=
  match st with
  | [] => Ok []
  | ev :: rest =>
      if eq_str (pyget ev "type") "m.room.canonical_alias" then
        match obj_get (or_empty (sget "content" ev)) "alias" with
        | Err e => Err e
        | Ok a =>
            match canonical_aliases rest with
            | Err e => Err e
            | Ok more => Ok (if truthy a then a :: more else more)
            end
        end
      else canonical_aliases rest
  end.

(** Aliases of [bundle.aliases] that point at [rid]. *)
Definition aliases_of (rid : string) (items : list (string * string))
  : list json :=
  map (fun p => JStr (fst p)) (filter (fun p => snd p =? rid) items).

(** [for a in candidate_aliases]: each is tried once. *)
Fixpoint join_fallback (candidates : list json) (rid : string)
         (via : list string) (res : Results) (r : Run) : Results * Run :=
  match candidates with
  | [] => (res, r)
  | a :: rest =>
      match join_room a via r with
      | (Ok _, r') =>
          (set_join_failed (spop rid (join_failed res)) (add_joined rid res), r')
      | (Err e, r') =>
          join_fallback rest rid via
            (set_join_failed (sset rid (str_of_exn e) (join_failed res)) res) r'
      end
  end.

Definition state_of (bundle : Bundle) (rid : string) : list Event :=
  match sget rid (room_state bundle) with Some st => st | None => [] end.

(** The body of [for rid in plan.join_rooms]. *)
Definition join_item (bundle : Bundle) (via : list string) (dry_run : bool)
           (already_joined : list string) (rid : string)
           (res : Results) (r : Run) : result Results * Run :=
  if existsb (String.eqb rid) already_joined then (Ok (add_joined rid res), r)
  else if dry_run then (Ok (add_joined rid res), r)
  else
    let '(ok, res1, r1) := join_attempts (seq 0 5) rid via res r in
    if ok then (Ok res1, r1)
    else
      match canonical_aliases (state_of bundle rid) with
      | Err e => (Err e, r1)
      | Ok canonical =>
          let candidates := (canonical ++ aliases_of rid (aliases bundle))%list in
          let '(res2, r2) := join_fallback candidates rid via res1 r1 in
          (Ok res2, r2)
      end.

Fixpoint join_loop (bundle : Bundle) (via : list string) (dry_run : bool)
         (already_joined : list string) (rids : list string)
         (res : Results) (r : Run) : result Results * Run :=
  match rids with
  | [] => (Ok res, r)
  | rid :: rest =>
      match join_item bundle via dry_run already_joined rid res r with
      | (Err e, r') => (Err e, r')
      | (Ok res', r') => join_loop bundle via dry_run already_joined rest res' r'
      end
  end.

(** *** Phase 2: create local aliases *)

Definition is_conflict (msg : string) : bool :=
  contains "M_ROOM_IN_USE" msg || contains "already exists" msg.

(** [for attempt in range(0, 5)] around [client.put_room_alias]. *)
Fixpoint alias_attempts (attempts : list nat) (alias rid : string)
         (res : Results) (r : Run) : Results * Run :=
  match attempts with
  | [] => (res, r)
  | attempt :: rest =>
      match put_room_alias alias rid r with
      | (Ok _, r') => (add_alias_created alias res, r')
      | (Err e, r') =>
          let msg := str_of_exn e in
          if is_conflict msg then (add_alias_created alias res, r')
          else if Nat.ltb attempt 4
          then alias_attempts rest alias rid res (backoff_sleep attempt r')
          else alias_attempts rest alias rid (set_alias_failed alias msg res) r'
      end
  end.

(** The body of [for alias, rid in plan.create_aliases.items()]. *)
Definition alias_item (dry_run : bool) (alias rid : string)
           (res : Results) (r : Run) : Results * Run :=
  if dry_run then (add_alias_created alias res, r)
  else alias_attempts (seq 0 5) alias rid res r.

Fixpoint alias_loop (dry_run : bool) (items : list (string * string))
         (res : Results) (r : Run) : Results * Run :=
  match items with
  | [] => (res, r)
  | (alias, rid) :: rest =>
      let '(res', r') := alias_item dry_run alias rid res r in
      alias_loop dry_run rest res' r'
  end.

(** *** Phase 3: create local-only rooms *)

(** [{r.get("room_id"): r.get("version") for r in bundle.rooms
      if r.get("room_id")}]. *)
Definition version_map (rs : list Room) : list (string * json) :=
  fold_left (fun m r =>
               match room_id r with
               | Some rid => if rid =? "" then m else sset rid (version r) m
               | None => m
               end) rs [].

Definition forwarded_types : list string :=
  ["m.room.power_levels"; "m.room.join_rules";
   "m.room.history_visibility"; "m.room.encryption"].

(** [for ev in st]: the running [name], [topic] and [initial_state]. *)
Fixpoint scan_state (st : list Event) (name topic : json)
         (initial_state : list json) : result (json * json * list json) :=
  match st with
  | [] => Ok (name, topic, initial_state)
  | ev :: rest =>
      let t := pyget ev "type" in
      let content := or_empty (sget "content" ev) in
      if eq_str t "m.room.name" then
        match obj_get content "name" with
        | Err e => Err e
        | Ok v => scan_state rest v topic initial_state
        end
      else if eq_str t "m.room.topic" then
        match obj_get content "topic" with
        | Err e => Err e
        | Ok v => scan_state rest name v initial_state
        end
      else if negb (hashable t) then Err (unhashable t)
      else if existsb (eq_str t) forwarded_types then
        scan_state rest name topic
          (initial_state ++
             [JObj [("type", t); ("state_key", JStr ""); ("content", content)]])%list
      else scan_state rest name topic initial_state
  end.

(** The invite list: local members whose membership is join or invite. *)
Definition invites_of (bundle : Bundle) (server_name rid : string)
  : list string :=
  let members := match sget rid (memberships bundle) with
                 | Some m => m | None => [] end in
  let invites :=
    map fst (filter (fun p => endswith (fst p) (":" ++ server_name)
                              && ((snd p =? "join") || (snd p =? "invite")))
                    members) in
  firstn 50 (sorted_set invites).

(** [any(ev.get("type") == "m.room.join_rules" and
         (ev.get("content") or {}).get("join_rule") == "public" for ev in st)]. *)
Fixpoint any_public (st : list Event) : result bool :=
  match st with
  | [] => Ok false
  | ev :: rest =>
      if eq_str (pyget ev "type") "m.room.join_rules" then
        match obj_get (or_empty (sget "content" ev)) "join_rule" with
        | Err e => Err e
        | Ok v => if eq_str v "public" then Ok true else any_public rest
        end
      else any_public rest
  end.

(** The body of [for rid in plan.create_rooms]. *)
Definition create_item (bundle : Bundle) (server_name : string)
           (dry_run : bool) (versions : list (string * json)) (rid : string)
           (res : Results) (r : Run) : result Results * Run :=
  if dry_run then (Ok (add_room_created (JStr rid) res), r)
  else
    let st := state_of bundle rid in
    match scan_state st JNull JNull [] with
    | Err e => (Err e, r)
    | Ok (name, topic, initial_state) =>
        let invites := invites_of bundle server_name rid in
        match any_public st with
        | Err e => (Err e, r)
        | Ok public =>
            let preset := if public then "public_chat" else "private_chat" in
            match create_room preset invites name topic
                              (or_null (sget rid versions)) initial_state r with
            | (Ok (JObj created), r') =>
                let new_id := match sget "room_id" created with
                              | Some v => v
                              | None => JStr rid
                              end in
                (Ok (add_room_created new_id res), r')
            | (Ok other, r') =>
                (Ok (set_room_failed rid
                       (str_of_exn (attribute_error other "get")) res), r')
            | (Err e, r') =>
                (Ok (set_room_failed rid (str_of_exn e) res), r')
            end
        end
    end.

Fixpoint create_loop (bundle : Bundle) (server_name : string)
         (dry_run : bool) (versions : list (string * json))
         (rids : list string) (res : Results) (r : Run)
  : result Results * Run :=
  match rids with
  | [] => (Ok res, r)
  | rid :: rest =>
      match create_item bundle server_name dry_run versions rid res r with
      | (Err e, r') => (Err e, r')
      | (Ok res', r') =>
          create_loop bundle server_name dry_run versions rest res' r'
      end
  end.

Definition perform_import (bundle : Bundle) (plan : ImportPlan)
           (via : list string) (create_local_rooms : bool)
           (server_name : string) (dry_run : bool) (r : Run)
  : result Results * Run :=
  match joined_rooms r with
  | (Err e, r0) => (Err e, r0)
  | (Ok already_joined, r0) =>
      match join_loop bundle via dry_run already_joined (join_rooms plan)
                      empty_results r0 with
      | (Err e, r1) => (Err e, r1)
      | (Ok res1, r1) =>
          let '(res2, r2) := alias_loop dry_run (create_aliases plan) res1 r1 in
          if create_local_rooms then
            create_loop bundle server_name dry_run (version_map (rooms bundle))
                        (create_rooms plan) res2 r2
          else (Ok res2, r2)
      end
  end.

End Reconciler.

Arguments world {World} r.
Arguments trace {World} r.
Arguments join_attempts {World} target attempts rid via res r.
Arguments join_fallback {World} target candidates rid via res r.
Arguments join_item {World} target bundle via dry_run already_joined rid res r.
Arguments join_loop {World} target bundle via dry_run already_joined rids res r.
Arguments alias_attempts {World} target attempts alias rid res r.
Arguments alias_item {World} target dry_run alias rid res r.
Arguments alias_loop {World} target dry_run items res r.
Arguments create_item {World} target bundle server_name dry_run versions rid res r.
Arguments create_loop {World} target bundle server_name dry_run versions rids res r.
Arguments perform_import {World} target bundle plan via create_local_rooms
  server_name dry_run r.
Arguments put_room_alias {World} target alias rid r.
Arguments join_room {World} target room via r.
Arguments joined_rooms {World} target r.
Arguments create_room {World} target preset invite name topic room_version
  initial_state r.
Arguments backoff_sleep {World} attempt r.

(** *** [load_bundle] *)

(** The [Bundle] as [load_bundle] builds it: the root and the documents as
    [json.load] returned them; [devices] is [None], that is [JNull], when
    there is no [devices.json], as it is when the file holds [null]. *)
Record LoadedBundle : Type := {
  loaded_root : string;
  loaded_users : json;
  loaded_rooms : json;
  loaded_room_state : json;
  loaded_memberships : json;
  loaded_aliases : json;
  loaded_metadata : json;
  loaded_devices : json
}.

Section LoadBundle.
(** The file system as [load_bundle] reads it: which paths exist, and
    under a root directory, for a file name, nothing when the file does not
    exist and otherwise what [json.load] makes of it. *)
Variable zstd : bool.
Variable tmpdir : string.
Variable iterdir : disk -> list string.
Variable tar_extract : disk -> string -> option exn.
Variable path_exists : string -> bool.
Variable files : string -> string -> option (result json).

(** The inner function [read_json(name)]. *)
Definition read_json (root name : string) : result json :=
  match files root name with
  | None => Err (Raise "FileNotFoundError"
                       ("Missing required file in bundle: " ++ name))
  | Some content => content
  end.

Definition load_bundle (path : BundlePath) : result LoadedBundle :=
  if negb (path_exists (bp_path path))
  then Err (Raise "RuntimeError"
                  ("Bundle path does not exist: " ++ bp_path path))
  else
    match _extract_bundle_to_temp zstd tmpdir iterdir tar_extract path with
    | (Err e, _) => Err e
    | (Ok root, _) =>
        if negb (path_exists root)
        then Err (Raise "FileNotFoundError"
                        ("Bundle not found: " ++ bp_path path))
        else
          bind (read_json root "users.json") (fun users =>
          bind (read_json root "rooms.json") (fun rooms =>
          bind (read_json root "room_state.json") (fun room_state =>
          bind (read_json root "memberships.json") (fun memberships =>
          bind (read_json root "aliases.json") (fun aliases =>
          bind (read_json root "metadata.json") (fun metadata =>
          bind (match files root "devices.json" with
                | None => Ok JNull
                | Some content => content
                end) (fun devices =>
          Ok {| loaded_root := root; loaded_users := users;
                loaded_rooms := rooms; loaded_room_state := room_state;
                loaded_memberships := memberships; loaded_aliases := aliases;
                loaded_metadata := metadata; loaded_devices := devices |})))))))
    end.
End LoadBundle.

(** *** [MatrixClient._url] and the [via] default of [main] *)

(** [s.rstrip("/")]. *)
Fixpoint rstrip_slash (s : string) : string :=
  match s with
  | EmptyString => EmptyString
  | String c rest =>
      match rstrip_slash rest with
      | EmptyString => if Ascii.eqb c "/"%char then EmptyString
                       else String c EmptyString
      | stripped => String c stripped
      end
  end.

(** [MatrixClient._url(path)]. *)
Definition _url (base_url path : string) : string :=
  if startswith path "http" then path
  else rstrip_slash base_url ++ path.

(** [via = args.via or []], then the server name when that is empty. *)
Definition default_via (via : option (list string)) (server_name : string)
  : list string :=
  let via := match via with Some l => l | None => [] end in
  if is_nil via then [server_name] else via.

End Importer.

(** ** The exporter: [src/exporter/exporter.py] *)

Module Exporter.

Notation "x <- m ;; k" := (bind m (fun x => k))
  (at level 61, m at next level, right associativity).

(** A Python dict loaded from JSON. *)
Definition dict := list (string * json).

(** The source server seen through one endpoint: its answer to the n-th
    request made there, with the argument sent (the [from] token of a
    listing, the room id of a per-room call), or the exception [_get]
    raises. *)
Definition Endpoint (Arg : Type) := nat -> Arg -> result json.

(** How a paginated listing ends: the generator returns, an exception
    leaves it, or it is still asking for pages when the fuel runs out. *)
Inductive progress : Type :=
| Finished
| Failed (e : exn)
| Paging.

(** *** [SynapseAdmin.list_users] *)

(** [for u in data.get("users", [])]: guests are skipped, the rest yielded. *)
Fixpoint yield_users (us : list json) : list dict * option exn :=
  match us with
  | [] => ([], None)
  | JObj u :: rest =>
      if truthy (pyget u "is_guest") then yield_users rest
      else let '(ys, e) := yield_users rest in (u :: ys, e)
  | other :: _ => ([], Some (attribute_error other "get"))
  end.

Fixpoint list_users (pages : Endpoint json) (fuel n : nat) (from_tok : json)
  : list dict * progress :=
  match fuel with
  | O => ([], Paging)
  | S fuel' =>
      match pages n from_tok with
      | Err e => ([], Failed e)
      | Ok (JObj data) =>
          match iterate (match sget "users" data with
                         | Some us => us | None => JArr [] end) with
          | Err e => ([], Failed e)
          | Ok us =>
              match yield_users us with
              | (ys, Some e) => (ys, Failed e)
              | (ys, None) =>
                  let next_tok := pyget data "next_token" in
                  if match next_tok with JNull => true | _ => false end
                     || py_eq next_tok from_tok
                  then (ys, Finished)
                  else
                    let '(more, p) := list_users pages fuel' (S n) next_tok in
                    ((ys ++ more)%list, p)
              end
          end
      | Ok other => ([], Failed (attribute_error other "get"))
      end
  end.

(** *** [SynapseAdmin.list_rooms] *)

Section ListRooms.
(** [int(s)] on a string: the number it denotes, or [ValueError]. *)
Variable int_of_str : string -> option Z.

(** [int(v)] for a truthy [v]; [None] stands for [ValueError]/[TypeError]. *)
Definition py_int (v : json) : option Z :=
  match v with
  | JNum n => Some n
  | JBool b => Some (if b then 1 else 0)%Z
  | JStr s => int_of_str s
  | _ => None
  end.

Fixpoint list_rooms (pages : Endpoint Z) (fuel n : nat) (from_tok : Z)
  : list json * progress :=
  match fuel with
  | O => ([], Paging)
  | S fuel' =>
      match pages n from_tok with
      | Err e => ([], Failed e)
      | Ok (JObj data) =>
          match iterate (match sget "rooms" data with
                         | Some rs => rs | None => JArr [] end) with
          | Err e => ([], Failed e)
          | Ok rs =>
              let next_tok :=
                if truthy (pyget data "next_batch")
                then pyget data "next_batch"
                else pyget data "next_token" in
              if negb (truthy next_tok) then (rs, Finished)
              else
                match py_int next_tok with
                | None => (rs, Finished)
                | Some tok =>
                    let '(more, p) := list_rooms pages fuel' (S n) tok in
                    ((rs ++ more)%list, p)
                end
          end
      | Ok other => ([], Failed (attribute_error other "get"))
      end
  end.
End ListRooms.

(** *** [export_all]: rooms, room state, aliases and memberships *)

(** The record appended to [rooms_basic] for a listed room [r]. *)
Definition room_keys : list string :=
  ["room_id"; "name"; "canonical_alias"; "creator"; "join_rules";
   "guest_access"; "history_visibility"; "federatable"; "public"; "version"].

Definition room_basic (r : json) : result dict :=
  match r with
  | JObj d => Ok (map (fun k => (k, pyget d k)) room_keys)
  | _ => Err (attribute_error r "get")
  end.

Fixpoint rooms_basic_of (listed : list json) : result (list dict) :=
  match listed with
  | [] => Ok []
  | r :: rest =>
      rb <- room_basic r ;;
      more <- rooms_basic_of rest ;;
      Ok (rb :: more)
  end.

Definition important_state_types : list string :=
  ["m.room.create"; "m.room.power_levels"; "m.room.join_rules";
   "m.room.history_visibility"; "m.room.guest_access";
   "m.room.canonical_alias"; "m.room.name"; "m.room.topic";
   "m.room.encryption"; "m.room.server_acl"; "m.room.avatar";
   "m.space.child"; "m.space.parent"].

(** [[ev for ev in st if ev.get("type") in important_state_types]]. *)
Fixpoint filter_important (st : list json) : result (list json) :=
  match st with
  | [] => Ok []
  | ev :: rest =>
      t <- obj_get ev "type" ;;
      if negb (hashable t) then Err (unhashable t)
      else
        more <- filter_important rest ;;
        Ok (if existsb (eq_str t) important_state_types
            then ev :: more else more)
  end.

(** [d[k] = v] for a key that may be unhashable. *)
Definition store {V} (k : json) (v : V) (d : list (json * V))
  : result (list (json * V)) :=
  if hashable k then Ok (jset k v d) else Err (unhashable k).

(** [a.endswith(":" + server_name)] for a loaded value [a]. *)
Definition ends_with_domain (a : json) (server_name : string) : result bool :=
  match a with
  | JStr s => Ok (endswith s (":" ++ server_name))
  | _ => Err (attribute_error a "endswith")
  end.

(** The loop over the aliases listed by an [m.room.aliases] event. *)
Fixpoint add_listed_aliases (server_name : option string) (rid : json)
         (listed : list json) (aliases : list (json * json))
  : result (list (json * json)) :=
  match listed with
  | [] => Ok aliases
  | a :: rest =>
      match server_name with
      | Some sn =>
          if sn =? "" then add_listed_aliases server_name rid rest aliases
          else
            local <- ends_with_domain a sn ;;
            aliases' <- (if local then store a rid aliases else Ok aliases) ;;
            add_listed_aliases server_name rid rest aliases'
      | None => add_listed_aliases server_name rid rest aliases
      end
  end.

(** The body of [for ev in st] that derives aliases. *)
Definition derive_aliases (server_name : option string) (rid ev : json)
           (aliases : list (json * json)) : result (list (json * json)) :=
  t <- obj_get ev "type" ;;
  aliases1 <-
    (if eq_str t "m.room.aliases" then
       content <- obj_get_default ev "content" (JObj []) ;;
       listed <- obj_get_default content "aliases" (JArr []) ;;
       items <- iterate (if truthy listed then listed else JArr []) ;;
       add_listed_aliases server_name rid items aliases
     else Ok aliases) ;;
  if eq_str t "m.room.canonical_alias" then
    content <- obj_get_default ev "content" (JObj []) ;;
    a <- obj_get (if truthy content then content else JObj []) "alias" ;;
    if truthy a then
      wanted <- match server_name with
                | None => Ok true
                | Some sn => ends_with_domain a sn
                end ;;
      if wanted then store a rid aliases1 else Ok aliases1
    else Ok aliases1
  else Ok aliases1.

Fixpoint derive_aliases_all (server_name : option string) (rid : json)
         (st : list json) (aliases : list (json * json))
  : result (list (json * json)) :=
  match st with
  | [] => Ok aliases
  | ev :: rest =>
      aliases' <- derive_aliases server_name rid ev aliases ;;
      derive_aliases_all server_name rid rest aliases'
  end.

(** [for ev in mem.get("chunk", [])]: the membership of each member. *)
Fixpoint room_members_of (chunk : list json) (room_members : list (json * json))
  : result (list (json * json)) :=
  match chunk with
  | [] => Ok room_members
  | ev :: rest =>
      t <- obj_get ev "type" ;;
      if eq_str t "m.room.member" then
        uid <- obj_get ev "state_key" ;;
        content <- obj_get ev "content" ;;
        membership <- obj_get (if truthy content then content else JObj [])
                              "membership" ;;
        if truthy uid && truthy membership then
          room_members' <- store uid membership room_members ;;
          room_members_of rest room_members'
        else room_members_of rest room_members
      else room_members_of rest room_members
  end.

(** The [try] block around [api.room_members(rid)]. *)
Definition memberships_entry (response : result json) : list (json * json) :=
  match (mem <- response ;;
         chunk <- obj_get_default mem "chunk" (JArr []) ;;
         evs <- iterate chunk ;;
         room_members_of evs []) with
  | Ok room_members => room_members
  | Err e => [(JStr "_error", JStr (str_of_exn e))]
  end.

(** The three documents the room loop fills. *)
Record Documents : Type := {
  room_state : list (json * list json);
  memberships : list (json * list (json * json));
  aliases : list (json * json)
}.

Section RoomLoop.
Variable server_name : option string.        (* cfg.server_name *)
Variable api_room_state : Endpoint json.     (* api.room_state(rid) *)
Variable api_room_members : Endpoint json.   (* api.room_members(rid) *)

(** The body of [for rb in rooms_basic]; [n] counts the rooms asked for. *)
Definition collect_room (n : nat) (rb : dict) (docs : Documents)
  : result (nat * Documents) :=
  let rid := pyget rb "room_id" in
  if negb (truthy rid) then Ok (n, docs)
  else
    let st := match api_room_state n rid with
              | Ok st => st
              | Err e => JArr [JObj [("error", JStr (str_of_exn e))]]
              end in
    evs <- iterate st ;;
    filtered <- filter_important evs ;;
    room_state' <- store rid filtered (room_state docs) ;;
    aliases' <- derive_aliases_all server_name rid evs (aliases docs) ;;
    memberships' <- store rid (memberships_entry (api_room_members n rid))
                          (memberships docs) ;;
    Ok (S n, {| room_state := room_state';
                memberships := memberships';
                aliases := aliases' |}).

Fixpoint collect_rooms (n : nat) (rooms_basic : list dict) (docs : Documents)
  : result Documents :=
  match rooms_basic with
  | [] => Ok docs
  | rb :: rest =>
      step <- collect_room n rb docs ;;
      collect_rooms (fst step) rest (snd step)
  end.
End RoomLoop.

Definition empty_documents : Documents :=
  {| room_state := []; memberships := []; aliases := [] |}.

(** The part of [export_all] from [rooms_basic] to the three documents,
    given the rooms [api.list_rooms()] yielded: the content of [rooms.json]
    with that of [room_state.json], [memberships.json] and [aliases.json]. *)
Definition export_rooms (server_name : option string)
           (api_room_state api_room_members : Endpoint json)
           (listed : list json) : result (list dict * Documents) :=
  rooms_basic <- rooms_basic_of listed ;;
  docs <- collect_rooms server_name api_room_state api_room_members
                        0 rooms_basic empty_documents ;;
  Ok (rooms_basic, docs).

(** *** [export_all]: the users document *)

(** [requests.utils.quote(user_id, safe='')]: a string is quoted, anything
    else that JSON can hold makes [quote_from_bytes] raise. *)
Definition quote_check (user_id : json) : result unit :=
  match user_id with
  | JStr _ => Ok tt
  | _ => Err (Raise "TypeError" "quote_from_bytes() expected bytes")
  end.

(** [get_user_details(user_id)]: the quoting comes before the [try]; an
    exception of the request becomes a marker. *)
Definition get_user_details (api_user_details : Endpoint json) (n : nat)
           (user_id : json) : result json :=
  _ <- quote_check user_id ;;
  Ok (match api_user_details n user_id with
      | Ok details => details
      | Err e => JObj [("_error", JStr (str_of_exn e))]
      end).

(** The record appended to [users] for the [n]-th user yielded. *)
Definition user_record (api_user_details : Endpoint json) (n : nat) (u : dict)
  : result dict :=
  let uid := pyget u "name" in
  details <- (if truthy uid then get_user_details api_user_details n uid
              else Ok (JObj [])) ;;
  let threepids := match details with
                   | JObj d => pyget d "threepids"
                   | _ => JNull
                   end in
  Ok [("name", uid); ("user_id", uid);
      ("displayname", pyget u "displayname");
      ("is_admin", pyget u "is_admin");
      ("deactivated", pyget u "deactivated");
      ("shadow_banned", pyget u "shadow_banned");
      ("creation_ts", pyget u "creation_ts");
      ("threepids", threepids)].

(** [for u in api.list_users(): ... users.append(...)]. *)
Fixpoint users_document (api_user_details : Endpoint json) (n : nat)
         (yielded : list dict) : result (list dict) :=
  match yielded with
  | [] => Ok []
  | u :: rest =>
      record <- user_record api_user_details n u ;;
      more <- users_document api_user_details (S n) rest ;;
      Ok (record :: more)
  end.

(** *** [export_all]: the devices document *)

(** [list_user_devices(user_id)]: the quoting, then the request. *)
Definition list_user_devices (api_list_user_devices : Endpoint json) (n : nat)
           (user_id : json) : result json :=
  _ <- quote_check user_id ;;
  api_list_user_devices n user_id.

(** [for u in users]: the device list of each exported user, or the marker
    of the exception the call raised; [n] counts the users. *)
Fixpoint devices_of (api_list_user_devices : Endpoint json) (n : nat)
         (users : list dict) (devices : list (json * json))
  : result (list (json * json)) :=
  match users with
  | [] => Ok devices
  | u :: rest =>
      match sget "user_id" u with
      | None => Err (Raise "KeyError" "'user_id'")
      | Some uid =>
          let entry := match list_user_devices api_list_user_devices n uid with
                       | Ok listed => listed
                       | Err e => JObj [("_error", JStr (str_of_exn e))]
                       end in
          devices' <- store uid entry devices ;;
          devices_of api_list_user_devices (S n) rest devices'
      end
  end.

(** *** [export_all]: schema and manifest *)

(** [schema["files"]]. *)
Definition schema_files (include_devices include_media_refs : bool)
  : list string :=
  ((["users.json"; "rooms.json"; "room_state.json"; "memberships.json";
     "aliases.json"; "metadata.json"]
    ++ (if include_devices then ["devices.json"] else []))
   ++ (if include_media_refs then ["media_refs.json"] else []))%list.

(** [fh.read(size)] on what is left of a file: the bytes read, and what is
    left after them. *)
Fixpoint read (size : N) (left : list Byte.byte)
  : list Byte.byte * list Byte.byte :=
  match left with
  | [] => ([], [])
  | b :: after =>
      if N.eqb size 0 then ([], left)
      else let (chunk, rest) := read (N.pred size) after in (b :: chunk, rest)
  end.

Section Manifest.
(** [hashlib]: the hash objects, [hashlib.sha256()], [h.update(chunk)] as a
    function of the object before it, and [h.hexdigest()]. *)
Variable hash_object : Type.
Variable sha256 : hash_object.
Variable update : hash_object -> list Byte.byte -> hash_object.
Variable hexdigest : hash_object -> string.

(** [for chunk in iter(lambda: fh.read(size), b""): h.update(chunk)];
    [fuel] bounds the number of reads. *)
Fixpoint hash_chunks (size : N) (fuel : nat) (left : list Byte.byte)
         (h : hash_object) : option hash_object :=
  match fuel with
  | O => None
  | S fuel' =>
      let (chunk, rest) := read size left in
      if is_nil chunk then Some h
      else hash_chunks size fuel' rest (update h chunk)
  end.

(** [for fname in schema["files"]]: the digest of each file that exists
    under the output directory [out]. *)
Fixpoint manifest_of (fuel : nat) (out : string -> option (list Byte.byte))
         (files : list string) (manifest : list (string * string))
  : option (list (string * string)) :=
  match files with
  | [] => Some manifest
  | fname :: rest =>
      match out fname with
      | None => manifest_of fuel out rest manifest
      | Some content =>
          match hash_chunks (1024 * 1024) fuel content sha256 with
          | None => None
          | Some h =>
              manifest_of fuel out rest (sset fname (hexdigest h) manifest)
          end
      end
  end.
End Manifest.

(** *** [export_all] and [tar_zst]: the artifact *)

(** The name of the artifact; [timestamp] is what [strftime] returned. *)
Definition artifact_name (zstd : bool) (timestamp : string) : string :=
  let bundle_name := "synapse-export-" ++ timestamp in
  if zstd then bundle_name ++ ".tar.zst" else bundle_name ++ ".tar".

(** [tar.add(folder, arcname=folder.name)]: the folder, then what is below
    it, each entry named by the folder and its own path components. *)
Definition tar_members (folder_name : string) (tree : list (list string))
  : list string :=
  folder_name :: map (fun comps => join "/" (folder_name :: comps)) tree.

End Exporter.

(** * Notions used in the statements, and sample inputs *)

Import Importer.


(** The test [_safe_extract] applies to a member. *)
Definition rejected (name : string) : bool :=
  let normalized := normpath name in
  startswith normalized "/" || startswith normalized ".." || isabs normalized.

(** A [tar.extract] that extracts every member it is given. *)
Definition extracts_all (written : disk) (member : string) : option exn :=
  None.

(** The listing of an extraction directory whose entries are the members
    extracted, in that order. *)
Definition listing_in (tmpdir : string) (written : disk) : list string :=
  map (fun m => tmpdir ++ "/" ++ m) written.

(** A record of [rooms.json], by the keys the importer reads. *)
Definition room_of_record (d : Exporter.dict) : Room :=
  {| room_id := match sget "room_id" d with
                | Some (JStr rid) => Some rid
                | _ => None
                end;
     federatable := sget "federatable" d;
     version := pyget d "version" |}.

(** What one room record adds to the join list. *)
Definition joins_of (r : Room) : list string :=
  match room_id r with
  | Some rid =>
      if rid =? "" then []
      else if federatable_or_default r then [rid] else []
  | None => []
  end.

(** What one room record adds to the local-create list. *)
Definition creates_of (do_create_local_rooms : bool) (r : Room) : list string :=
  match room_id r with
  | Some rid =>
      if rid =? "" then []
      else if federatable_or_default r then []
      else if do_create_local_rooms then [rid] else []
  | None => []
  end.

(** The events of [msgs] failed attempts, starting at [attempt]: each failed
    request is followed by the backoff sleep of its attempt. *)
Fixpoint retry_events (q : request) (attempt : nat) (msgs : list string)
  : list event :=
  match msgs with
  | [] => []
  | m :: rest =>
      Request q (Some m) :: Slept (backoff_delay attempt)
      :: retry_events q (S attempt) rest
  end.

(** A conflict as the claim words it: the text says that the alias is
    already in use, or that it already exists. *)
Definition says_conflict (msg : string) : bool :=
  contains "already in use" msg || contains "already exists" msg.

(** The texts that end an alias item as a success. *)
Definition names_conflict (msg : string) : bool :=
  contains "M_ROOM_IN_USE" msg || contains "already exists" msg.

(** The sleeps of the backoff policy [min(30, 1.5 ** attempt)] after the
    attempts 0 to 3, in seconds. *)
Definition backoff_schedule : list Q := [1 # 1; 3 # 2; 9 # 4; 27 # 8]%Q.

(** The events of failed requests, each followed by its sleep. *)
Fixpoint failed_puts (q : request) (delays : list Q) (msgs : list string)
  : list event :=
  match msgs, delays with
  | m :: rest, d :: later =>
      Request q (Some m) :: Slept d :: failed_puts q later rest
  | _, _ => []
  end.

(** What an alias item leaves in the results when it ends as a success, and
    when it ends as a failure with the text [msg]. *)
Definition alias_recorded_created (alias : string) (res res' : Results)
  : Prop :=
  aliases_created res' = (aliases_created res ++ [alias])%list /\
  aliases_failed res' = aliases_failed res.

Definition alias_recorded_failed (alias msg : string) (res res' : Results)
  : Prop :=
  aliases_created res' = aliases_created res /\
  sget alias (aliases_failed res') = Some msg /\
  forall other, other <> alias ->
                sget other (aliases_failed res') = sget other (aliases_failed res).




(** The events of a snapshot that have a given type, in order. *)
Definition events_of_type (ty : string) (st : list Event) : list Event :=
  filter (fun ev => eq_str (pyget ev "type") ty) st.

(** [(ev.get("content") or {}).get(key)] when the content is a dict. *)
Definition content_value (key : string) (ev : Event) : json :=
  match or_empty (sget "content" ev) with
  | JObj d => pyget d key
  | _ => JNull
  end.

(** The value under [key] in the last, respectively first, event of type
    [ty]; [None] (JSON null) when the snapshot has no such event. *)
Definition last_value (ty key : string) (st : list Event) : json :=
  last (map (content_value key) (events_of_type ty st)) JNull.

Definition first_value (ty key : string) (st : list Event) : json :=
  hd JNull (map (content_value key) (events_of_type ty st)).

(** A target that accepts everything and has already joined [!a:x]. *)
Definition cooperative : Target unit :=
  {| get_joined_rooms := fun w => (Ok ["!a:x"], w);
     post_join := fun _ _ w => (Ok (JObj []), w);
     put_alias := fun _ _ w => (Ok (JObj []), w);
     post_create_room := fun _ w => (Ok (JObj [("room_id", JStr "!new:x")]), w) |}.

Definition start : Run unit := {| world := tt; trace := [] |}.

(** Two rooms, [!a:x] federatable and [!b:x] not, one alias; the state of
    [!b:x] holds two name events. *)
Definition renamed_state : list Event :=
  [[("type", JStr "m.room.name"); ("state_key", JStr "old");
    ("content", JObj [("name", JStr "Old name")])];
   [("type", JStr "m.room.topic"); ("state_key", JStr "");
    ("content", JObj [("topic", JStr "Town square")])];
   [("type", JStr "m.room.name"); ("state_key", JStr "");
    ("content", JObj [("name", JStr "New name")])]].

Definition town : Bundle :=
  {| rooms := [{| room_id := Some "!a:x"; federatable := Some (JBool true);
                  version := JStr "10" |};
               {| room_id := Some "!b:x"; federatable := Some (JBool false);
                  version := JStr "10" |}];
     room_state := [("!b:x", renamed_state)];
     memberships := [("!b:x", [("@u:x", "join"); ("@v:y", "join")])];
     aliases := [("#town:x", "!a:x")] |}.

Definition town_plan : ImportPlan := build_plan town "x" true true.

(** A source whose every page of rooms carries the continuation token 5. *)
Definition repeating_rooms : Exporter.Endpoint Z :=
  fun _ _ => Ok (JObj [("rooms", JArr [JObj [("room_id", JStr "!a:x")]]);
                       ("next_batch", JNum 5)]).

(** A source whose every page of users carries the continuation token 5. *)
Definition repeating_users : Exporter.Endpoint json :=
  fun _ _ => Ok (JObj [("users", JArr [JObj [("name", JStr "@u:x")]]);
                       ("next_token", JNum 5)]).

(** A room record, and a source whose per-room calls raise. *)
Definition room_a : Exporter.dict :=
  [("room_id", JStr "!a:x"); ("name", JStr "Town"); ("federatable", JBool true)].

Definition failing_state : Exporter.Endpoint json :=
  fun _ _ => Err (Raise "RuntimeError" "HTTP 500: Internal server error").

Definition failing_members : Exporter.Endpoint json :=
  fun _ _ => Err (Raise "RuntimeError" "HTTP 502: Bad gateway").

(** Every value stored in a dictionary satisfies [P]. *)
Definition values_in (P : json -> Prop) (d : list (json * json)) : Prop :=
  forall k v, In (k, v) d -> P v.

(** A source with two rooms; the state of [!a:x] names its canonical alias. *)
Definition town_listed : list json :=
  [JObj [("room_id", JStr "!a:x"); ("name", JStr "Town"); ("federatable", JBool true)];
   JObj [("room_id", JStr "!b:x"); ("name", JStr "Back room"); ("federatable", JBool false)]].

Definition town_state : Exporter.Endpoint json :=
  fun _ rid =>
    if py_eq rid (JStr "!a:x")
    then Ok (JArr [JObj [("type", JStr "m.room.canonical_alias");
                         ("state_key", JStr "");
                         ("content", JObj [("alias", JStr "#town:x")])];
                   JObj [("type", JStr "m.room.message");
                         ("content", JObj [("body", JStr "hello")])]])
    else Ok (JArr [JObj [("type", JStr "m.room.name"); ("state_key", JStr "");
                         ("content", JObj [("name", JStr "Back room")])]]).

Definition town_members : Exporter.Endpoint json :=
  fun _ _ =>
    Ok (JObj [("chunk",
               JArr [JObj [("type", JStr "m.room.member");
                           ("state_key", JStr "@u:x");
                           ("content", JObj [("membership", JStr "join")])]])]).

(** A target on which the alias is taken. *)
Definition taken : Target unit :=
  {| get_joined_rooms := fun w => (Ok [], w);
     post_join := fun _ _ w => (Ok (JObj []), w);
     put_alias := fun alias _ w =>
       (Err (Raise "RuntimeError"
                   ("HTTP 409 PUT /directory/room/%23town%3Ax: Room alias "
                      ++ alias ++ " already exists")), w);
     post_create_room := fun _ w => (Ok (JObj []), w) |}.

(** A target where every alias is taken, and says so without the error
    code. *)
Definition in_use : Target unit :=
  {| get_joined_rooms := fun w => (Ok [], w);
     post_join := fun _ _ w => (Ok (JObj []), w);
     put_alias := fun alias _ w =>
       (Err (Raise "RuntimeError"
                   ("HTTP 409 PUT /directory/room/%23town%3Ax: Room alias "
                      ++ alias ++ " is already in use")), w);
     post_create_room := fun _ w => (Ok (JObj []), w) |}.

(** A target that has joined [!a:x] and refuses every join; and a bundle
    with that room and another one to join, which has two aliases. *)
Definition joined_but_closed : Target unit :=
  {| get_joined_rooms := fun w => (Ok ["!a:x"], w);
     post_join := fun _ _ w => (Err (Raise "RuntimeError" "HTTP 403 Forbidden"), w);
     put_alias := fun _ _ w => (Ok (JObj []), w);
     post_create_room := fun _ w => (Ok (JObj []), w) |}.

Definition two_to_join : Bundle :=
  {| rooms := [{| room_id := Some "!a:x"; federatable := Some (JBool true);
                  version := JStr "10" |};
               {| room_id := Some "!c:y"; federatable := None;
                  version := JStr "10" |}];
     room_state :=
       [("!c:y", [[("type", JStr "m.room.canonical_alias");
                   ("content", JObj [("alias", JStr "#sea:y")])]])];
     memberships := [];
     aliases := [("#town:x", "!a:x"); ("#c:x", "!c:y")] |}.

(** A target that answers every request with an error. *)
Definition down : Target unit :=
  {| get_joined_rooms := fun w => (Err (Raise "RuntimeError" "HTTP 502 Bad gateway"), w);
     post_join := fun _ _ w => (Err (Raise "RuntimeError" "HTTP 502 Bad gateway"), w);
     put_alias := fun _ _ w => (Err (Raise "RuntimeError" "HTTP 502 Bad gateway"), w);
     post_create_room := fun _ w => (Err (Raise "RuntimeError" "HTTP 502 Bad gateway"), w) |}.

(** A bundle with a local alias, a remote one, and one of a look-alike domain. *)
Definition mixed_aliases : Bundle :=
  {| rooms := []; room_state := []; memberships := [];
     aliases := [("#town:x", "!a:x"); ("#far:y", "!b:y"); ("#odd:ax", "!c:ax")] |}.

(** A target that lists no joined room and fails every other request. *)
Definition down_after_start : Target unit :=
  {| get_joined_rooms := fun w => (Ok [], w);
     post_join := fun _ _ w => (Err (Raise "RuntimeError" "HTTP 502 Bad gateway"), w);
     put_alias := fun _ _ w => (Err (Raise "RuntimeError" "HTTP 502 Bad gateway"), w);
     post_create_room := fun _ w => (Err (Raise "RuntimeError" "HTTP 502 Bad gateway"), w) |}.

(** Strictly increasing order of strings, by code point. *)
Definition str_lt (a b : string) : Prop := String.compare a b = Lt.

(** An event whose type is one of the four forwarded to the new room. *)
Definition is_forwarded (ev : Event) : bool :=
  existsb (eq_str (pyget ev "type")) forwarded_types.

(** The initial-state entry made of a snapshot event. *)
Definition forwarded_event (ev : Event) : json :=
  JObj [("type", pyget ev "type"); ("state_key", JStr "");
        ("content", or_empty (sget "content" ev))].

(** A join-rules event that declares the room public. *)
Definition is_public_rule (ev : Event) : bool :=
  eq_str (pyget ev "type") "m.room.join_rules"
  && eq_str (content_value "join_rule" ev) "public".

(** A room record that carries the identifier [rid] (not empty). *)
Definition has_room_id (rid : string) (r : Room) : bool :=
  match room_id r with
  | Some i => (i =? rid) && negb (i =? "")
  | None => false
  end.

(** A non-federatable public room, recorded twice with different versions. *)
Definition lobby : Bundle :=
  {| rooms := [{| room_id := Some "!l:x"; federatable := Some (JBool false);
                  version := JStr "9" |};
               {| room_id := Some "!l:x"; federatable := Some (JBool false);
                  version := JStr "11" |}];
     room_state :=
       [("!l:x",
         [[("type", JStr "m.room.create"); ("content", JObj [("creator", JStr "@a:x")])];
          [("type", JStr "m.room.power_levels");
           ("content", JObj [("users_default", JNum 0)])];
          [("type", JStr "m.room.name"); ("content", JObj [("name", JStr "Lobby")])];
          [("type", JStr "m.room.join_rules");
           ("content", JObj [("join_rule", JStr "public")])]])];
     memberships :=
       [("!l:x", [("@b:x", "invite"); ("@a:x", "join"); ("@c:x", "leave");
                  ("@d:y", "join")])];
     aliases := [] |}.

(** A target on which rooms can be joined by alias only. *)
Definition aliases_only : Target unit :=
  {| get_joined_rooms := fun w => (Ok [], w);
     post_join := fun room _ w =>
       if startswith room "!"
       then (Err (Raise "RuntimeError" "HTTP 404 POST: room unknown"), w)
       else (Ok (JObj [("room_id", JStr "!a:x")]), w);
     put_alias := fun _ _ w => (Ok (JObj []), w);
     post_create_room := fun _ w => (Ok (JObj []), w) |}.



(** A room, or an alias, that the results account for. *)
Definition accounted_join (rid : string) (res : Results) : Prop :=
  In rid (joined res) \/ sget rid (join_failed res) <> None.

Definition accounted_alias (alias : string) (res : Results) : Prop :=
  In alias (aliases_created res) \/ sget alias (aliases_failed res) <> None.

(** The documents [load_bundle] requires, in the order it reads them. *)
Definition required_documents : list string :=
  ["users.json"; "rooms.json"; "room_state.json"; "memberships.json";
   "aliases.json"; "metadata.json"].

(** An export directory given as the bundle, and its files: every document
    is an empty list or dict, and one file is missing. *)
Definition export_dir : BundlePath :=
  {| bp_path := "/srv/export_bundle"; bp_name := "export_bundle";
     bp_is_dir := true; bp_members := [] |}.

Definition directory_without (missing : string) (root name : string)
  : option (result json) :=
  if name =? missing then None
  else if (name =? "users.json") || (name =? "rooms.json") then Some (Ok (JArr []))
  else if existsb (String.eqb name)
                  ["room_state.json"; "memberships.json"; "aliases.json";
                   "metadata.json"; "devices.json"]
       then Some (Ok (JObj []))
       else None.

(** An export directory whose [devices.json] holds [null]. *)
Definition null_devices_dir (root name : string) : option (result json) :=
  if name =? "devices.json" then Some (Ok JNull)
  else directory_without "" root name.

(** An archive made without a wrapping folder: the required documents are
    its top-level members; and the files then found under the extraction
    directory, each an empty JSON object. *)
Definition flat_archive : BundlePath :=
  {| bp_path := "/srv/flat.tar"; bp_name := "flat.tar";
     bp_is_dir := false; bp_members := required_documents |}.

Definition flat_files (root name : string) : option (result json) :=
  if (root =? "/tmp/matrix-import-1")
     && existsb (String.eqb name) required_documents
  then Some (Ok (JObj []))
  else None.

(** Two users, and a source that lists the devices of the first user asked
    about and fails for the second. *)
Definition two_users : list Exporter.dict :=
  [[("name", JStr "@u:x")]; [("name", JStr "@v:x"); ("is_admin", JBool true)]].

Definition devices_source : Exporter.Endpoint json :=
  fun n _ =>
    match n with
    | 0 => Ok (JObj [("devices", JArr [JObj [("device_id", JStr "ABC")]])])
    | _ => Err (Raise "RuntimeError" "HTTP 404: User not found")
    end.

(** An event that the room-state document may hold. *)
Definition is_important (ev : json) : Prop :=
  match obj_get ev "type" with
  | Ok t => existsb (eq_str t) Exporter.important_state_types = true
  | Err _ => False
  end.

(** A room that has an entry in the room-state and memberships documents. *)
Definition has_entries (rid : json) (docs : Exporter.Documents) : Prop :=
  jget rid (Exporter.room_state docs) <> None /\
  jget rid (Exporter.memberships docs) <> None.

(** An alias of the domain [sn]: a string that ends with [":" + sn]. *)
Definition in_domain (sn : string) (a : json) : Prop :=
  exists s, a = JStr s /\ endswith s (":" ++ sn) = true.

Definition keys_in_domain (sn : string) (d : list (json * json)) : Prop :=
  forall k v, In (k, v) d -> in_domain sn k.

(** A source whose rooms list aliases of several domains. *)
Definition listed_aliases_state : Exporter.Endpoint json :=
  fun _ rid =>
    if py_eq rid (JStr "!a:x")
    then Ok (JArr [JObj [("type", JStr "m.room.aliases"); ("state_key", JStr "x");
                         ("content",
                          JObj [("aliases",
                                 JArr [JStr "#square:x"; JStr "#plaza:y"])])];
                   JObj [("type", JStr "m.room.canonical_alias");
                         ("state_key", JStr "");
                         ("content", JObj [("alias", JStr "#town:x")])]])
    else Ok (JArr [JObj [("type", JStr "m.room.canonical_alias");
                         ("state_key", JStr "");
                         ("content", JObj [("alias", JStr "#remote:y")])];
                   JObj [("type", JStr "m.room.aliases"); ("state_key", JStr "x");
                         ("content", JObj [("aliases", JArr [JStr "#back:x"])])]]).

(** A page of the room listing that holds [rooms] and carries the token
    [next], or no token at all. *)
Definition rooms_page_with (rooms : list json) (next : option Z) (page : json)
  : Prop :=
  exists data,
    page = JObj data /\
    sget "rooms" data = Some (JArr rooms) /\
    match next with
    | Some t => pyget data "next_batch" = JNum t /\ t <> 0%Z
    | None => truthy (pyget data "next_batch") = false /\
              truthy (pyget data "next_token") = false
    end.

(** A source with three pages of rooms. *)
Definition three_pages : Exporter.Endpoint Z :=
  fun n _ =>
    match n with
    | 0 => Ok (JObj [("rooms", JArr [JStr "r1"; JStr "r2"]); ("next_batch", JNum 2)])
    | 1 => Ok (JObj [("rooms", JArr [JStr "r3"]); ("next_batch", JNum 3)])
    | _ => Ok (JObj [("rooms", JArr [JStr "r4"]); ("total_rooms", JNum 4)])
    end.

(** The digest of a whole content, hashed in one piece. *)
Definition whole_digest {hash_object : Type} (sha256 : hash_object)
           (update : hash_object -> list Byte.byte -> hash_object)
           (hexdigest : hash_object -> string) (content : list Byte.byte)
  : string :=
  hexdigest (match content with
             | [] => sha256
             | _ :: _ => update sha256 content
             end).

(** A stand-in hash object that remembers what it was fed, and shows how
    much that was. *)
Definition fed_bytes_digest (h : list Byte.byte) : string :=
  repeat_str "a" (List.length h).

(** An output directory with two of the documents. *)
Definition sample_out (fname : string) : option (list Byte.byte) :=
  if fname =? "users.json" then Some [Byte.x5b; Byte.x5d]
  else if fname =? "aliases.json" then Some []
  else None.

(** A name as a directory listing gives it: not empty, without a slash. *)
Definition plain_name (c : string) : bool :=
  negb (c =? "") && negb (contains "/" c).

(** A plain name other than the two special entries. *)
Definition entry_name (c : string) : bool :=
  plain_name c && negb (c =? ".") && negb (c =? "..").

(** What [iterdir] finds under [tmpdir] after an extraction: the top-level
    entry of what was written first. *)
Definition top_level_of (tmpdir : string) (written : disk) : list string :=
  match written with
  | [] => []
  | first :: _ => [tmpdir ++ "/" ++ hd "" (split "/"%char first)]
  end.


(** * Properties *)

(** ** Dictionaries *)

Lemma dict_get_set_same {K V} (keq : K -> K -> bool) (k : K) (v : V)
      (d : list (K * V)) :
  keq k k = true ->
  dict_get keq k (dict_set keq k v d) = Some v.
Proof.
  intros Hrefl.
  induction d as [|[k' v'] rest IH]; simpl.
  - now rewrite Hrefl.
  - destruct (keq k k') eqn:E; simpl; rewrite E; [reflexivity | exact IH].
Qed.

Lemma sget_sset_same {V} (k : string) (v : V) (d : list (string * V)) :
  sget k (sset k v d) = Some v.
Proof.
  unfold sget, sset. apply dict_get_set_same. apply String.eqb_refl.
Qed.

Lemma sget_sset_other {V} (k k' : string) (v : V) (d : list (string * V)) :
  k <> k' -> sget k (sset k' v d) = sget k d.
Proof.
  unfold sget, sset. intros Hne.
  induction d as [|[k0 v0] rest IH]; simpl.
  - apply String.eqb_neq in Hne. now rewrite Hne.
  - destruct (k' =? k0) eqn:E; simpl.
    + apply String.eqb_eq in E. subst k0.
      apply String.eqb_neq in Hne. now rewrite Hne.
    + now rewrite IH.
Qed.

(** ** Bundle reader: unsafe archive members *)



Lemma safe_extract_all_accepted (tar_extract : disk -> string -> option exn)
      (members : list string) (written : disk) :
  Forall (fun m => rejected m = false) members ->
  (forall done m, In m members ->
                  tar_extract (written ++ done)%list m = None) ->
  _safe_extract tar_extract members written
  = (Ok tt, (written ++ members)%list).
Proof.
  revert written. induction members as [|m ms IH]; intros written H Hx; simpl.
  - now rewrite app_nil_r.
  - inversion H as [|? ? Hm Hms]; subst.
    unfold rejected in Hm. cbv zeta in Hm. rewrite Hm.
    pose proof (Hx [] m (or_introl eq_refl)) as Hm0.
    rewrite app_nil_r in Hm0. rewrite Hm0.
    rewrite IH; [now rewrite <- app_assoc | assumption |].
    intros done m' Hin. rewrite <- app_assoc. apply Hx. now right.
Qed.






(** An archive whose first member cannot be extracted fails there, before
    the unsafe member is reached. *)
Example extraction_error_comes_first :
  _safe_extract (fun _ m => if m =? "a/../b.json"
                            then Some (Raise "FileExistsError" "[Errno 17] File exists")
                            else None)
                ["a/../b.json"; "../evil"] []
  = (Err (Raise "FileExistsError" "[Errno 17] File exists"), []).
Proof. reflexivity. Qed.

(** ** Bundle reader: the effective root *)

(** A successful extraction chose the root from the listing of the
    extraction directory: its first entry, or the directory itself when the
    listing is empty. *)
Lemma extract_bundle_root (zstd : bool) (tmpdir : string)
      (iterdir : disk -> list string)
      (tar_extract : disk -> string -> option exn) (bp : BundlePath)
      (root : string) (written : disk) :
  bp_is_dir bp = false ->
  _extract_bundle_to_temp zstd tmpdir iterdir tar_extract bp
  = (Ok root, written) ->
  root = hd tmpdir (iterdir written).
Proof.
  unfold _extract_bundle_to_temp. intros -> H.
  cbv zeta in H.
  match type of H with
  | (match ?x with _ => _ end) = _ => destruct x as [[u|e] w]
  end.
  - inversion H; subst. destruct (iterdir written); reflexivity.
  - discriminate H.
Qed.

(** C7 at an archive without a wrapping folder, which holds the six required
    documents at its top level: every member is extracted, the extraction
    directory lists the six documents, and the root chosen is the first of
    them, a file, instead of the extraction directory; so the load fails
    for a missing [users.json] although every required document is there. *)
Theorem flat_archive_is_not_loadable :
  _extract_bundle_to_temp true "/tmp/matrix-import-1"
    (listing_in "/tmp/matrix-import-1") extracts_all flat_archive
  = (Ok "/tmp/matrix-import-1/users.json", required_documents) /\
  List.length (listing_in "/tmp/matrix-import-1" required_documents) = 6 /\
  (forall name, In name required_documents ->
                flat_files "/tmp/matrix-import-1" name = Some (Ok (JObj []))) /\
  load_bundle true "/tmp/matrix-import-1" (listing_in "/tmp/matrix-import-1")
    extracts_all (fun _ => true) flat_files flat_archive
  = Err (Raise "FileNotFoundError"
               "Missing required file in bundle: users.json").
Proof.
  split; [vm_compute; reflexivity|].
  split; [reflexivity|].
  split; [|vm_compute; reflexivity].
  intros name Hin. simpl in Hin.
  repeat (destruct Hin as [<- | Hin]; [reflexivity|]). destruct Hin.
Qed.

(** ** Plan builder: classification of rooms *)

Lemma plan_rooms_eq (lc : bool) (rs : list Room) :
  forall join create : list string,
    plan_rooms lc rs join create =
    ((join ++ flat_map joins_of rs)%list,
     (create ++ flat_map (creates_of lc) rs)%list).
Proof.
  induction rs as [|r rest IH]; intros join create; simpl.
  - now rewrite !app_nil_r.
  - unfold joins_of at 1, creates_of at 1.
    destruct (room_id r) as [id|]; [|apply IH].
    destruct (id =? ""); [apply IH|].
    destruct (federatable_or_default r); [|destruct lc];
      rewrite IH; simpl; now rewrite <- ?app_assoc.
Qed.

Lemma in_joins_of (r : Room) (rid : string) :
  In rid (joins_of r) <->
  room_id r = Some rid /\ rid <> "" /\ federatable_or_default r = true.
Proof.
  unfold joins_of.
  destruct (room_id r) as [id|]; [|split; [intros [] | intros [H _]; discriminate H]].
  destruct (id =? "") eqn:E.
  - apply String.eqb_eq in E. subst id.
    split; [intros [] | intros (H & Hne & _); congruence].
  - apply String.eqb_neq in E.
    destruct (federatable_or_default r).
    + split.
      * intros [<- | []]. auto.
      * intros (H & _). left. congruence.
    + split; [intros [] | intros (_ & _ & H); discriminate H].
Qed.

Lemma in_creates_of (lc : bool) (r : Room) (rid : string) :
  In rid (creates_of lc r) <->
  room_id r = Some rid /\ rid <> "" /\
  federatable_or_default r = false /\ lc = true.
Proof.
  unfold creates_of.
  destruct (room_id r) as [id|]; [|split; [intros [] | intros [H _]; discriminate H]].
  destruct (id =? "") eqn:E.
  - apply String.eqb_eq in E. subst id.
    split; [intros [] | intros (H & Hne & _); congruence].
  - apply String.eqb_neq in E.
    destruct (federatable_or_default r).
    + split; [intros [] | intros (_ & _ & H & _); discriminate H].
    + destruct lc.
      * split.
        -- intros [<- | []]. auto.
        -- intros (H & _). left. congruence.
      * split; [intros [] | intros (_ & _ & _ & H); discriminate H].
Qed.

Lemma federatable_or_default_true (r : Room) :
  federatable_or_default r = true <->
  federatable r = None \/ exists v, federatable r = Some v /\ truthy v = true.
Proof.
  unfold federatable_or_default. destruct (federatable r) as [v|].
  - split; [intros H; right; now exists v|].
    intros [H | (w & H & Hw)]; congruence.
  - split; auto.
Qed.

Lemma federatable_or_default_false (r : Room) :
  federatable_or_default r = false <->
  exists v, federatable r = Some v /\ truthy v = false.
Proof.
  unfold federatable_or_default. destruct (federatable r) as [v|].
  - split; [intros H; now exists v|].
    intros (w & H & Hw); congruence.
  - split; [discriminate | intros (w & H & _); discriminate H].
Qed.

(** How the room loop of [build_plan] sorts the records: by the truth value
    of the federatable flag, taken as true only when the key is absent. *)
Lemma build_plan_rooms_by_truth_value :
  forall (bundle : Bundle) (server_name : string)
         (do_create_local_rooms do_create_aliases : bool) (rid : string),
    let plan := build_plan bundle server_name
                           do_create_local_rooms do_create_aliases in
    (In rid (join_rooms plan) <->
     exists r, In r (rooms bundle) /\ room_id r = Some rid /\ rid <> "" /\
               (federatable r = None \/
                exists v, federatable r = Some v /\ truthy v = true)) /\
    (In rid (create_rooms plan) <->
     exists r, In r (rooms bundle) /\ room_id r = Some rid /\ rid <> "" /\
               (exists v, federatable r = Some v /\ truthy v = false) /\
               do_create_local_rooms = true).
Proof.
  intros bundle server_name lc ca rid. cbv zeta.
  unfold build_plan. rewrite plan_rooms_eq. simpl.
  rewrite !in_flat_map. split.
  - split.
    + intros (r & Hin & H). apply in_joins_of in H.
      destruct H as (H1 & H2 & H3). apply federatable_or_default_true in H3.
      exists r. auto.
    + intros (r & Hin & H1 & H2 & H3). exists r. split; [assumption|].
      apply in_joins_of. apply federatable_or_default_true in H3. auto.
  - split.
    + intros (r & Hin & H). apply in_creates_of in H.
      destruct H as (H1 & H2 & H3 & H4).
      apply federatable_or_default_false in H3. exists r. auto.
    + intros (r & Hin & H1 & H2 & H3 & H4). exists r. split; [assumption|].
      apply in_creates_of. apply federatable_or_default_false in H3. auto.
Qed.

Lemma room_basic_keys (listed : Exporter.dict) :
  exists record,
    Exporter.room_basic (JObj listed) = Ok record /\
    sget "room_id" record = Some (pyget listed "room_id") /\
    sget "federatable" record = Some (pyget listed "federatable") /\
    sget "version" record = Some (pyget listed "version").
Proof.
  eexists. split; [reflexivity|]. repeat split; reflexivity.
Qed.

(** C2 at a room for which the source gives no federatable flag.  The
    exporter writes the record of such a room with the flag set to [null];
    the plan built from that record does not join the room, and recreates it
    locally when local-room creation is enabled, although the flag is not
    false.  The same room with the key left out is joined. *)
Theorem room_without_flag_is_not_joined :
  forall (listed : Exporter.dict) (rid server_name : string)
         (do_create_local_rooms do_create_aliases : bool),
    sget "room_id" listed = Some (JStr rid) ->
    rid <> "" ->
    sget "federatable" listed = None ->
    exists record : Exporter.dict,
      Exporter.room_basic (JObj listed) = Ok record /\
      sget "federatable" record = Some JNull /\
      build_plan {| rooms := [room_of_record record]; room_state := [];
                    memberships := []; aliases := [] |}
                 server_name do_create_local_rooms do_create_aliases
      = {| join_rooms := [];
           create_rooms := if do_create_local_rooms then [rid] else [];
           create_aliases := [] |} /\
      build_plan {| rooms := [room_of_record listed]; room_state := [];
                    memberships := []; aliases := [] |}
                 server_name do_create_local_rooms do_create_aliases
      = {| join_rooms := [rid]; create_rooms := []; create_aliases := [] |}.
Proof.
  intros listed rid sn lc ca Hid Hne Hflag.
  destruct (room_basic_keys listed) as (record & Hrec & Hrid & Hfed & Hver).
  exists record. split; [exact Hrec|].
  unfold pyget in Hrid, Hfed. rewrite Hid in Hrid. rewrite Hflag in Hfed.
  cbn [or_null] in Hrid, Hfed.
  split; [exact Hfed|].
  apply String.eqb_neq in Hne.
  unfold build_plan, room_of_record.
  cbn [rooms aliases plan_rooms room_id federatable_or_default federatable].
  rewrite Hrid, Hfed, Hid, Hflag, Hne. cbn [truthy].
  split; destruct lc, ca; reflexivity.
Qed.

Lemma room_without_flag_is_not_joined_witness :
  exists record : Exporter.dict,
    Exporter.room_basic
      (JObj [("room_id", JStr "!a:x"); ("name", JStr "Town")]) = Ok record /\
    sget "federatable" record = Some JNull /\
    build_plan {| rooms := [room_of_record record]; room_state := [];
                  memberships := []; aliases := [] |} "x" true false
    = {| join_rooms := [];
         create_rooms := if true then ["!a:x"] else [];
         create_aliases := [] |} /\
    build_plan {| rooms := [room_of_record
                              [("room_id", JStr "!a:x"); ("name", JStr "Town")]];
                  room_state := []; memberships := []; aliases := [] |}
               "x" true false
    = {| join_rooms := ["!a:x"]; create_rooms := []; create_aliases := [] |}.
Proof.
  apply (room_without_flag_is_not_joined
           [("room_id", JStr "!a:x"); ("name", JStr "Town")] "!a:x" "x"
           true false).
  - reflexivity.
  - discriminate.
  - reflexivity.
Defined.

(** ** Reconciler: alias creation *)

Lemma in_retry_events (q : request) (m : string) (msgs : list string) :
  forall attempt,
    In (Request q (Some m)) (retry_events q attempt msgs) -> In m msgs.
Proof.
  induction msgs as [|m' rest IH]; intros attempt H; simpl in *.
  - exact H.
  - destruct H as [H | [H | H]].
    + left. congruence.
    + discriminate H.
    + right. eapply IH, H.
Qed.

Lemma alias_attempts_cons {World} (target : Target World)
      (attempt : nat) (rest : list nat) (alias rid : string)
      (res : Results) (r : Run World) :
  alias_attempts target (attempt :: rest) alias rid res r =
  match put_room_alias target alias rid r with
  | (Ok _, r') => (add_alias_created alias res, r')
  | (Err e, r') =>
      if is_conflict (str_of_exn e) then (add_alias_created alias res, r')
      else if Nat.ltb attempt 4
           then alias_attempts target rest alias rid res (backoff_sleep attempt r')
           else alias_attempts target rest alias rid
                  (set_alias_failed alias (str_of_exn e) res) r'
  end.
Proof. reflexivity. Qed.

Lemma put_room_alias_trace {World} (target : Target World)
      (alias rid : string) (r r' : Run World) (x : result json) :
  put_room_alias target alias rid r = (x, r') ->
  trace r' = (trace r ++ [Request (PutAlias alias rid) (error_of x)])%list.
Proof.
  unfold put_room_alias, perform.
  destruct (put_alias World target alias rid (world r)) as [y w].
  intros H. inversion H; subst. reflexivity.
Qed.

(** What the attempts of one alias do, from attempt [k] on. *)
Lemma alias_attempts_spec {World} (target : Target World)
      (alias rid : string) (n : nat) :
  forall (k : nat) (res : Results) (r : Run World),
    k + S n = 5 ->
    exists msgs final,
      Forall (fun m => is_conflict m = false) msgs /\
      k + List.length msgs <= 4 /\
      trace (snd (alias_attempts target (seq k (S n)) alias rid res r)) =
      (trace r ++ retry_events (PutAlias alias rid) k msgs
         ++ [Request (PutAlias alias rid) final])%list /\
      match final with
      | None =>
          fst (alias_attempts target (seq k (S n)) alias rid res r) =
          add_alias_created alias res
      | Some m =>
          if is_conflict m
          then fst (alias_attempts target (seq k (S n)) alias rid res r) =
               add_alias_created alias res
          else k + List.length msgs = 4 /\
               fst (alias_attempts target (seq k (S n)) alias rid res r) =
               set_alias_failed alias m res
      end.
Proof.
  induction n as [|n IH]; intros k res r Hk.
  - assert (k = 4) by lia. subst k.
    change (seq 4 1) with [4].
    rewrite alias_attempts_cons.
    destruct (put_room_alias target alias rid r) as [x r0] eqn:Hput.
    apply put_room_alias_trace in Hput.
    destruct x as [v|e]; simpl.
    + exists [], None. simpl. repeat split; auto.
    + destruct (is_conflict (str_of_exn e)) eqn:C; simpl;
        exists [], (Some (str_of_exn e)); simpl; rewrite C; repeat split; auto.
  - change (seq k (S (S n))) with (k :: seq (S k) (S n)).
    rewrite alias_attempts_cons.
    destruct (put_room_alias target alias rid r) as [x r0] eqn:Hput.
    apply put_room_alias_trace in Hput.
    destruct x as [v|e]; cbn [error_of] in Hput.
    + exists [], None. simpl. repeat split; auto. lia.
    + destruct (is_conflict (str_of_exn e)) eqn:C.
      * exists [], (Some (str_of_exn e)). simpl. rewrite C.
        repeat split; auto. lia.
      * assert (Hlt : Nat.ltb k 4 = true) by (apply Nat.ltb_lt; lia).
        rewrite Hlt.
        destruct (IH (S k) res (backoff_sleep k r0))
          as (msgs & final & Hall & Hlen & Htr & Hres); [lia|].
        exists (str_of_exn e :: msgs), final.
        split; [constructor; assumption|].
        split; [simpl; lia|].
        split.
        { rewrite Htr. simpl. rewrite Hput. rewrite <- !app_assoc. reflexivity. }
        destruct final as [m|]; [|exact Hres].
        destruct (is_conflict m); [exact Hres|].
        destruct Hres as [H1 H2]. split; [simpl; lia | exact H2].
Qed.

Lemma retry_events_schedule (q : request) (msgs : list string) :
  List.length msgs <= 4 ->
  retry_events q 0 msgs = failed_puts q backoff_schedule msgs.
Proof.
  intros Hlen.
  destruct msgs as [|m1 [|m2 [|m3 [|m4 [|m5 rest]]]]];
    try reflexivity.
  simpl in Hlen. lia.
Qed.

(** C3, as the code has it.  For an alias item that is really applied, the
    requests are PUTs of that alias, at most five; each failure whose text
    holds neither the error code M_ROOM_IN_USE nor the words "already
    exists" is followed by the sleep of the backoff policy (1, 1.5, 2.25 and
    3.375 seconds) and a new PUT.  A PUT that succeeds, or that fails with
    such a text, ends the item with the alias recorded as created and the
    failure map untouched; the alias enters the failure map, with the text
    of the last error, only when the fifth PUT fails with another text. *)
Theorem alias_conflict_counts_as_created :
  forall {World} (target : Target World) (alias rid : string)
         (res : Results) (r : Run World),
    let q := PutAlias alias rid in
    let res' := fst (alias_item target false alias rid res r) in
    let r' := snd (alias_item target false alias rid res r) in
    exists msgs final,
      Forall (fun m => names_conflict m = false) msgs /\
      List.length msgs <= 4 /\
      trace r' = (trace r ++ failed_puts q backoff_schedule msgs
                    ++ [Request q final])%list /\
      match final with
      | None => alias_recorded_created alias res res'
      | Some m =>
          if names_conflict m then alias_recorded_created alias res res'
          else List.length msgs = 4 /\ alias_recorded_failed alias m res res'
      end /\
      (forall m,
          In (Request q (Some m))
             (failed_puts q backoff_schedule msgs ++ [Request q final]) ->
          names_conflict m = true ->
          alias_recorded_created alias res res').
Proof.
  intros World target alias rid res r. cbv zeta.
  unfold alias_item.
  destruct (alias_attempts_spec target alias rid 4 0 res r eq_refl)
    as (msgs & final & Hall & Hlen & Htr & Hres).
  cbn [Nat.add] in Hlen.
  assert (Hend : match final with
                 | None => alias_recorded_created alias res
                             (fst (alias_attempts target (seq 0 5) alias rid res r))
                 | Some m =>
                     if names_conflict m
                     then alias_recorded_created alias res
                            (fst (alias_attempts target (seq 0 5) alias rid res r))
                     else List.length msgs = 4 /\
                          alias_recorded_failed alias m res
                            (fst (alias_attempts target (seq 0 5) alias rid res r))
                 end).
  { destruct final as [m|].
    - change (names_conflict m) with (is_conflict m).
      destruct (is_conflict m).
      + rewrite Hres. split; reflexivity.
      + destruct Hres as [H4 ->]. split; [exact H4|].
        split; [reflexivity|]. cbn [aliases_failed set_alias_failed].
        split; [apply sget_sset_same|].
        intros other Hne. now apply sget_sset_other.
    - rewrite Hres. split; reflexivity. }
  exists msgs, final.
  split; [exact Hall|]. split; [exact Hlen|].
  rewrite <- (retry_events_schedule _ msgs Hlen).
  split; [exact Htr|]. split; [exact Hend|].
  intros m Hin Hc. apply in_app_iff in Hin. destruct Hin as [Hin | Hin].
  - apply in_retry_events in Hin. rewrite Forall_forall in Hall.
    specialize (Hall m Hin). cbv beta in Hall.
    change (names_conflict m) with (is_conflict m) in Hc. congruence.
  - destruct Hin as [Hin | []]. inversion Hin; subst final.
    rewrite Hc in Hend. exact Hend.
Qed.

(** C3 as stated fails: an error that says the alias is already in use,
    without the error code, is retried and ends in the failure map. *)
Lemma alias_in_use_text_is_recorded_failed :
  ~ (forall {World} (target : Target World) (alias rid : string)
            (res : Results) (r : Run World) (m : string),
        In (Request (PutAlias alias rid) (Some m))
           (trace (snd (alias_item target false alias rid res r))) ->
        says_conflict m = true ->
        In alias (aliases_created (fst (alias_item target false alias rid res r)))
        /\ aliases_failed (fst (alias_item target false alias rid res r))
           = aliases_failed res).
Proof.
  intros H.
  destruct (H unit in_use "#town:x" "!a:x" empty_results start
              "HTTP 409 PUT /directory/room/%23town%3Ax: Room alias #town:x is already in use")
    as [_ Hfailed].
  - vm_compute. auto.
  - reflexivity.
  - vm_compute in Hfailed. discriminate Hfailed.
Qed.

(** ** Reconciler: rooms the target has already joined *)

Lemma existsb_eqb_in (rid : string) (l : list string) :
  In rid l -> existsb (String.eqb rid) l = true.
Proof.
  intros H. apply existsb_exists. exists rid. split; [exact H|].
  apply String.eqb_refl.
Qed.

Lemma join_item_already_joined {World} (target : Target World)
      (bundle : Bundle) (via : list string) (dry_run : bool)
      (already_joined : list string) (rid : string)
      (res : Results) (r : Run World) :
  In rid already_joined ->
  join_item target bundle via dry_run already_joined rid res r =
  (Ok (add_joined rid res), r).
Proof.
  intros H. unfold join_item. now rewrite (existsb_eqb_in _ _ H).
Qed.





(** When every room of the list is already joined, the join phase sends no
    request at all. *)
Lemma join_loop_all_already_joined {World} (target : Target World)
      (bundle : Bundle) (via : list string) (dry_run : bool)
      (already_joined : list string) (rids : list string) :
  forall (res : Results) (r : Run World),
    (forall rid, In rid rids -> In rid already_joined) ->
    join_loop target bundle via dry_run already_joined rids res r =
    (Ok (fold_left (fun acc rid => add_joined rid acc) rids res), r).
Proof.
  induction rids as [|rid rest IH]; intros res r H; simpl; [reflexivity|].
  rewrite join_item_already_joined by (apply H; now left).
  apply IH. intros x Hx. apply H. now right.
Qed.



















(** The run of that witness: five join attempts for the room still to be
    joined, then one by each of its two aliases, and none for the room the
    target had joined. *)
Example joined_room_is_left_alone :
  map (fun ev => match ev with
                 | Request (PostJoin room _) _ => room
                 | _ => ""
                 end)
      (filter (fun ev => match ev with
                         | Request (PostJoin _ _) _ => true
                         | _ => false
                         end)
              (trace (snd (perform_import joined_but_closed two_to_join
                             (build_plan two_to_join "x" false true)
                             ["old.example.org"] false "x" false start))))
  = ["!c:y"; "!c:y"; "!c:y"; "!c:y"; "!c:y"; "#sea:y"; "#c:x"].
Proof. vm_compute. reflexivity. Qed.

(** ** Reconciler: name and topic of a room created locally *)

Lemma last_cons {A} (a d : A) (l : list A) : last (a :: l) d = last l a.
Proof.
  revert a d. induction l as [|b l IH]; intros a d; [reflexivity|].
  change (last (a :: b :: l) d) with (last (b :: l) d).
  rewrite (IH b d), (IH b a). reflexivity.
Qed.

(** The loop over the snapshot leaves in [name] and [topic] the value of the
    last event of each type, or what they held before when there is none. *)
Lemma scan_state_last (st : list Event) :
  forall (name topic : json) (initial_state : list json)
         (name' topic' : json) (initial_state' : list json),
    scan_state st name topic initial_state = Ok (name', topic', initial_state') ->
    name' = last (map (content_value "name") (events_of_type "m.room.name" st))
                 name /\
    topic' = last (map (content_value "topic") (events_of_type "m.room.topic" st))
                  topic.
Proof.
  induction st as [|ev rest IH]; intros name topic init name' topic' init' H.
  - inversion H; subst. split; reflexivity.
  - cbn [scan_state] in H. unfold events_of_type. cbn [filter].
    fold (events_of_type "m.room.name" rest).
    fold (events_of_type "m.room.topic" rest).
    destruct (eq_str (pyget ev "type") "m.room.name") eqn:Hn.
    + assert (Ht : eq_str (pyget ev "type") "m.room.topic" = false).
      { destruct (pyget ev "type"); try reflexivity. simpl in *.
        apply String.eqb_eq in Hn. subst. reflexivity. }
      rewrite Ht. cbn [map]. rewrite last_cons.
      unfold content_value.
      destruct (or_empty (sget "content" ev)) as [| | | | |d];
        try discriminate H.
      simpl in H. apply IH in H. exact H.
    + destruct (eq_str (pyget ev "type") "m.room.topic") eqn:Ht.
      * cbn [map]. rewrite last_cons. unfold content_value.
        destruct (or_empty (sget "content" ev)) as [| | | | |d];
          try discriminate H.
        simpl in H. apply IH in H. exact H.
      * destruct (negb (hashable (pyget ev "type"))); [discriminate H|].
        destruct (existsb (eq_str (pyget ev "type")) forwarded_types);
          apply IH in H; exact H.
Qed.

Lemma create_room_body_name_topic (preset : string) (invite : list string)
      (name topic room_version : json) (initial_state : list json) :
  let body := create_room_body preset invite name topic room_version
                               initial_state in
  sget "name" body = (if truthy name then Some name else None) /\
  sget "topic" body = (if truthy topic then Some topic else None).
Proof.
  unfold create_room_body.
  destruct (is_nil invite), (truthy name), (truthy topic),
    (truthy room_version), (is_nil initial_state); split; reflexivity.
Qed.

(** C9, as the code has it.  When a local room is really created, the one
    request sent carries as [name] the name of the last m.room.name event of
    the room's state snapshot, and as [topic] the topic of the last
    m.room.topic event; a field whose event is absent, or whose value is
    empty, is left out of the request. *)
Theorem created_room_name_and_topic_from_last_event :
  forall {World} (target : Target World) (bundle : Bundle)
         (server_name : string) (versions : list (string * json))
         (rid : string) (res res' : Results) (r r' : Run World),
    create_item target bundle server_name false versions rid res r
    = (Ok res', r') ->
    exists body error,
      trace r' = (trace r ++ [Request (PostCreateRoom body) error])%list /\
      sget "name" body =
      (let name := last_value "m.room.name" "name" (state_of bundle rid) in
       if truthy name then Some name else None) /\
      sget "topic" body =
      (let topic := last_value "m.room.topic" "topic" (state_of bundle rid) in
       if truthy topic then Some topic else None).
Proof.
  intros World target bundle sn versions rid res res' r r' H.
  unfold create_item in H.
  destruct (scan_state (state_of bundle rid) JNull JNull [])
    as [[[name topic] init]|e] eqn:Hscan; [|discriminate H].
  apply scan_state_last in Hscan. destruct Hscan as [Hname Htopic].
  destruct (any_public (state_of bundle rid)) as [public|e]; [|discriminate H].
  unfold create_room, perform in H.
  set (body := create_room_body (if public then "public_chat" else "private_chat")
                 (invites_of bundle sn rid) name topic
                 (or_null (sget rid versions)) init) in *.
  destruct (post_create_room World target body (world r)) as [x w].
  exists body, (error_of x).
  split.
  - destruct x as [[]|e]; inversion H; subst; reflexivity.
  - unfold last_value. cbv zeta. rewrite <- Hname, <- Htopic.
    apply create_room_body_name_topic.
Qed.

Lemma created_room_name_and_topic_from_last_event_witness :
  exists (res' : Results) (r' : Run unit),
    create_item cooperative town "x" false [("!b:x", JStr "10")] "!b:x"
                empty_results start = (Ok res', r') /\
    exists body error,
      trace r' = (trace start ++ [Request (PostCreateRoom body) error])%list /\
      sget "name" body =
      (let name := last_value "m.room.name" "name" (state_of town "!b:x") in
       if truthy name then Some name else None) /\
      sget "topic" body =
      (let topic := last_value "m.room.topic" "topic" (state_of town "!b:x") in
       if truthy topic then Some topic else None).
Proof.
  eexists. eexists. split.
  - vm_compute. reflexivity.
  - eapply (created_room_name_and_topic_from_last_event
              cooperative town "x" [("!b:x", JStr "10")] "!b:x" empty_results).
    vm_compute. reflexivity.
Defined.

(** C9 as stated fails: with two m.room.name events in the snapshot the
    request carries the name of the last one, not of the first. *)
Lemma created_room_name_is_not_first_event :
  ~ (forall {World} (target : Target World) (bundle : Bundle)
            (server_name : string) (versions : list (string * json))
            (rid : string) (res res' : Results) (r r' : Run World)
            (body : list (string * json)) (error : option string),
        create_item target bundle server_name false versions rid res r
        = (Ok res', r') ->
        trace r' = (trace r ++ [Request (PostCreateRoom body) error])%list ->
        sget "name" body =
        (let name := first_value "m.room.name" "name" (state_of bundle rid) in
         if truthy name then Some name else None)).
Proof.
  intros H.
  specialize (H unit cooperative town "x" [("!b:x", JStr "10")] "!b:x"
                empty_results).
  eassert (E : sget "name" _ = _).
  { eapply (H _ start); [vm_compute; reflexivity | cbv; reflexivity]. }
  vm_compute in E. discriminate E.
Qed.

(** ** Collector: guests are not exported *)







(** A user whose name is a number stops the export: quoting the name
    raises before the request is tried. *)
Example numeric_name_stops_the_export :
  Exporter.users_document failing_state 0
    [[("name", JStr "@u:x")]; [("name", JNum 7)]]
  = Err (Raise "TypeError" "quote_from_bytes() expected bytes").
Proof. reflexivity. Qed.

(** ** Collector: pagination *)

Lemma list_rooms_repeating_source (int_of_str : string -> option Z)
      (fuel : nat) :
  forall (n : nat) (from_tok : Z),
    snd (Exporter.list_rooms int_of_str repeating_rooms fuel n from_tok)
    = Exporter.Paging.
Proof.
  induction fuel as [|fuel IH]; intros n from_tok; [reflexivity|].
  cbn [Exporter.list_rooms]. unfold repeating_rooms at 1. simpl.
  specialize (IH (S n) 5%Z).
  destruct (Exporter.list_rooms int_of_str repeating_rooms fuel (S n) 5)
    as [more p].
  exact IH.
Qed.

(** C8 at a source that answers every room-listing request with the same
    page and the same continuation token: whatever the number of pages
    allowed, [list_rooms] is still asking for the next page when they are
    used up, while [list_users] in front of such a source returns after its
    second page. *)
Theorem list_rooms_repeated_token_never_finishes :
  forall (int_of_str : string -> option Z) (fuel : nat),
    snd (Exporter.list_rooms int_of_str repeating_rooms fuel 0 0)
    = Exporter.Paging /\
    snd (Exporter.list_users repeating_users (2 + fuel) 0 (JNum 0))
    = Exporter.Finished.
Proof.
  intros int_of_str fuel. split.
  - apply list_rooms_repeating_source.
  - reflexivity.
Qed.
Lemma py_eq_refl_hashable (v : json) : hashable v = true -> py_eq v v = true.
Proof.
  destruct v as [|b|n|s|l|d]; simpl; try discriminate; intros _.
  - reflexivity.
  - destruct b; reflexivity.
  - apply Z.eqb_refl.
  - apply String.eqb_refl.
Qed.

(** X18.  The cycle guard of [list_users]: a source that repeats one page,
    with a scalar token, is left after at most two requests. *)
Lemma list_users_cycle_guard (data : json) (fuel n : nat) (from_tok : json) :
  (forall d, data = JObj d -> hashable (pyget d "next_token") = true) ->
  snd (Exporter.list_users (fun _ _ => Ok data) (2 + fuel) n from_tok)
  <> Exporter.Paging.
Proof.
  intros Hh. cbn [Nat.add Exporter.list_users].
  destruct data as [| | | | |d]; try discriminate.
  specialize (Hh d eq_refl).
  destruct (iterate _) as [us|e]; [|discriminate].
  destruct (Exporter.yield_users us) as [ys [e|]]; [discriminate|].
  destruct (pyget d "next_token") as [|b|k|s|l|o] eqn:Htok; try discriminate;
    simpl in Hh; try discriminate;
    (destruct (py_eq _ from_tok); [discriminate|]);
    cbn [orb];
    rewrite py_eq_refl_hashable by reflexivity; discriminate.
Qed.

(** ** Collector: a room whose state or member fetch fails *)


(** C6, as the code has it.  When the state fetch of a room raises, the room
    loop goes on to the next room, but the room's entry in the room-state
    document is the empty list: the error marker put in place of the state
    has no type and is filtered out with the unimportant events.  When the
    member fetch raises, the room's entry in the memberships document is the
    error marker. *)
Theorem failed_state_fetch_leaves_empty_entry :
  forall (server_name : option string)
         (api_room_state api_room_members : Exporter.Endpoint json)
         (n : nat) (rb : Exporter.dict) (docs : Exporter.Documents) (e : exn),
    truthy (pyget rb "room_id") = true ->
    hashable (pyget rb "room_id") = true ->
    api_room_state n (pyget rb "room_id") = Err e ->
    exists docs',
      Exporter.collect_room server_name api_room_state api_room_members
                            n rb docs = Ok (S n, docs') /\
      jget (pyget rb "room_id") (Exporter.room_state docs')
      = Some [] /\
      Exporter.aliases docs' = Exporter.aliases docs /\
      (forall e', api_room_members n (pyget rb "room_id") = Err e' ->
                  jget (pyget rb "room_id")
                                      (Exporter.memberships docs')
                  = Some [(JStr "_error", JStr (str_of_exn e'))]).
Proof.
  intros sn api_state api_members n rb docs e Ht Hh He.
  unfold Exporter.collect_room. rewrite Ht, He. cbn [negb].
  unfold Exporter.store. rewrite Hh. simpl.
  eexists. split; [reflexivity|]. simpl.
  split; [|split; [reflexivity|]].
  - apply dict_get_set_same. now apply py_eq_refl_hashable.
  - intros e' He'. rewrite He'. simpl.
    apply dict_get_set_same. now apply py_eq_refl_hashable.
Qed.

Lemma failed_state_fetch_leaves_empty_entry_witness :
  exists docs',
    Exporter.collect_room None failing_state failing_members 0 room_a
                          Exporter.empty_documents = Ok (1, docs') /\
    jget (pyget room_a "room_id") (Exporter.room_state docs')
    = Some [] /\
    Exporter.aliases docs' = Exporter.aliases Exporter.empty_documents /\
    (forall e', failing_members 0 (pyget room_a "room_id") = Err e' ->
                jget (pyget room_a "room_id")
                                    (Exporter.memberships docs')
                = Some [(JStr "_error", JStr (str_of_exn e'))]).
Proof.
  apply (failed_state_fetch_leaves_empty_entry
           None failing_state failing_members 0 room_a Exporter.empty_documents
           (Raise "RuntimeError" "HTTP 500: Internal server error"));
    reflexivity.
Defined.
(** ** Collector: aliases point at exported rooms *)

Section AliasValues.
Variable P : json -> Prop.

Lemma dict_set_values (k v : json) (d : list (json * json)) :
  P v -> values_in P d -> values_in P (jset k v d).
Proof.
  intros Hv Hd. induction d as [|[k' v'] rest IH]; simpl.
  - intros a b [H | []]. inversion H; subst. exact Hv.
  - assert (Hrest : values_in P rest) by (intros a b H; eapply Hd; right; exact H).
    destruct (py_eq k k').
    + intros a b [H | H]; [inversion H; subst; exact Hv | eapply Hd; right; exact H].
    + intros a b [H | H]; [eapply Hd; left; exact H | eapply IH; eauto].
Qed.

Lemma store_values (k v : json) (d d' : list (json * json)) :
  Exporter.store k v d = Ok d' -> P v -> values_in P d -> values_in P d'.
Proof.
  unfold Exporter.store. destruct (hashable k); [|discriminate].
  intros H Hv Hd. inversion H; subst. now apply dict_set_values.
Qed.

Lemma add_listed_aliases_values (server_name : option string) (rid : json)
      (listed : list json) :
  forall d d',
    Exporter.add_listed_aliases server_name rid listed d = Ok d' ->
    P rid -> values_in P d -> values_in P d'.
Proof.
  induction listed as [|a rest IH]; intros d d' H Hr Hd; simpl in H.
  - inversion H; subst. exact Hd.
  - destruct server_name as [sn|]; [|eapply IH; eauto].
    destruct (sn =? ""); [eapply IH; eauto|].
    unfold bind in H.
    destruct (Exporter.ends_with_domain a sn) as [[|]|e]; try discriminate H.
    + destruct (Exporter.store a rid d) as [d1|e] eqn:Hs; [|discriminate H].
      eapply IH; eauto. eapply store_values; eauto.
    + eapply IH; eauto.
Qed.

Lemma derive_aliases_values (server_name : option string) (rid ev : json)
      (d d' : list (json * json)) :
  Exporter.derive_aliases server_name rid ev d = Ok d' ->
  P rid -> values_in P d -> values_in P d'.
Proof.
  unfold Exporter.derive_aliases, bind. intros H Hr Hd.
  destruct (obj_get ev "type") as [t|e]; [|discriminate H].
  assert (H1 : forall d1,
             (if eq_str t "m.room.aliases"
              then match obj_get_default ev "content" (JObj []) with
                   | Ok content =>
                       match obj_get_default content "aliases" (JArr []) with
                       | Ok listed =>
                           match iterate (if truthy listed then listed
                                          else JArr []) with
                           | Ok items =>
                               Exporter.add_listed_aliases server_name rid items d
                           | Err e => Err e
                           end
                       | Err e => Err e
                       end
                   | Err e => Err e
                   end
              else Ok d) = Ok d1 -> values_in P d1).
  { intros d1 H1. destruct (eq_str t "m.room.aliases").
    - destruct (obj_get_default ev "content" (JObj [])) as [c|e];
        [|discriminate H1].
      destruct (obj_get_default c "aliases" (JArr [])) as [l|e];
        [|discriminate H1].
      destruct (iterate _) as [items|e]; [|discriminate H1].
      eapply add_listed_aliases_values; eauto.
    - inversion H1; subst. exact Hd. }
  match type of H with
  | match ?x with Ok _ => _ | Err _ => _ end = _ =>
      destruct x as [d1|e] eqn:Hd1; [|discriminate H]
  end.
  specialize (H1 d1 eq_refl).
  destruct (eq_str t "m.room.canonical_alias");
    [|inversion H; subst; exact H1].
  destruct (obj_get_default ev "content" (JObj [])) as [c|e]; [|discriminate H].
  destruct (obj_get _ "alias") as [a|e]; [|discriminate H].
  destruct (truthy a); [|inversion H; subst; exact H1].
  match type of H with
  | match ?x with Ok _ => _ | Err _ => _ end = _ =>
      destruct x as [[|]|e]; try discriminate H
  end.
  - eapply store_values; eauto.
  - inversion H; subst. exact H1.
Qed.

Lemma derive_aliases_all_values (server_name : option string) (rid : json)
      (st : list json) :
  forall d d',
    Exporter.derive_aliases_all server_name rid st d = Ok d' ->
    P rid -> values_in P d -> values_in P d'.
Proof.
  induction st as [|ev rest IH]; intros d d' H Hr Hd; simpl in H.
  - inversion H; subst. exact Hd.
  - unfold bind in H.
    destruct (Exporter.derive_aliases server_name rid ev d) as [d1|e] eqn:H1;
      [|discriminate H].
    eapply IH; eauto. eapply derive_aliases_values; eauto.
Qed.

Lemma collect_room_values (server_name : option string)
      (api_room_state api_room_members : Exporter.Endpoint json)
      (n n' : nat) (rb : Exporter.dict) (docs docs' : Exporter.Documents) :
  Exporter.collect_room server_name api_room_state api_room_members n rb docs
  = Ok (n', docs') ->
  P (pyget rb "room_id") ->
  values_in P (Exporter.aliases docs) -> values_in P (Exporter.aliases docs').
Proof.
  unfold Exporter.collect_room, bind. intros H Hr Hd.
  destruct (negb (truthy (pyget rb "room_id")));
    [inversion H; subst; exact Hd|].
  destruct (iterate _) as [evs|e]; [|discriminate H].
  destruct (Exporter.filter_important evs) as [filtered|e]; [|discriminate H].
  destruct (Exporter.store _ filtered _) as [rs|e]; [|discriminate H].
  destruct (Exporter.derive_aliases_all _ _ evs _) as [al|e] eqn:Hal;
    [|discriminate H].
  destruct (Exporter.store _ _ (Exporter.memberships docs)) as [ms|e];
    [|discriminate H].
  inversion H; subst. simpl.
  eapply derive_aliases_all_values; eauto.
Qed.

Lemma collect_rooms_values (server_name : option string)
      (api_room_state api_room_members : Exporter.Endpoint json)
      (rooms_basic : list Exporter.dict) :
  forall (n : nat) (docs docs' : Exporter.Documents),
    Exporter.collect_rooms server_name api_room_state api_room_members
                           n rooms_basic docs = Ok docs' ->
    (forall rb, In rb rooms_basic -> P (pyget rb "room_id")) ->
    values_in P (Exporter.aliases docs) -> values_in P (Exporter.aliases docs').
Proof.
  induction rooms_basic as [|rb rest IH]; intros n docs docs' H Hall Hd;
    simpl in H.
  - inversion H; subst. exact Hd.
  - unfold bind in H.
    destruct (Exporter.collect_room _ _ _ n rb docs) as [[n1 docs1]|e] eqn:H1;
      [|discriminate H].
    simpl in H. eapply IH; eauto.
    + intros rb' Hin. apply Hall. now right.
    + eapply collect_room_values; eauto. apply Hall. now left.
Qed.

End AliasValues.

(** C5.  When the export runs without a domain filter and produces its
    documents, every alias of the alias document maps to a room identifier
    that is the [room_id] of a record of the rooms document. *)
Theorem exported_aliases_point_at_exported_rooms :
  forall (api_room_state api_room_members : Exporter.Endpoint json)
         (listed : list json) (rooms_basic : list Exporter.dict)
         (docs : Exporter.Documents) (alias rid : json),
    Exporter.export_rooms None api_room_state api_room_members listed
    = Ok (rooms_basic, docs) ->
    In (alias, rid) (Exporter.aliases docs) ->
    exists rb, In rb rooms_basic /\ pyget rb "room_id" = rid.
Proof.
  intros api_state api_members listed rooms_basic docs alias rid H Hin.
  unfold Exporter.export_rooms, bind in H.
  destruct (Exporter.rooms_basic_of listed) as [rbs|e]; [|discriminate H].
  destruct (Exporter.collect_rooms _ _ _ 0 rbs _) as [docs0|e] eqn:Hc;
    [|discriminate H].
  inversion H; subst.
  eapply (collect_rooms_values
            (fun v => exists rb, In rb rooms_basic /\ pyget rb "room_id" = v));
    eauto.
  intros k v [].
Qed.

Lemma exported_aliases_point_at_exported_rooms_witness :
  exists (rooms_basic : list Exporter.dict) (docs : Exporter.Documents),
    Exporter.export_rooms None town_state town_members town_listed
    = Ok (rooms_basic, docs) /\
    In (JStr "#town:x", JStr "!a:x") (Exporter.aliases docs) /\
    exists rb, In rb rooms_basic /\ pyget rb "room_id" = JStr "!a:x".
Proof.
  eexists. eexists. split; [vm_compute; reflexivity|].
  split; [simpl; auto|].
  eapply (exported_aliases_point_at_exported_rooms
            town_state town_members town_listed _ _ (JStr "#town:x")).
  - vm_compute. reflexivity.
  - simpl. auto.
Defined.
(** ** Worked scenarios *)

(** [os.path.normpath] on the shapes of member names that matter. *)
Example normpath_examples :
  map normpath ["../evil"; "a/../../b"; "/etc/passwd"; "a/b/../c"; "//x";
                "///x"; "./a/"; ""; "a/.."; "..foo/x"] =
  ["../evil"; "../b"; "/etc/passwd"; "a/c"; "//x"; "/x"; "a"; "."; ".";
   "..foo/x"].
Proof. reflexivity. Qed.

(** A safe archive is extracted whole. *)
Example safe_archive_is_extracted :
  _safe_extract extracts_all
                ["export_bundle/users.json"; "export_bundle/rooms.json"] [] =
  (Ok tt, ["export_bundle/users.json"; "export_bundle/rooms.json"]).
Proof. reflexivity. Qed.

(** The plan of the two-room bundle for the domain [x]. *)
Example town_plan_value :
  town_plan = {| join_rooms := ["!a:x"]; create_rooms := ["!b:x"];
                 create_aliases := [("#town:x", "!a:x")] |}.
Proof. reflexivity. Qed.

(** Applying it to a cooperative target: one room joined, one alias and one
    room created, nothing failed, and three requests sent. *)
Example town_import :
  perform_import cooperative town town_plan ["old.example.org"] true "x"
                 false start =
  (Ok {| joined := ["!a:x"]; join_failed := [];
         aliases_created := ["#town:x"]; aliases_failed := [];
         rooms_created := [JStr "!new:x"]; rooms_failed := [] |},
   {| world := tt;
      trace := [Request GetJoinedRooms None;
                Request (PutAlias "#town:x" "!a:x") None;
                Request (PostCreateRoom
                           [("preset", JStr "private_chat");
                            ("invite", JArr [JStr "@u:x"]);
                            ("name", JStr "New name");
                            ("topic", JStr "Town square");
                            ("room_version", JStr "10")]) None] |}).
Proof. vm_compute. reflexivity. Qed.

(** An alias the target already has is recorded as created at once. *)
Example alias_already_exists :
  alias_item taken false "#town:x" "!a:x" empty_results start =
  (add_alias_created "#town:x" empty_results,
   {| world := tt;
      trace := [Request (PutAlias "#town:x" "!a:x")
                        (Some "HTTP 409 PUT /directory/room/%23town%3Ax: Room alias #town:x already exists")] |}).
Proof. vm_compute. reflexivity. Qed.

(** A target that is down: five PUTs, the sleeps of attempts 0 to 3 between
    them, and the alias in the failure map with the last error. *)
Example alias_given_up :
  alias_item down false "#town:x" "!a:x" empty_results start =
  (set_alias_failed "#town:x" "HTTP 502 Bad gateway" empty_results,
   {| world := tt;
      trace := [Request (PutAlias "#town:x" "!a:x") (Some "HTTP 502 Bad gateway");
                Slept (1 # 1);
                Request (PutAlias "#town:x" "!a:x") (Some "HTTP 502 Bad gateway");
                Slept (3 # 2);
                Request (PutAlias "#town:x" "!a:x") (Some "HTTP 502 Bad gateway");
                Slept (9 # 4);
                Request (PutAlias "#town:x" "!a:x") (Some "HTTP 502 Bad gateway");
                Slept (27 # 8);
                Request (PutAlias "#town:x" "!a:x") (Some "HTTP 502 Bad gateway")] |}).
Proof. vm_compute. reflexivity. Qed.

(** The documents exported for the two-room source. *)
Example town_export :
  Exporter.export_rooms None town_state town_members town_listed =
  Ok (map (fun r => match Exporter.room_basic r with Ok rb => rb | Err _ => [] end)
          town_listed,
      {| Exporter.room_state :=
           [(JStr "!a:x",
             [JObj [("type", JStr "m.room.canonical_alias");
                    ("state_key", JStr "");
                    ("content", JObj [("alias", JStr "#town:x")])]]);
            (JStr "!b:x",
             [JObj [("type", JStr "m.room.name"); ("state_key", JStr "");
                    ("content", JObj [("name", JStr "Back room")])]])];
         Exporter.memberships :=
           [(JStr "!a:x", [(JStr "@u:x", JStr "join")]);
            (JStr "!b:x", [(JStr "@u:x", JStr "join")])];
         Exporter.aliases := [(JStr "#town:x", JStr "!a:x")] |}).
Proof. vm_compute. reflexivity. Qed.
(** * Further properties of the importer *)

(** ** Plan builder: aliases *)

Lemma sset_fresh {V} (k : string) (v : V) (d : list (string * V)) :
  ~ In k (map fst d) -> sset k v d = (d ++ [(k, v)])%list.
Proof.
  unfold sset.
  induction d as [|[k' v'] rest IH]; intros H; simpl; [reflexivity|].
  destruct (k =? k') eqn:E.
  - apply String.eqb_eq in E. subst. exfalso. apply H. now left.
  - rewrite IH; [reflexivity|].
    intros Hin. apply H. now right.
Qed.

Lemma plan_aliases_filter (server_name : string)
      (items : list (string * string)) :
  forall acc : list (string * string),
    NoDup (map fst items) ->
    (forall k, In k (map fst items) -> ~ In k (map fst acc)) ->
    plan_aliases server_name items acc =
    (acc ++ filter (fun p => endswith (fst p) (":" ++ server_name)) items)%list.
Proof.
  induction items as [|[alias rid] rest IH]; intros acc Hnd Hfresh;
    cbn [plan_aliases filter fst].
  - now rewrite app_nil_r.
  - inversion Hnd as [|? ? Hnot Hrest]; subst.
    destruct (endswith alias (":" ++ server_name)).
    + rewrite sset_fresh by (apply Hfresh; now left).
      rewrite IH; [now rewrite <- app_assoc | assumption |].
      intros k Hk. rewrite map_app, in_app_iff. simpl.
      intros [H | [H | []]].
      * apply (Hfresh k); [now right | exact H].
      * subst. exact (Hnot Hk).
    + apply IH; [assumption|]. intros k Hk. apply Hfresh. now right.
Qed.

(** X1.  For a bundle whose alias map has one binding per alias (a Python
    dict), the aliases of the plan are, in order, the bindings of the bundle
    whose alias ends with [":" + server_name] when alias creation is enabled,
    and none at all when it is not. *)
Theorem build_plan_aliases_are_the_local_ones :
  forall (bundle : Bundle) (server_name : string)
         (do_create_local_rooms do_create_aliases : bool),
    NoDup (map fst (aliases bundle)) ->
    create_aliases (build_plan bundle server_name do_create_local_rooms
                               do_create_aliases) =
    if do_create_aliases
    then filter (fun p => endswith (fst p) (":" ++ server_name)) (aliases bundle)
    else [].
Proof.
  intros bundle sn lc ca Hnd. unfold build_plan.
  destruct (plan_rooms lc (rooms bundle) [] []) as [join create]. simpl.
  destruct ca; [|reflexivity].
  rewrite plan_aliases_filter; auto.
Qed.

Lemma build_plan_aliases_are_the_local_ones_witness :
  create_aliases (build_plan mixed_aliases "x" true true) =
  if true
  then filter (fun p => endswith (fst p) (":" ++ "x")) (aliases mixed_aliases)
  else [].
Proof.
  apply (build_plan_aliases_are_the_local_ones mixed_aliases "x" true true).
  simpl. repeat constructor; simpl; intuition discriminate.
Defined.
(** ** Reconciler: dry run *)

Lemma join_loop_dry_run {World} (target : Target World) (bundle : Bundle)
      (via already_joined : list string) (rids : list string) :
  forall (res : Results) (r : Run World),
    join_loop target bundle via true already_joined rids res r =
    (Ok {| joined := (joined res ++ rids)%list; join_failed := join_failed res;
           aliases_created := aliases_created res;
           aliases_failed := aliases_failed res;
           rooms_created := rooms_created res;
           rooms_failed := rooms_failed res |}, r).
Proof.
  induction rids as [|rid rest IH]; intros res r; simpl.
  - rewrite app_nil_r. destruct res; reflexivity.
  - unfold join_item.
    destruct (existsb (String.eqb rid) already_joined);
      rewrite IH; simpl; rewrite <- app_assoc; reflexivity.
Qed.

Lemma alias_loop_dry_run {World} (target : Target World)
      (items : list (string * string)) :
  forall (res : Results) (r : Run World),
    alias_loop target true items res r =
    ({| joined := joined res; join_failed := join_failed res;
        aliases_created := (aliases_created res ++ map fst items)%list;
        aliases_failed := aliases_failed res;
        rooms_created := rooms_created res;
        rooms_failed := rooms_failed res |}, r).
Proof.
  induction items as [|[alias rid] rest IH]; intros res r; simpl.
  - rewrite app_nil_r. destruct res; reflexivity.
  - rewrite IH. simpl. rewrite <- app_assoc. reflexivity.
Qed.

Lemma create_loop_dry_run {World} (target : Target World) (bundle : Bundle)
      (server_name : string) (versions : list (string * json))
      (rids : list string) :
  forall (res : Results) (r : Run World),
    create_loop target bundle server_name true versions rids res r =
    (Ok {| joined := joined res; join_failed := join_failed res;
           aliases_created := aliases_created res;
           aliases_failed := aliases_failed res;
           rooms_created := (rooms_created res ++ map JStr rids)%list;
           rooms_failed := rooms_failed res |}, r).
Proof.
  induction rids as [|rid rest IH]; intros res r; simpl.
  - rewrite app_nil_r. destruct res; reflexivity.
  - rewrite IH. simpl. rewrite <- app_assoc. reflexivity.
Qed.

(** X2.  In a dry run the only request sent is the one for the joined
    rooms; when it is answered, every item of the plan is recorded as a
    success (rooms to create only when local-room creation is on) and no
    failure is recorded. *)
Theorem dry_run_sends_nothing_and_records_the_plan :
  forall {World} (target : Target World) (bundle : Bundle) (plan : ImportPlan)
         (via : list string) (create_local_rooms : bool) (server_name : string)
         (r r0 : Run World) (already_joined : list string),
    joined_rooms target r = (Ok already_joined, r0) ->
    perform_import target bundle plan via create_local_rooms server_name
                   true r =
    (Ok {| joined := join_rooms plan; join_failed := [];
           aliases_created := map fst (create_aliases plan);
           aliases_failed := [];
           rooms_created := if create_local_rooms
                            then map JStr (create_rooms plan) else [];
           rooms_failed := [] |}, r0) /\
    trace r0 = (trace r ++ [Request GetJoinedRooms None])%list.
Proof.
  intros World target bundle plan via clr sn r r0 aj H. split.
  - unfold perform_import. rewrite H.
    rewrite join_loop_dry_run, alias_loop_dry_run.
    destruct clr; [rewrite create_loop_dry_run|]; reflexivity.
  - unfold joined_rooms, perform in H.
    destruct (get_joined_rooms World target (world r)) as [x w].
    inversion H; subst. reflexivity.
Qed.

Lemma dry_run_sends_nothing_and_records_the_plan_witness :
  perform_import down_after_start town town_plan ["old.example.org"] true "x"
                 true start =
  (Ok {| joined := join_rooms town_plan; join_failed := [];
         aliases_created := map fst (create_aliases town_plan);
         aliases_failed := [];
         rooms_created := if true then map JStr (create_rooms town_plan) else [];
         rooms_failed := [] |},
   {| world := tt; trace := [Request GetJoinedRooms None] |}) /\
  trace {| world := tt; trace := [Request GetJoinedRooms None] |} =
  (trace start ++ [Request GetJoinedRooms None])%list.
Proof.
  apply (dry_run_sends_nothing_and_records_the_plan
           down_after_start town town_plan ["old.example.org"] true "x" start
           {| world := tt; trace := [Request GetJoinedRooms None] |} []).
  reflexivity.
Defined.

(** ** Reconciler: the invite list of a room created locally *)

Lemma str_lt_trans (a b c : string) : str_lt a b -> str_lt b c -> str_lt a c.
Proof.
  unfold str_lt. intros H1 H2.
  apply OrderedTypeEx.String_as_OT.cmp_lt.
  eapply OrderedTypeEx.String_as_OT.lt_trans;
    apply OrderedTypeEx.String_as_OT.cmp_lt; eassumption.
Qed.

Lemma insert_sorted_in (x y : string) (l : list string) :
  In y (insert_sorted x l) <-> y = x \/ In y l.
Proof.
  induction l as [|z rest IH]; simpl.
  - intuition.
  - destruct (String.compare x z) eqn:C; simpl.
    + apply String.compare_eq_iff in C. subst. intuition.
    + intuition.
    + rewrite IH. intuition.
Qed.

Lemma sorted_set_in (y : string) (l : list string) :
  In y (sorted_set l) <-> In y l.
Proof.
  unfold sorted_set.
  assert (H : forall acc,
             In y (fold_left (fun acc x => insert_sorted x acc) l acc) <->
             In y acc \/ In y l).
  { induction l as [|x rest IH]; intros acc; simpl; [intuition|].
    rewrite IH, insert_sorted_in. intuition. }
  rewrite H. simpl. intuition.
Qed.

Lemma insert_sorted_hd (x a : string) (l : list string) :
  str_lt a x -> HdRel str_lt a l -> HdRel str_lt a (insert_sorted x l).
Proof.
  intros Hax Hl. destruct l as [|z rest]; simpl; [now constructor|].
  inversion Hl; subst.
  destruct (String.compare x z); constructor; assumption.
Qed.

Lemma insert_sorted_sorted (x : string) (l : list string) :
  Sorted str_lt l -> Sorted str_lt (insert_sorted x l).
Proof.
  induction l as [|z rest IH]; intros H; simpl.
  - repeat constructor.
  - inversion H as [|? ? Hrest Hhd]; subst.
    destruct (String.compare x z) eqn:C.
    + exact H.
    + constructor; [exact H | now constructor].
    + constructor; [now apply IH|].
      apply insert_sorted_hd; [|assumption].
      unfold str_lt. rewrite String.compare_antisym, C. reflexivity.
Qed.

Lemma sorted_set_sorted (l : list string) : Sorted str_lt (sorted_set l).
Proof.
  unfold sorted_set.
  assert (H : forall acc, Sorted str_lt acc ->
                          Sorted str_lt
                                 (fold_left (fun acc x => insert_sorted x acc) l acc)).
  { induction l as [|x rest IH]; intros acc Hacc; simpl; [assumption|].
    apply IH. now apply insert_sorted_sorted. }
  apply H. constructor.
Qed.

Lemma firstn_strongly_sorted (n : nat) (l : list string) :
  StronglySorted str_lt l -> StronglySorted str_lt (firstn n l).
Proof.
  revert n. induction l as [|x rest IH]; intros n H.
  - rewrite firstn_nil. constructor.
  - destruct n; simpl; [constructor|].
    inversion H as [|? ? Hrest Hall]; subst.
    constructor; [now apply IH|].
    rewrite Forall_forall in *. intros y Hy. apply Hall.
    eapply (In_nth_error) in Hy. destruct Hy as [i Hi].
    eapply nth_error_In. rewrite nth_error_firstn in Hi.
    destruct (Nat.ltb i n); [exact Hi | discriminate Hi].
Qed.

Lemma in_firstn {A} (n : nat) (x : A) (l : list A) :
  In x (firstn n l) -> In x l.
Proof.
  intros H. rewrite <- (firstn_skipn n l). apply in_or_app. now left.
Qed.

(** X3.  The invite list of a room created locally has at most fifty
    entries, in strictly increasing order (so without duplicates); each is a
    member of the room in the bundle whose identifier ends with
    [":" + server_name] and whose membership is join or invite; and when
    there are at most fifty such members none of them is left out. *)
Theorem invites_are_local_sorted_and_capped :
  forall (bundle : Bundle) (server_name rid : string),
    let members := match sget rid (memberships bundle) with
                   | Some m => m
                   | None => []
                   end in
    let invited uid :=
      exists membership,
        In (uid, membership) members /\
        endswith uid (":" ++ server_name) = true /\
        (membership = "join" \/ membership = "invite") in
    List.length (invites_of bundle server_name rid) <= 50 /\
    StronglySorted str_lt (invites_of bundle server_name rid) /\
    (forall uid, In uid (invites_of bundle server_name rid) -> invited uid) /\
    (List.length
       (sorted_set
          (map fst
               (filter (fun p => endswith (fst p) (":" ++ server_name)
                                 && ((snd p =? "join") || (snd p =? "invite")))
                       members))) <= 50 ->
     forall uid, invited uid -> In uid (invites_of bundle server_name rid)).
Proof.
  intros bundle sn rid members invited.
  unfold invites_of. fold members.
  set (local := filter _ members).
  assert (Hin : forall uid, In uid (map fst local) <-> invited uid).
  { intros uid. rewrite in_map_iff. unfold local, invited. split.
    - intros ([u m] & <- & H). apply filter_In in H. destruct H as [H1 H2].
      cbn [fst snd] in *. apply andb_true_iff in H2. destruct H2 as [H2 H3].
      exists m. repeat split; auto.
      apply orb_true_iff in H3.
      destruct H3 as [H3 | H3]; apply String.eqb_eq in H3; auto.
    - intros (m & H1 & H2 & H3). exists (uid, m). split; [reflexivity|].
      apply filter_In. split; [assumption|]. cbn [fst snd]. rewrite H2.
      destruct H3 as [-> | ->]; reflexivity. }
  split; [apply firstn_le_length|].
  split.
  { apply firstn_strongly_sorted. apply Sorted_StronglySorted.
    - intros a b c. apply str_lt_trans.
    - apply sorted_set_sorted. }
  split.
  - intros uid H. apply in_firstn in H.
    apply (proj1 (sorted_set_in _ _)) in H. now apply Hin.
  - intros Hlen uid H. rewrite firstn_all2 by exact Hlen.
    apply (proj2 (sorted_set_in _ _)). now apply Hin.
Qed.

(** ** Reconciler: the request that creates a local room *)

(** What [create_item] does when it is not a dry run and nothing raises:
    one request, whose body is built from the scan of the snapshot. *)
Lemma create_item_request {World} (target : Target World) (bundle : Bundle)
      (server_name : string) (versions : list (string * json)) (rid : string)
      (res res' : Results) (r r' : Run World) :
  create_item target bundle server_name false versions rid res r = (Ok res', r') ->
  exists name topic initial_state public answer,
    scan_state (state_of bundle rid) JNull JNull [] =
    Ok (name, topic, initial_state) /\
    any_public (state_of bundle rid) = Ok public /\
    let body := create_room_body
                  (if public then "public_chat" else "private_chat")
                  (invites_of bundle server_name rid) name topic
                  (or_null (sget rid versions)) initial_state in
    fst (post_create_room World target body (world r)) = answer /\
    world r' = snd (post_create_room World target body (world r)) /\
    trace r' = (trace r ++ [Request (PostCreateRoom body) (error_of answer)])%list /\
    res' = match answer with
           | Ok (JObj created) =>
               add_room_created (match sget "room_id" created with
                                 | Some v => v
                                 | None => JStr rid
                                 end) res
           | Ok other =>
               set_room_failed rid (str_of_exn (attribute_error other "get")) res
           | Err e => set_room_failed rid (str_of_exn e) res
           end.
Proof.
  unfold create_item. intros H.
  destruct (scan_state (state_of bundle rid) JNull JNull [])
    as [[[name topic] init]|e]; [|discriminate H].
  destruct (any_public (state_of bundle rid)) as [public|e]; [|discriminate H].
  exists name, topic, init, public.
  unfold create_room, perform in H.
  set (body := create_room_body _ _ name topic _ init) in *.
  destruct (post_create_room World target body (world r)) as [x w].
  exists x. cbv zeta. simpl.
  destruct x as [[]|e]; inversion H; subst; repeat split; reflexivity.
Qed.

Lemma create_room_body_fields (preset : string) (invite : list string)
      (name topic room_version : json) (initial_state : list json) :
  let body := create_room_body preset invite name topic room_version
                               initial_state in
  sget "preset" body = Some (JStr preset) /\
  sget "invite" body =
  (if is_nil invite then None else Some (JArr (map JStr invite))) /\
  sget "room_version" body =
  (if truthy room_version then Some room_version else None) /\
  sget "initial_state" body =
  (if is_nil initial_state then None else Some (JArr initial_state)).
Proof.
  unfold create_room_body.
  destruct (is_nil invite), (truthy name), (truthy topic),
    (truthy room_version), (is_nil initial_state); repeat split; reflexivity.
Qed.

(** The events of the snapshot that the scan forwards, as it forwards them. *)
Lemma scan_state_forwards (st : list Event) :
  forall (name topic : json) (initial_state : list json)
         (name' topic' : json) (initial_state' : list json),
    scan_state st name topic initial_state = Ok (name', topic', initial_state') ->
    initial_state' =
    (initial_state ++ map forwarded_event (filter is_forwarded st))%list.
Proof.
  induction st as [|ev rest IH]; intros name topic init name' topic' init' H.
  - inversion H; subst. simpl. now rewrite app_nil_r.
  - cbn [scan_state] in H. cbn [filter]. unfold is_forwarded at 1.
    destruct (eq_str (pyget ev "type") "m.room.name") eqn:Hn.
    { assert (F : existsb (eq_str (pyget ev "type")) forwarded_types = false).
      { destruct (pyget ev "type"); try reflexivity. simpl in Hn.
        apply String.eqb_eq in Hn. subst. reflexivity. }
      rewrite F.
      destruct (obj_get _ "name"); [|discriminate H]. eapply IH; eauto. }
    destruct (eq_str (pyget ev "type") "m.room.topic") eqn:Ht.
    { assert (F : existsb (eq_str (pyget ev "type")) forwarded_types = false).
      { destruct (pyget ev "type"); try reflexivity. simpl in Ht.
        apply String.eqb_eq in Ht. subst. reflexivity. }
      rewrite F.
      destruct (obj_get _ "topic"); [|discriminate H]. eapply IH; eauto. }
    destruct (negb (hashable (pyget ev "type"))); [discriminate H|].
    destruct (existsb (eq_str (pyget ev "type")) forwarded_types).
    + apply IH in H. rewrite H. cbn [map]. unfold forwarded_event at 2.
      rewrite <- app_assoc. reflexivity.
    + eapply IH; eauto.
Qed.


Lemma any_public_exists (st : list Event) (public : bool) :
  any_public st = Ok public -> public = existsb is_public_rule st.
Proof.
  induction st as [|ev rest IH]; intros H; cbn [any_public existsb] in *.
  - now inversion H.
  - unfold is_public_rule at 1, content_value.
    destruct (eq_str (pyget ev "type") "m.room.join_rules"); [|now apply IH].
    destruct (or_empty (sget "content" ev)) as [| | | | |d];
      try discriminate H.
    simpl in H. fold (pyget d "join_rule") in H.
    destruct (eq_str (pyget d "join_rule") "public"); [now inversion H|].
    now apply IH.
Qed.

Lemma version_map_last (rid : string) (rs : list Room) :
  or_null (sget rid (version_map rs)) =
  last (map version (filter (has_room_id rid) rs)) JNull.
Proof.
  unfold version_map.
  assert (H : forall m,
             or_null (sget rid
                        (fold_left
                           (fun m r =>
                              match room_id r with
                              | Some i => if i =? "" then m
                                          else sset i (version r) m
                              | None => m
                              end) rs m)) =
             last (map version (filter (has_room_id rid) rs))
                  (or_null (sget rid m))).
  { induction rs as [|r rest IH]; intros m; cbn [fold_left filter];
      [reflexivity|].
    rewrite IH. unfold has_room_id at 2.
    destruct (room_id r) as [i|]; [|reflexivity].
    destruct (i =? "") eqn:E; [now rewrite andb_false_r|].
    rewrite andb_true_r.
    destruct (i =? rid) eqn:Ei.
    - apply String.eqb_eq in Ei. subst i. rewrite sget_sset_same.
      cbn [map]. rewrite last_cons. reflexivity.
    - apply String.eqb_neq in Ei. rewrite sget_sset_other by congruence.
      reflexivity. }
  apply H.
Qed.

(** X4.  When a local room is really created, the request forwards as
    initial state exactly the events of the room's snapshot whose type is
    power levels, join rules, history visibility or encryption, in snapshot
    order, each with an empty state key and the event's content; with no such
    event the field is absent. *)
Theorem created_room_forwards_restricted_state :
  forall {World} (target : Target World) (bundle : Bundle)
         (server_name : string) (versions : list (string * json))
         (rid : string) (res res' : Results) (r r' : Run World),
    create_item target bundle server_name false versions rid res r
    = (Ok res', r') ->
    exists body error,
      trace r' = (trace r ++ [Request (PostCreateRoom body) error])%list /\
      sget "initial_state" body =
      (let forwarded := map forwarded_event
                            (filter is_forwarded (state_of bundle rid)) in
       if is_nil forwarded then None else Some (JArr forwarded)).
Proof.
  intros World target bundle sn versions rid res res' r r' H.
  apply create_item_request in H.
  destruct H as (name & topic & init & public & answer & Hscan & _ & H).
  cbv zeta in H. destruct H as (_ & _ & Htrace & _).
  apply scan_state_forwards in Hscan. simpl in Hscan. subst init.
  eexists. eexists. split; [exact Htrace|].
  apply create_room_body_fields.
Qed.

(** X5.  When a local room is really created, the preset of the request is
    [public_chat] if some join-rules event of the room's snapshot has the
    join rule [public], and [private_chat] otherwise. *)
Theorem created_room_preset_follows_join_rules :
  forall {World} (target : Target World) (bundle : Bundle)
         (server_name : string) (versions : list (string * json))
         (rid : string) (res res' : Results) (r r' : Run World),
    create_item target bundle server_name false versions rid res r
    = (Ok res', r') ->
    exists body error,
      trace r' = (trace r ++ [Request (PostCreateRoom body) error])%list /\
      sget "preset" body =
      Some (JStr (if existsb is_public_rule (state_of bundle rid)
                  then "public_chat" else "private_chat")).
Proof.
  intros World target bundle sn versions rid res res' r r' H.
  apply create_item_request in H.
  destruct H as (name & topic & init & public & answer & _ & Hpub & H).
  cbv zeta in H. destruct H as (_ & _ & Htrace & _).
  apply any_public_exists in Hpub. subst public.
  eexists. eexists. split; [exact Htrace|].
  apply create_room_body_fields.
Qed.

(** X6.  During a real import with local-room creation, the request that
    creates a planned room carries as room version the version of the last
    room record of the bundle that has this room identifier, and no version
    when that one is empty. *)
Theorem created_room_version_is_last_record :
  forall {World} (target : Target World) (bundle : Bundle)
         (server_name rid : string) (res res' : Results) (r r' : Run World),
    create_item target bundle server_name false (version_map (rooms bundle))
                rid res r = (Ok res', r') ->
    exists body error,
      trace r' = (trace r ++ [Request (PostCreateRoom body) error])%list /\
      sget "room_version" body =
      (let v := last (map version (filter (has_room_id rid) (rooms bundle)))
                     JNull in
       if truthy v then Some v else None).
Proof.
  intros World target bundle sn rid res res' r r' H.
  apply create_item_request in H.
  destruct H as (name & topic & init & public & answer & _ & _ & H).
  cbv zeta in H. destruct H as (_ & _ & Htrace & _).
  eexists. eexists. split; [exact Htrace|].
  cbv zeta. rewrite <- version_map_last.
  apply create_room_body_fields.
Qed.
Lemma created_room_forwards_restricted_state_witness :
  exists (res' : Results) (r' : Run unit),
    create_item cooperative lobby "x" false (version_map (rooms lobby)) "!l:x"
                empty_results start = (Ok res', r') /\
    exists body error,
      trace r' = (trace start ++ [Request (PostCreateRoom body) error])%list /\
      sget "initial_state" body =
      (let forwarded := map forwarded_event
                            (filter is_forwarded (state_of lobby "!l:x")) in
       if is_nil forwarded then None else Some (JArr forwarded)).
Proof.
  eexists. eexists. split; [vm_compute; reflexivity|].
  eapply (created_room_forwards_restricted_state
            cooperative lobby "x" (version_map (rooms lobby)) "!l:x"
            empty_results).
  vm_compute. reflexivity.
Defined.

Lemma created_room_preset_follows_join_rules_witness :
  exists (res' : Results) (r' : Run unit),
    create_item cooperative lobby "x" false (version_map (rooms lobby)) "!l:x"
                empty_results start = (Ok res', r') /\
    exists body error,
      trace r' = (trace start ++ [Request (PostCreateRoom body) error])%list /\
      sget "preset" body =
      Some (JStr (if existsb is_public_rule (state_of lobby "!l:x")
                  then "public_chat" else "private_chat")).
Proof.
  eexists. eexists. split; [vm_compute; reflexivity|].
  eapply (created_room_preset_follows_join_rules
            cooperative lobby "x" (version_map (rooms lobby)) "!l:x"
            empty_results).
  vm_compute. reflexivity.
Defined.

Lemma created_room_version_is_last_record_witness :
  exists (res' : Results) (r' : Run unit),
    create_item cooperative lobby "x" false (version_map (rooms lobby)) "!l:x"
                empty_results start = (Ok res', r') /\
    exists body error,
      trace r' = (trace start ++ [Request (PostCreateRoom body) error])%list /\
      sget "room_version" body =
      (let v := last (map version (filter (has_room_id "!l:x") (rooms lobby)))
                     JNull in
       if truthy v then Some v else None).
Proof.
  eexists. eexists. split; [vm_compute; reflexivity|].
  eapply (created_room_version_is_last_record
            cooperative lobby "x" "!l:x" empty_results).
  vm_compute. reflexivity.
Defined.

(** The request sent for the lobby: public, with its power levels and join
    rules forwarded and the version of its second record. *)
Example lobby_request :
  trace (snd (create_item cooperative lobby "x" false
                          (version_map (rooms lobby)) "!l:x"
                          empty_results start)) =
  [Request
     (PostCreateRoom
        [("preset", JStr "public_chat");
         ("invite", JArr [JStr "@a:x"; JStr "@b:x"]);
         ("name", JStr "Lobby");
         ("room_version", JStr "11");
         ("initial_state",
          JArr [JObj [("type", JStr "m.room.power_levels");
                      ("state_key", JStr "");
                      ("content", JObj [("users_default", JNum 0)])];
                JObj [("type", JStr "m.room.join_rules");
                      ("state_key", JStr "");
                      ("content", JObj [("join_rule", JStr "public")])]])])
     None].
Proof. vm_compute. reflexivity. Qed.
(** ** Reconciler: how a join item ends *)

Lemma sset_sset_same {V} (k : string) (v v' : V) (d : list (string * V)) :
  sset k v' (sset k v d) = sset k v' d.
Proof.
  unfold sset. induction d as [|[k0 v0] rest IH]; simpl.
  - now rewrite String.eqb_refl.
  - destruct (k =? k0) eqn:E; simpl; rewrite E; [reflexivity | now rewrite IH].
Qed.

Lemma spop_sset_fresh {V} (k : string) (v : V) (d : list (string * V)) :
  sget k d = None -> spop k (sset k v d) = d.
Proof.
  unfold sget, spop, sset. induction d as [|[k0 v0] rest IH]; simpl.
  - now rewrite String.eqb_refl.
  - destruct (k =? k0) eqn:E; [discriminate|].
    intros H. simpl. rewrite E. now rewrite IH.
Qed.

Lemma sget_spop_other {V} (k k' : string) (d : list (string * V)) :
  k <> k' -> sget k (spop k' d) = sget k d.
Proof.
  unfold sget, spop. intros Hne.
  induction d as [|[k0 v0] rest IH]; simpl; [reflexivity|].
  destruct (k' =? k0) eqn:E; simpl.
  - apply String.eqb_eq in E. subst k0.
    apply String.eqb_neq in Hne. now rewrite Hne.
  - now rewrite IH.
Qed.

Lemma join_attempts_cons {World} (target : Target World)
      (attempt : nat) (rest : list nat) (rid : string) (via : list string)
      (res : Results) (r : Run World) :
  join_attempts target (attempt :: rest) rid via res r =
  match join_room target (JStr rid) via r with
  | (Ok _, r') => (true, add_joined rid res, r')
  | (Err e, r') =>
      if Nat.ltb attempt 4
      then join_attempts target rest rid via res (backoff_sleep attempt r')
      else join_attempts target rest rid via
             (set_join_failed (sset rid (str_of_exn e) (join_failed res)) res) r'
  end.
Proof. reflexivity. Qed.

(** The five direct attempts either join the room, leaving the failure
    map alone, or record the error of the last attempt. *)
Lemma join_attempts_outcome {World} (target : Target World)
      (rid : string) (via : list string) (n : nat) :
  forall (k : nat) (res : Results) (r : Run World),
    k + S n = 5 ->
    let out := join_attempts target (seq k (S n)) rid via res r in
    (fst (fst out) = true /\ snd (fst out) = add_joined rid res) \/
    (fst (fst out) = false /\
     exists msg, snd (fst out) =
                 set_join_failed (sset rid msg (join_failed res)) res).
Proof.
  induction n as [|n IH]; intros k res r Hk; cbv zeta.
  - assert (k = 4) by lia. subst k. change (seq 4 1) with [4].
    rewrite join_attempts_cons.
    destruct (join_room target (JStr rid) via r) as [[v|e] r0]; simpl.
    + left. split; reflexivity.
    + right. split; [reflexivity|]. now exists (str_of_exn e).
  - change (seq k (S (S n))) with (k :: seq (S k) (S n)).
    rewrite join_attempts_cons.
    destruct (join_room target (JStr rid) via r) as [[v|e] r0].
    + left. split; reflexivity.
    + assert (Hlt : Nat.ltb k 4 = true) by (apply Nat.ltb_lt; lia).
      rewrite Hlt. apply IH. lia.
Qed.

(** The fallback over the candidate aliases, entered with the failure of
    the room recorded. *)
Lemma join_fallback_outcome {World} (target : Target World)
      (rid : string) (via : list string) (base : Results)
      (candidates : list json) :
  forall (msg : string) (r : Run World),
    let out := join_fallback target candidates rid via
                 (set_join_failed (sset rid msg (join_failed base)) base) r in
    (exists m, fst out =
               set_join_failed (spop rid (sset rid m (join_failed base)))
                               (add_joined rid base)) \/
    (exists m, fst out = set_join_failed (sset rid m (join_failed base)) base).
Proof.
  induction candidates as [|a rest IH]; intros msg r; cbv zeta;
    cbn [join_fallback].
  - right. now exists msg.
  - destruct (join_room target a via r) as [[v|e] r0].
    + left. exists msg. reflexivity.
    + match goal with
      | |- context [join_fallback target rest rid via ?x r0] =>
          replace x
            with (set_join_failed (sset rid (str_of_exn e) (join_failed base))
                                  base)
      end.
      * apply IH.
      * unfold set_join_failed. cbn [join_failed].
        rewrite sset_sset_same. reflexivity.
Qed.

Lemma join_item_outcome {World} (target : Target World) (bundle : Bundle)
      (via : list string) (dry_run : bool) (already_joined : list string)
      (rid : string) (res res' : Results) (r r' : Run World) :
  join_item target bundle via dry_run already_joined rid res r = (Ok res', r') ->
  res' = add_joined rid res \/
  (exists m, res' = set_join_failed (spop rid (sset rid m (join_failed res)))
                                    (add_joined rid res)) \/
  (exists m, res' = set_join_failed (sset rid m (join_failed res)) res).
Proof.
  unfold join_item. intros H.
  destruct (existsb (String.eqb rid) already_joined);
    [left; now inversion H|].
  destruct dry_run; [left; now inversion H|].
  pose proof (join_attempts_outcome target rid via 4 0 res r eq_refl) as Ha.
  cbv zeta in Ha.
  destruct (join_attempts target (seq 0 5) rid via res r) as [[ok res1] r1].
  cbn [fst snd] in Ha.
  destruct Ha as [[-> ->] | [-> [msg ->]]].
  - left. now inversion H.
  - destruct (canonical_aliases (state_of bundle rid)) as [canonical|e];
      [|discriminate H].
    pose proof (join_fallback_outcome target rid via res
                  (canonical ++ aliases_of rid (aliases bundle))%list msg r1)
      as Hf.
    cbv zeta in Hf.
    destruct (join_fallback target _ rid via _ r1) as [res2 r2].
    cbn [fst] in Hf. inversion H; subst res2.
    right. exact Hf.
Qed.

(** X7.  A join item for a room with no failure recorded yet ends in one of
    two ways: the room is appended to the joined list and the failure map is
    exactly as before (also when the join succeeded only through a fallback
    alias, after failures were recorded on the way), or the joined list is
    untouched and the failure map holds one error for this room; nothing else
    in the results changes. *)
Theorem join_item_joins_or_records_one_failure :
  forall {World} (target : Target World) (bundle : Bundle)
         (via : list string) (dry_run : bool) (already_joined : list string)
         (rid : string) (res res' : Results) (r r' : Run World),
    sget rid (join_failed res) = None ->
    join_item target bundle via dry_run already_joined rid res r
    = (Ok res', r') ->
    res' = add_joined rid res \/
    exists msg,
      res' = set_join_failed (join_failed res ++ [(rid, msg)])%list res.
Proof.
  intros World target bundle via dry aj rid res res' r r' Hfresh H.
  apply join_item_outcome in H. destruct H as [H | [[m H] | [m H]]].
  - now left.
  - left. rewrite H, spop_sset_fresh by exact Hfresh.
    destruct res; reflexivity.
  - right. exists m. rewrite H. f_equal. apply sset_fresh.
    clear H. unfold sget in Hfresh.
    induction (join_failed res) as [|[k v] rest IH]; simpl in *; [tauto|].
    destruct (rid =? k) eqn:E; [discriminate|].
    apply String.eqb_neq in E. intros [Hk | Hk]; [congruence | now apply IH].
Qed.

Lemma join_item_joins_or_records_one_failure_witness :
  exists (res' : Results) (r' : Run unit),
    join_item aliases_only town ["old.example.org"] false [] "!a:x"
              empty_results start = (Ok res', r') /\
    (res' = add_joined "!a:x" empty_results \/
     exists msg,
       res' = set_join_failed (join_failed empty_results ++ [("!a:x", msg)])%list
                              empty_results).
Proof.
  eexists. eexists. split; [vm_compute; reflexivity|].
  eapply (join_item_joins_or_records_one_failure
            aliases_only town ["old.example.org"] false [] "!a:x"
            empty_results _ start).
  - reflexivity.
  - vm_compute. reflexivity.
Defined.

(** Joining [!a:x] by id fails five times, with the four sleeps between,
    and then succeeds through its alias: the room is joined and no failure
    is left. *)
Example join_through_fallback_alias :
  fst (join_item aliases_only town ["old.example.org"] false [] "!a:x"
                 empty_results start) =
  Ok (add_joined "!a:x" empty_results) /\
  List.length
    (trace (snd (join_item aliases_only town ["old.example.org"] false []
                           "!a:x" empty_results start))) = 10.
Proof. vm_compute. split; reflexivity. Qed.
(** ** Reconciler: what can abort a run *)









(** ** Reconciler: every planned item is accounted for *)

(** The alias and room-creation phases change nothing about joins, and the
    room-creation phase nothing about aliases. *)
Lemma alias_item_outcome {World} (target : Target World) (dry_run : bool)
      (alias rid : string) (res : Results) (r : Run World) :
  fst (alias_item target dry_run alias rid res r) = add_alias_created alias res \/
  exists m, fst (alias_item target dry_run alias rid res r)
            = set_alias_failed alias m res.
Proof.
  unfold alias_item. destruct dry_run; [now left|].
  destruct (alias_attempts_spec target alias rid 4 0 res r eq_refl)
    as (msgs & final & _ & _ & _ & H).
  destruct final as [m|]; [|now left].
  destruct (is_conflict m); [now left|]. destruct H as [_ H]. right. eauto.
Qed.

Lemma create_item_outcome {World} (target : Target World) (bundle : Bundle)
      (server_name : string) (dry_run : bool)
      (versions : list (string * json)) (rid : string)
      (res res' : Results) (r r' : Run World) :
  create_item target bundle server_name dry_run versions rid res r = (Ok res', r') ->
  (exists v, res' = add_room_created v res) \/
  (exists m, res' = set_room_failed rid m res).
Proof.
  destruct dry_run.
  - unfold create_item. intros H. inversion H. left. eauto.
  - intros H. apply create_item_request in H.
    destruct H as (name & topic & init & public & answer & _ & _ & H).
    cbv zeta in H. destruct H as (_ & _ & _ & ->).
    destruct answer as [[]|e]; eauto.
Qed.

Lemma join_loop_accounts {World} (target : Target World) (bundle : Bundle)
      (via : list string) (dry_run : bool) (already_joined : list string)
      (rids : list string) :
  forall (res res' : Results) (r r' : Run World),
    join_loop target bundle via dry_run already_joined rids res r = (Ok res', r') ->
    forall x, (accounted_join x res \/ In x rids) -> accounted_join x res'.
Proof.
  induction rids as [|rid rest IH]; intros res res' r r' H x Hx; simpl in H.
  - inversion H; subst. destruct Hx as [Hx | []]. exact Hx.
  - destruct (join_item target bundle via dry_run already_joined rid res r)
      as [[res1|e] r1] eqn:Hitem; [|discriminate H].
    apply (IH _ _ _ _ H).
    apply join_item_outcome in Hitem.
    assert (Hrid : accounted_join rid res1).
    { unfold accounted_join.
      destruct Hitem as [-> | [[m ->] | [m ->]]]; simpl.
      - left. apply in_app_iff. right. now left.
      - left. apply in_app_iff. right. now left.
      - right. rewrite sget_sset_same. discriminate. }
    destruct (String.eqb_spec x rid) as [-> | Hne]; [now left|].
    destruct Hx as [Hx | [Hx | Hx]]; [| congruence | now right].
    left. unfold accounted_join in *.
    destruct Hitem as [-> | [[m ->] | [m ->]]]; simpl;
      (destruct Hx as [Hx | Hx]; [left | right]);
      rewrite ?in_app_iff, ?sget_spop_other, ?sget_sset_other by assumption;
      auto.
Qed.

Lemma alias_loop_accounts {World} (target : Target World) (dry_run : bool)
      (items : list (string * string)) :
  forall (res : Results) (r : Run World),
    let res' := fst (alias_loop target dry_run items res r) in
    joined res' = joined res /\ join_failed res' = join_failed res /\
    forall x, (accounted_alias x res \/ In x (map fst items)) ->
              accounted_alias x res'.
Proof.
  induction items as [|[alias rid] rest IH]; intros res r; cbv zeta; simpl.
  - repeat split. intros x [Hx | []]. exact Hx.
  - pose proof (alias_item_outcome target dry_run alias rid res r) as Hitem.
    destruct (alias_item target dry_run alias rid res r) as [res1 r1].
    cbn [fst] in Hitem.
    specialize (IH res1 r1). cbv zeta in IH. destruct IH as (Hj & Hf & IH).
    rewrite Hj, Hf.
    split; [destruct Hitem as [-> | [m ->]]; reflexivity|].
    split; [destruct Hitem as [-> | [m ->]]; reflexivity|].
    intros x Hx. apply IH.
    assert (Halias : accounted_alias alias res1).
    { unfold accounted_alias. destruct Hitem as [-> | [m ->]]; simpl.
      - left. apply in_app_iff. right. now left.
      - right. rewrite sget_sset_same. discriminate. }
    destruct (String.eqb_spec x alias) as [-> | Hne]; [now left|].
    destruct Hx as [Hx | [Hx | Hx]]; [| congruence | now right].
    left. unfold accounted_alias in *.
    destruct Hitem as [-> | [m ->]]; simpl;
      (destruct Hx as [Hx | Hx]; [left | right]);
      rewrite ?in_app_iff, ?sget_sset_other by assumption; auto.
Qed.

Lemma create_loop_frame {World} (target : Target World) (bundle : Bundle)
      (server_name : string) (dry_run : bool)
      (versions : list (string * json)) (rids : list string) :
  forall (res res' : Results) (r r' : Run World),
    create_loop target bundle server_name dry_run versions rids res r
    = (Ok res', r') ->
    joined res' = joined res /\ join_failed res' = join_failed res /\
    aliases_created res' = aliases_created res /\
    aliases_failed res' = aliases_failed res.
Proof.
  induction rids as [|rid rest IH]; intros res res' r r' H; simpl in H.
  - inversion H; subst. repeat split.
  - destruct (create_item target bundle server_name dry_run versions rid res r)
      as [[res1|e] r1] eqn:Hitem; [|discriminate H].
    apply IH in H. destruct H as (H1 & H2 & H3 & H4).
    rewrite H1, H2, H3, H4.
    apply create_item_outcome in Hitem.
    destruct Hitem as [[v ->] | [m ->]]; repeat split.
Qed.

(** X9.  When a run returns, no planned join or alias has been dropped:
    every room of the join list is in the joined list or has an entry in the
    join-failure map, and every alias of the plan is in the created list or
    has an entry in the alias-failure map. *)
Theorem every_planned_join_and_alias_is_accounted_for :
  forall {World} (target : Target World) (bundle : Bundle) (plan : ImportPlan)
         (via : list string) (create_local_rooms : bool) (server_name : string)
         (dry_run : bool) (r r' : Run World) (results : Results),
    perform_import target bundle plan via create_local_rooms server_name
                   dry_run r = (Ok results, r') ->
    (forall rid, In rid (join_rooms plan) -> accounted_join rid results) /\
    (forall alias, In alias (map fst (create_aliases plan)) ->
                   accounted_alias alias results).
Proof.
  intros World target bundle plan via clr sn dry r r' results H.
  unfold perform_import in H.
  destruct (joined_rooms target r) as [[aj|e] r0]; [|discriminate H].
  destruct (join_loop target bundle via dry aj (join_rooms plan)
                      empty_results r0) as [[res1|e] r1] eqn:Hjoin;
    [|discriminate H].
  pose proof (alias_loop_accounts target dry (create_aliases plan) res1 r1)
    as Ha. cbv zeta in Ha.
  destruct (alias_loop target dry (create_aliases plan) res1 r1) as [res2 r2].
  cbn [fst] in Ha. destruct Ha as (Hj & Hf & Ha).
  assert (Hres : joined results = joined res2 /\
                 join_failed results = join_failed res2 /\
                 aliases_created results = aliases_created res2 /\
                 aliases_failed results = aliases_failed res2).
  { destruct clr; [now apply create_loop_frame in H|].
    inversion H; subst. repeat split. }
  destruct Hres as (R1 & R2 & R3 & R4).
  split.
  - intros rid Hin. unfold accounted_join. rewrite R1, R2, Hj, Hf.
    eapply join_loop_accounts; eauto.
  - intros alias Hin. unfold accounted_alias. rewrite R3, R4.
    apply Ha. now right.
Qed.
Lemma every_planned_join_and_alias_is_accounted_for_witness :
  exists (results : Results) (r' : Run unit),
    perform_import down_after_start town town_plan ["old.example.org"] true
                   "x" false start = (Ok results, r') /\
    (forall rid, In rid (join_rooms town_plan) -> accounted_join rid results) /\
    (forall alias, In alias (map fst (create_aliases town_plan)) ->
                   accounted_alias alias results).
Proof.
  eexists. eexists. split; [vm_compute; reflexivity|].
  eapply (every_planned_join_and_alias_is_accounted_for
            down_after_start town town_plan ["old.example.org"] true "x"
            false start).
  vm_compute. reflexivity.
Defined.

(** With every request after the first failing, each planned item ends in
    its failure map. *)
Example town_import_on_failing_target :
  fst (perform_import down_after_start town town_plan ["old.example.org"]
                      true "x" false start) =
  Ok {| joined := [];
        join_failed := [("!a:x", "HTTP 502 Bad gateway")];
        aliases_created := [];
        aliases_failed := [("#town:x", "HTTP 502 Bad gateway")];
        rooms_created := [];
        rooms_failed := [("!b:x", "HTTP 502 Bad gateway")] |}.
Proof. vm_compute. reflexivity. Qed.


(** ** Reconciler: the backoff delay *)

Lemma pow_three_halves_succ (n : nat) :
  ((3 # 2) ^ Z.of_nat (S n) == (3 # 2) * (3 # 2) ^ Z.of_nat n)%Q.
Proof.
  rewrite Nat2Z.inj_succ. unfold Z.succ.
  rewrite Qpower_plus by discriminate.
  rewrite Qmult_comm. reflexivity.
Qed.

Lemma pow_three_halves_ge_one (n : nat) : (1 <= (3 # 2) ^ Z.of_nat n)%Q.
Proof.
  induction n as [|n IH]; [discriminate|].
  rewrite pow_three_halves_succ.
  apply Qle_trans with ((3 # 2) * 1)%Q; [discriminate|].
  apply Qmult_le_l; [reflexivity | exact IH].
Qed.

Lemma pow_three_halves_grows (n : nat) :
  ((3 # 2) ^ Z.of_nat n <= (3 # 2) ^ Z.of_nat (S n))%Q.
Proof.
  rewrite pow_three_halves_succ.
  pose proof (pow_three_halves_ge_one n) as H.
  set (x := ((3 # 2) ^ Z.of_nat n)%Q) in *.
  apply Qle_trans with (1 * x)%Q; [rewrite Qmult_1_l; apply Qle_refl|].
  apply Qmult_le_compat_r; [discriminate|].
  apply Qle_trans with 1%Q; [discriminate | exact H].
Qed.

(** X10.  The delay slept before a retry is at least one second, at most
    thirty, and never shorter than the delay of the attempt before.  (The
    attempts are bounded because Python's float power overflows far beyond
    them; the code only sleeps for attempts 0 to 3.) *)
Theorem backoff_delay_is_bounded_and_grows :
  forall attempt : nat,
    attempt <= 1000 ->
    (1 <= backoff_delay attempt)%Q /\
    (backoff_delay attempt <= 30 # 1)%Q /\
    (backoff_delay attempt <= backoff_delay (S attempt))%Q.
Proof.
  intros attempt _. unfold backoff_delay. rewrite !Qred_correct.
  split; [|split].
  - apply Q.min_glb; [discriminate | apply pow_three_halves_ge_one].
  - apply Q.le_min_l.
  - apply Q.min_le_compat_l. apply pow_three_halves_grows.
Qed.

Lemma backoff_delay_is_bounded_and_grows_witness :
  (1 <= backoff_delay 3)%Q /\
  (backoff_delay 3 <= 30 # 1)%Q /\
  (backoff_delay 3 <= backoff_delay 4)%Q.
Proof.
  apply (backoff_delay_is_bounded_and_grows 3). lia.
Defined.

(** The four sleeps of an item that exhausts its attempts add up to 8.125
    seconds. *)
Example backoff_total :
  Qred (backoff_delay 0 + backoff_delay 1 + backoff_delay 2 + backoff_delay 3)
  = (65 # 8)%Q.
Proof. reflexivity. Qed.

(** ** Bundle reader: required and optional documents *)

Section LoadBundleFacts.
Variable zstd : bool.
Variable tmpdir : string.
Variable iterdir : disk -> list string.
Variable tar_extract : disk -> string -> option exn.
Variable path_exists : string -> bool.
Variable files : string -> string -> option (result json).

Let load := load_bundle zstd tmpdir iterdir tar_extract path_exists files.

Ltac known_file Hall :=
  match goal with
  | |- context [read_json files ?root ?name] =>
      let v := fresh "v" in
      let Hv := fresh "Hv" in
      destruct (Hall name) as [v Hv]; [simpl; tauto|];
      unfold read_json at 1; rewrite Hv; cbn [bind]
  end.

(** X11.  Once the bundle is extracted and its root exists, a required
    document that is missing, the ones before it in reading order being
    there and readable, makes the load fail with the error that names
    that document. *)
Theorem load_bundle_names_the_missing_document :
  forall (path : BundlePath) (root : string) (written : disk)
         (before after : list string) (name : string),
    path_exists (bp_path path) = true ->
    _extract_bundle_to_temp zstd tmpdir iterdir tar_extract path
    = (Ok root, written) ->
    path_exists root = true ->
    required_documents = (before ++ name :: after)%list ->
    (forall n, In n before -> exists v, files root n = Some (Ok v)) ->
    files root name = None ->
    load path =
    Err (Raise "FileNotFoundError"
               ("Missing required file in bundle: " ++ name)).
Proof.
  intros path root written before after name Hp Hx Hr Hsplit Hall Hmissing.
  unfold load, load_bundle. rewrite Hp, Hx, Hr. cbn [negb].
  unfold required_documents in Hsplit.
  destruct before as [|b1 before];
    [inversion Hsplit; subst; unfold read_json at 1; rewrite Hmissing;
     reflexivity|].
  inversion Hsplit as [[Hb Hs]]; subst b1; clear Hsplit. known_file Hall.
  destruct before as [|b2 before];
    [inversion Hs; subst; unfold read_json at 1; rewrite Hmissing;
     reflexivity|].
  inversion Hs as [[Hb Hs']]; subst b2; clear Hs. known_file Hall.
  destruct before as [|b3 before];
    [inversion Hs'; subst; unfold read_json at 1; rewrite Hmissing;
     reflexivity|].
  inversion Hs' as [[Hb Hs]]; subst b3; clear Hs'. known_file Hall.
  destruct before as [|b4 before];
    [inversion Hs; subst; unfold read_json at 1; rewrite Hmissing;
     reflexivity|].
  inversion Hs as [[Hb Hs']]; subst b4; clear Hs. known_file Hall.
  destruct before as [|b5 before];
    [inversion Hs'; subst; unfold read_json at 1; rewrite Hmissing;
     reflexivity|].
  inversion Hs' as [[Hb Hs]]; subst b5; clear Hs'. known_file Hall.
  destruct before as [|b6 before];
    [inversion Hs; subst; unfold read_json at 1; rewrite Hmissing;
     reflexivity|].
  inversion Hs as [[Hb Hs']]. destruct before; discriminate Hs'.
Qed.

(** X12.  A bundle that loads has its six required documents under its
    root, and holds each of them as read; its devices are [None] when there
    is no [devices.json], and otherwise what that file holds ([None] again
    when it holds [null]). *)
Theorem loaded_bundle_holds_the_required_documents :
  forall (path : BundlePath) (b : LoadedBundle),
    load path = Ok b ->
    files (loaded_root b) "users.json" = Some (Ok (loaded_users b)) /\
    files (loaded_root b) "rooms.json" = Some (Ok (loaded_rooms b)) /\
    files (loaded_root b) "room_state.json" = Some (Ok (loaded_room_state b)) /\
    files (loaded_root b) "memberships.json" = Some (Ok (loaded_memberships b)) /\
    files (loaded_root b) "aliases.json" = Some (Ok (loaded_aliases b)) /\
    files (loaded_root b) "metadata.json" = Some (Ok (loaded_metadata b)) /\
    match files (loaded_root b) "devices.json" with
    | None => loaded_devices b = JNull
    | Some content => content = Ok (loaded_devices b)
    end.
Proof.
  intros path b. unfold load, load_bundle, read_json, bind.
  destruct (negb (path_exists (bp_path path))); [discriminate|].
  destruct (_extract_bundle_to_temp zstd tmpdir iterdir tar_extract path)
    as [[root|e] w]; [|discriminate].
  destruct (negb (path_exists root)); [discriminate|].
  destruct (files root "users.json") as [[v1|e]|] eqn:H1; try discriminate.
  destruct (files root "rooms.json") as [[v2|e]|] eqn:H2; try discriminate.
  destruct (files root "room_state.json") as [[v3|e]|] eqn:H3;
    try discriminate.
  destruct (files root "memberships.json") as [[v4|e]|] eqn:H4;
    try discriminate.
  destruct (files root "aliases.json") as [[v5|e]|] eqn:H5; try discriminate.
  destruct (files root "metadata.json") as [[v6|e]|] eqn:H6; try discriminate.
  destruct (files root "devices.json") as [[v7|e]|] eqn:H7; try discriminate;
    intros H; inversion H; subst; cbn;
    (repeat (split; [assumption|])); rewrite H7; reflexivity.
Qed.

End LoadBundleFacts.
Lemma load_bundle_names_the_missing_document_witness :
  load_bundle true "/tmp/matrix-import-1" (listing_in "/tmp/matrix-import-1")
              extracts_all (fun _ => true) (directory_without "aliases.json")
              export_dir =
  Err (Raise "FileNotFoundError"
             ("Missing required file in bundle: " ++ "aliases.json")).
Proof.
  apply (load_bundle_names_the_missing_document
           true "/tmp/matrix-import-1" (listing_in "/tmp/matrix-import-1")
           extracts_all
           (fun _ => true) (directory_without "aliases.json") export_dir
           "/srv/export_bundle" []
           ["users.json"; "rooms.json"; "room_state.json"; "memberships.json"]
           ["metadata.json"] "aliases.json").
  - reflexivity.
  - reflexivity.
  - reflexivity.
  - reflexivity.
  - intros n [<- | [<- | [<- | [<- | []]]]]; eexists; reflexivity.
  - reflexivity.
Defined.

Lemma loaded_bundle_holds_the_required_documents_witness :
  exists b : LoadedBundle,
    load_bundle true "/tmp/matrix-import-1" (listing_in "/tmp/matrix-import-1")
                extracts_all (fun _ => true) null_devices_dir export_dir
    = Ok b /\
    (null_devices_dir (loaded_root b) "users.json"
     = Some (Ok (loaded_users b)) /\
     null_devices_dir (loaded_root b) "rooms.json"
     = Some (Ok (loaded_rooms b)) /\
     null_devices_dir (loaded_root b) "room_state.json"
     = Some (Ok (loaded_room_state b)) /\
     null_devices_dir (loaded_root b) "memberships.json"
     = Some (Ok (loaded_memberships b)) /\
     null_devices_dir (loaded_root b) "aliases.json"
     = Some (Ok (loaded_aliases b)) /\
     null_devices_dir (loaded_root b) "metadata.json"
     = Some (Ok (loaded_metadata b)) /\
     match null_devices_dir (loaded_root b) "devices.json" with
     | None => loaded_devices b = JNull
     | Some content => content = Ok (loaded_devices b)
     end).
Proof.
  eexists. split; [vm_compute; reflexivity|].
  eapply (loaded_bundle_holds_the_required_documents
            true "/tmp/matrix-import-1" (listing_in "/tmp/matrix-import-1")
            extracts_all (fun _ => true) null_devices_dir export_dir).
  vm_compute. reflexivity.
Defined.

(** Without a [devices.json] the devices are [None], as they are when the
    file holds [null]. *)
Example devices_of_a_bundle_without_the_file :
  option_map loaded_devices
    (match load_bundle true "/tmp/matrix-import-1"
             (listing_in "/tmp/matrix-import-1") extracts_all (fun _ => true)
             (directory_without "devices.json") export_dir with
     | Ok b => Some b
     | Err _ => None
     end)
  = Some JNull.
Proof. reflexivity. Qed.

(** ** Client: request URLs *)

Lemma rstrip_slash_app_slash (s : string) :
  rstrip_slash (s ++ "/") = rstrip_slash s.
Proof.
  induction s as [|c rest IH]; [reflexivity|].
  cbn [append rstrip_slash]. now rewrite IH.
Qed.

Lemma rstrip_slash_no_trailing_slash (s t : string) :
  rstrip_slash s <> t ++ "/".
Proof.
  revert t. induction s as [|c rest IH]; intros t; cbn [rstrip_slash].
  - destruct t; discriminate.
  - destruct (rstrip_slash rest) as [|c' stripped] eqn:E.
    + destruct (Ascii.eqb c "/"%char) eqn:Ec.
      * destruct t; discriminate.
      * destruct t as [|a [|b t']]; simpl; intros H; inversion H; subst.
        -- rewrite Ascii.eqb_refl in Ec. discriminate Ec.
    + destruct t as [|a t']; simpl; intros H; inversion H; subst.
      eapply IH. eassumption.
Qed.

Lemma rstrip_slash_stem (s : string) :
  exists k, s = rstrip_slash s ++ repeat_str "/" k.
Proof.
  induction s as [|c rest [k IH]]; [now exists 0|].
  cbn [rstrip_slash].
  destruct (rstrip_slash rest) as [|c' stripped] eqn:E.
  - destruct (Ascii.eqb c "/"%char) eqn:Ec.
    + apply Ascii.eqb_eq in Ec. subst c. exists (S k).
      cbn [repeat_str append]. cbn [append] in IH. now rewrite <- IH.
    + exists k. cbn [append]. cbn [append] in IH. now rewrite <- IH.
  - exists k. cbn [append]. cbn [append] in IH. now rewrite <- IH.
Qed.

(** X13.  An absolute URL is used as it is.  Any other path is appended to
    the base URL stripped of all its trailing slashes: the URL is a stem
    followed by the path, where the base URL is that stem followed by
    slashes only and the stem does not end with a slash.  So a path that
    starts with a slash is joined by exactly one, and writing the base URL
    with one more trailing slash changes nothing. *)
Theorem url_joins_base_and_path :
  forall base_url path : string,
    (startswith path "http" = true -> _url base_url path = path) /\
    (startswith path "http" = false ->
     _url (base_url ++ "/") path = _url base_url path /\
     exists (stem : string) (slashes : nat),
       base_url = stem ++ repeat_str "/" slashes /\
       (forall t, stem <> t ++ "/") /\
       _url base_url path = stem ++ path).
Proof.
  intros base_url path. unfold _url. split; intros ->; [reflexivity|].
  split; [now rewrite rstrip_slash_app_slash|].
  destruct (rstrip_slash_stem base_url) as [k Hk].
  exists (rstrip_slash base_url), k.
  split; [exact Hk|].
  split; [apply rstrip_slash_no_trailing_slash | reflexivity].
Qed.

(** The same endpoint, however the base URL is written. *)
Example url_examples :
  map (fun base => _url base "/_matrix/client/v3/joined_rooms")
      ["https://hs.example.org"; "https://hs.example.org/";
       "https://hs.example.org///"] =
  ["https://hs.example.org/_matrix/client/v3/joined_rooms";
   "https://hs.example.org/_matrix/client/v3/joined_rooms";
   "https://hs.example.org/_matrix/client/v3/joined_rooms"].
Proof. reflexivity. Qed.

(** * Further properties of the exporter *)

(** ** Room loop: what the documents hold *)

Lemma dict_set_entries {K V} (keq : K -> K -> bool) (P : K -> V -> Prop)
      (k : K) (v : V) (d : list (K * V)) :
  (forall k' b, In (k', b) d -> keq k k' = true -> P k' v) -> P k v ->
  (forall a b, In (a, b) d -> P a b) ->
  forall a b, In (a, b) (dict_set keq k v d) -> P a b.
Proof.
  intros Hrepl Hnew. induction d as [|[k' v'] rest IH]; intros Hd a b; simpl.
  - intros [H | []]. inversion H; subst. exact Hnew.
  - destruct (keq k k') eqn:E; intros [H | H].
    + inversion H; subst. apply (Hrepl a v'); [now left | exact E].
    + apply Hd. now right.
    + apply Hd. now left.
    + apply IH; [| |exact H].
      * intros x y Hxy. apply (Hrepl x y). now right.
      * intros x y Hxy. apply Hd. now right.
Qed.

Lemma filter_important_types (st filtered : list json) :
  Exporter.filter_important st = Ok filtered ->
  Forall is_important filtered /\ (forall ev, In ev filtered -> In ev st).
Proof.
  revert filtered. induction st as [|ev rest IH]; intros filtered H;
    cbn [Exporter.filter_important] in H.
  - inversion H; subst. split; [constructor | auto].
  - unfold bind in H. destruct (obj_get ev "type") as [t|e] eqn:Ht;
      [|discriminate H].
    destruct (negb (hashable t)); [discriminate H|].
    destruct (Exporter.filter_important rest) as [more|e]; [|discriminate H].
    destruct (IH more eq_refl) as [Hall Hin].
    destruct (existsb (eq_str t) Exporter.important_state_types) eqn:E;
      inversion H; subst.
    + split.
      * constructor; [|exact Hall]. unfold is_important. now rewrite Ht.
      * intros x [<- | Hx]; [now left | right; now apply Hin].
    + split; [exact Hall|]. intros x Hx. right. now apply Hin.
Qed.
Lemma dict_set_keys {K V} (keq : K -> K -> bool) (k : K) (v : V)
      (d : list (K * V)) :
  map fst (dict_set keq k v d) =
  if existsb (keq k) (map fst d) then map fst d else (map fst d ++ [k])%list.
Proof.
  induction d as [|[k' v'] rest IH]; simpl; [reflexivity|].
  destruct (keq k k'); simpl; [reflexivity|].
  rewrite IH. destruct (existsb (keq k) (map fst rest)); reflexivity.
Qed.

Lemma dict_get_some_iff {K V} (keq : K -> K -> bool) (k : K)
      (d : list (K * V)) :
  dict_get keq k d <> None <-> existsb (keq k) (map fst d) = true.
Proof.
  induction d as [|[k' v'] rest IH]; simpl.
  - split; [intros H; now elim H | discriminate].
  - destruct (keq k k'); simpl; [split; [reflexivity | discriminate]|].
    exact IH.
Qed.

Lemma dict_set_keeps_keys {K V} (keq : K -> K -> bool) (k k' : K) (v : V)
      (d : list (K * V)) :
  dict_get keq k d <> None -> dict_get keq k (dict_set keq k' v d) <> None.
Proof.
  rewrite !dict_get_some_iff, dict_set_keys. intros H.
  destruct (existsb (keq k') (map fst d)); [exact H|].
  rewrite existsb_app, H. reflexivity.
Qed.

(** What a step of the room loop does when it does not raise. *)
Lemma collect_room_step (server_name : option string)
      (api_room_state api_room_members : Exporter.Endpoint json)
      (n n' : nat) (rb : Exporter.dict) (docs docs' : Exporter.Documents) :
  Exporter.collect_room server_name api_room_state api_room_members n rb docs
  = Ok (n', docs') ->
  (truthy (pyget rb "room_id") = false /\ docs' = docs) \/
  (truthy (pyget rb "room_id") = true /\
   hashable (pyget rb "room_id") = true /\
   exists filtered entry,
     Forall is_important filtered /\
     Exporter.room_state docs' =
     jset (pyget rb "room_id") filtered (Exporter.room_state docs) /\
     Exporter.memberships docs' =
     jset (pyget rb "room_id") entry (Exporter.memberships docs)).
Proof.
  unfold Exporter.collect_room, bind. intros H.
  destruct (truthy (pyget rb "room_id")); cbn [negb] in H;
    [|left; inversion H; auto].
  right. split; [reflexivity|].
  destruct (iterate _) as [evs|e]; [|discriminate H].
  destruct (Exporter.filter_important evs) as [filtered|e] eqn:Hf;
    [|discriminate H].
  unfold Exporter.store in H.
  destruct (hashable (pyget rb "room_id")); [|discriminate H].
  split; [reflexivity|].
  destruct (Exporter.derive_aliases_all _ _ evs _) as [al|e]; [|discriminate H].
  inversion H; subst. simpl.
  exists filtered. eexists. repeat split.
  now apply filter_important_types in Hf.
Qed.

Lemma collect_rooms_preserves (Inv : Exporter.Documents -> Prop)
      (server_name : option string)
      (api_room_state api_room_members : Exporter.Endpoint json)
      (all : list Exporter.dict) :
  (forall n rb docs n' docs',
      In rb all -> Inv docs ->
      Exporter.collect_room server_name api_room_state api_room_members
                            n rb docs = Ok (n', docs') ->
      Inv docs') ->
  forall (rest : list Exporter.dict) (n : nat) (docs docs' : Exporter.Documents),
    incl rest all -> Inv docs ->
    Exporter.collect_rooms server_name api_room_state api_room_members
                           n rest docs = Ok docs' ->
    Inv docs'.
Proof.
  intros Hstep. induction rest as [|rb rest IH]; intros n docs docs' Hin Hinv H;
    simpl in H.
  - inversion H; subst. exact Hinv.
  - unfold bind in H.
    destruct (Exporter.collect_room _ _ _ n rb docs) as [[n1 docs1]|e] eqn:H1;
      [|discriminate H].
    simpl in H. eapply IH; [| |exact H].
    + intros x Hx. apply Hin. now right.
    + eapply Hstep; [|exact Hinv|exact H1]. apply Hin. now left.
Qed.

(** X14.  Every event that the export puts in the room-state document is
    a dict whose type is one of the important state types: whatever else
    the source returned for a room is dropped. *)
Theorem exported_room_state_holds_only_important_events :
  forall (server_name : option string)
         (api_room_state api_room_members : Exporter.Endpoint json)
         (listed : list json) (rooms_basic : list Exporter.dict)
         (docs : Exporter.Documents) (rid : json) (events : list json),
    Exporter.export_rooms server_name api_room_state api_room_members listed
    = Ok (rooms_basic, docs) ->
    In (rid, events) (Exporter.room_state docs) ->
    Forall is_important events.
Proof.
  intros sn api_state api_members listed rooms_basic docs rid events H Hin.
  unfold Exporter.export_rooms, bind in H.
  destruct (Exporter.rooms_basic_of listed) as [rbs|e]; [|discriminate H].
  destruct (Exporter.collect_rooms _ _ _ 0 rbs _) as [docs0|e] eqn:Hc;
    [|discriminate H].
  inversion H; subst. clear H.
  revert rid events Hin.
  eapply (collect_rooms_preserves
            (fun d => forall k evs, In (k, evs) (Exporter.room_state d) ->
                                    Forall is_important evs));
    [| apply incl_refl | | exact Hc].
  - intros n rb d n' d' _ Hinv Hstep.
    apply collect_room_step in Hstep.
    destruct Hstep as [[_ ->] | (_ & _ & filtered & entry & Hf & Hrs & _)];
      [exact Hinv|].
    rewrite Hrs. unfold jset.
    apply (dict_set_entries py_eq (fun _ evs => Forall is_important evs));
      auto.
  - intros k evs [].
Qed.

Lemma exported_room_state_holds_only_important_events_witness :
  exists (rooms_basic : list Exporter.dict) (docs : Exporter.Documents),
    Exporter.export_rooms None town_state town_members town_listed
    = Ok (rooms_basic, docs) /\
    In (JStr "!a:x",
        [JObj [("type", JStr "m.room.canonical_alias"); ("state_key", JStr "");
               ("content", JObj [("alias", JStr "#town:x")])]])
       (Exporter.room_state docs) /\
    Forall is_important
           [JObj [("type", JStr "m.room.canonical_alias"); ("state_key", JStr "");
                  ("content", JObj [("alias", JStr "#town:x")])]].
Proof.
  eexists. eexists. split; [vm_compute; reflexivity|].
  split; [simpl; auto|].
  eapply (exported_room_state_holds_only_important_events
            None town_state town_members town_listed _ _ (JStr "!a:x")).
  - vm_compute. reflexivity.
  - simpl. auto.
Defined.

Lemma collect_rooms_entries (server_name : option string)
      (api_room_state api_room_members : Exporter.Endpoint json)
      (rest : list Exporter.dict) :
  forall (n : nat) (docs docs' : Exporter.Documents),
    Exporter.collect_rooms server_name api_room_state api_room_members
                           n rest docs = Ok docs' ->
    forall k,
      (has_entries k docs \/
       exists rb, In rb rest /\ pyget rb "room_id" = k /\ truthy k = true) ->
      has_entries k docs'.
Proof.
  induction rest as [|rb rest IH]; intros n docs docs' H k Hk; simpl in H.
  - inversion H; subst. destruct Hk as [Hk | (rb & [] & _)]. exact Hk.
  - unfold bind in H.
    destruct (Exporter.collect_room _ _ _ n rb docs) as [[n1 docs1]|e] eqn:H1;
      [|discriminate H].
    simpl in H. apply (IH _ _ _ H).
    apply collect_room_step in H1.
    destruct H1 as [[Hf ->] | (Ht & Hh & filtered & entry & _ & Hrs & Hms)].
    + destruct Hk as [Hk | (rb' & [<- | Hin] & Hid & Htr)].
      * now left.
      * congruence.
      * right. now exists rb'.
    + destruct Hk as [[Hk1 Hk2] | (rb' & [<- | Hin] & Hid & Htr)].
      * left. unfold has_entries, jget. rewrite Hrs, Hms. unfold jset.
        split; now apply dict_set_keeps_keys.
      * left. subst k. unfold has_entries, jget. rewrite Hrs, Hms. unfold jset.
        rewrite !dict_get_set_same by now apply py_eq_refl_hashable.
        split; discriminate.
      * right. now exists rb'.
Qed.

(** X15.  When the export produces its documents, the room-state and the
    memberships documents have the same room identifiers in the same order;
    each of them is the (non-empty) room id of a record of the rooms
    document; and every record of the rooms document with a non-empty room
    id has an entry in both, even when its fetches failed. *)
Theorem exported_documents_cover_the_same_rooms :
  forall (server_name : option string)
         (api_room_state api_room_members : Exporter.Endpoint json)
         (listed : list json) (rooms_basic : list Exporter.dict)
         (docs : Exporter.Documents),
    Exporter.export_rooms server_name api_room_state api_room_members listed
    = Ok (rooms_basic, docs) ->
    map fst (Exporter.room_state docs) = map fst (Exporter.memberships docs) /\
    (forall rid, In rid (map fst (Exporter.room_state docs)) ->
                 truthy rid = true /\
                 exists rb, In rb rooms_basic /\ pyget rb "room_id" = rid) /\
    (forall rb, In rb rooms_basic -> truthy (pyget rb "room_id") = true ->
                has_entries (pyget rb "room_id") docs).
Proof.
  intros sn api_state api_members listed rooms_basic docs H.
  unfold Exporter.export_rooms, bind in H.
  destruct (Exporter.rooms_basic_of listed) as [rbs|e]; [|discriminate H].
  destruct (Exporter.collect_rooms _ _ _ 0 rbs _) as [docs0|e] eqn:Hc;
    [|discriminate H].
  inversion H; subst. clear H.
  assert (Hinv : map fst (Exporter.room_state docs) =
                 map fst (Exporter.memberships docs) /\
                 (forall rid, In rid (map fst (Exporter.room_state docs)) ->
                              truthy rid = true /\
                              exists rb, In rb rooms_basic /\
                                         pyget rb "room_id" = rid)).
  { eapply (collect_rooms_preserves
              (fun d => map fst (Exporter.room_state d) =
                        map fst (Exporter.memberships d) /\
                        (forall rid, In rid (map fst (Exporter.room_state d)) ->
                                     truthy rid = true /\
                                     exists rb, In rb rooms_basic /\
                                                pyget rb "room_id" = rid)));
      [| apply incl_refl | | exact Hc].
    - intros n rb d n' d' Hin [Hkeys Horph] Hstep.
      apply collect_room_step in Hstep.
      destruct Hstep as [[_ ->] | (Ht & _ & filtered & entry & _ & Hrs & Hms)];
        [now split|].
      rewrite Hrs, Hms. unfold jset. rewrite !dict_set_keys, <- Hkeys.
      destruct (existsb (py_eq (pyget rb "room_id"))
                        (map fst (Exporter.room_state d))).
      + now split.
      + split; [reflexivity|]. intros rid Hrid.
        apply in_app_iff in Hrid. destruct Hrid as [Hrid | [<- | []]].
        * now apply Horph.
        * split; [exact Ht | now exists rb].
    - split; [reflexivity | intros rid []]. }
  destruct Hinv as [Hkeys Horph]. split; [exact Hkeys|]. split; [exact Horph|].
  intros rb Hin Ht. eapply collect_rooms_entries; [exact Hc|].
  right. now exists rb.
Qed.
Lemma exported_documents_cover_the_same_rooms_witness :
  exists (rooms_basic : list Exporter.dict) (docs : Exporter.Documents),
    Exporter.export_rooms None failing_state failing_members town_listed
    = Ok (rooms_basic, docs) /\
    map fst (Exporter.room_state docs) = map fst (Exporter.memberships docs) /\
    (forall rid, In rid (map fst (Exporter.room_state docs)) ->
                 truthy rid = true /\
                 exists rb, In rb rooms_basic /\ pyget rb "room_id" = rid) /\
    (forall rb, In rb rooms_basic -> truthy (pyget rb "room_id") = true ->
                has_entries (pyget rb "room_id") docs).
Proof.
  eexists. eexists. split; [vm_compute; reflexivity|].
  eapply (exported_documents_cover_the_same_rooms
            None failing_state failing_members town_listed).
  vm_compute. reflexivity.
Defined.

(** ** Room loop: the domain filter on aliases *)

Section DomainFilter.
Variable sn : string.

Lemma store_domain (a rid : json) (d d' : list (json * json)) :
  Exporter.store a rid d = Ok d' ->
  in_domain sn a -> keys_in_domain sn d -> keys_in_domain sn d'.
Proof.
  unfold Exporter.store, keys_in_domain. destruct (hashable a); [|discriminate].
  intros H Ha Hd. inversion H; subst. unfold jset.
  apply (dict_set_entries py_eq (fun k _ => in_domain sn k)); auto.
  intros k' b Hin _. eapply Hd. exact Hin.
Qed.

Lemma ends_with_domain_true (a : json) :
  Exporter.ends_with_domain a sn = Ok true -> in_domain sn a.
Proof.
  unfold Exporter.ends_with_domain, in_domain.
  destruct a as [| | |s| |]; try discriminate. intros H.
  exists s. split; [reflexivity | congruence].
Qed.

Lemma add_listed_aliases_domain (rid : json) (listed : list json) :
  forall d d',
    Exporter.add_listed_aliases (Some sn) rid listed d = Ok d' ->
    keys_in_domain sn d -> keys_in_domain sn d'.
Proof.
  induction listed as [|a rest IH]; intros d d' H Hd;
    cbn [Exporter.add_listed_aliases] in H.
  - inversion H; subst. exact Hd.
  - destruct (sn =? ""); [eapply IH; eauto|].
    unfold bind in H.
    destruct (Exporter.ends_with_domain a sn) as [[|]|e] eqn:E;
      try discriminate H.
    + destruct (Exporter.store a rid d) as [d1|e] eqn:Hs; [|discriminate H].
      eapply IH; eauto. eapply store_domain; eauto.
      now apply ends_with_domain_true.
    + eapply IH; eauto.
Qed.

Lemma derive_aliases_domain (rid ev : json) (d d' : list (json * json)) :
  Exporter.derive_aliases (Some sn) rid ev d = Ok d' ->
  keys_in_domain sn d -> keys_in_domain sn d'.
Proof.
  unfold Exporter.derive_aliases, bind. intros H Hd.
  destruct (obj_get ev "type") as [t|e]; [|discriminate H].
  match type of H with
  | match ?x with Ok _ => _ | Err _ => _ end = _ =>
      destruct x as [d1|e] eqn:Hd1; [|discriminate H]
  end.
  assert (H1 : keys_in_domain sn d1).
  { destruct (eq_str t "m.room.aliases").
    - destruct (obj_get_default ev "content" (JObj [])) as [c|e];
        [|discriminate Hd1].
      destruct (obj_get_default c "aliases" (JArr [])) as [l|e];
        [|discriminate Hd1].
      destruct (iterate _) as [items|e]; [|discriminate Hd1].
      eapply add_listed_aliases_domain; eauto.
    - inversion Hd1; subst. exact Hd. }
  destruct (eq_str t "m.room.canonical_alias");
    [|inversion H; subst; exact H1].
  destruct (obj_get_default ev "content" (JObj [])) as [c|e]; [|discriminate H].
  destruct (obj_get _ "alias") as [a|e]; [|discriminate H].
  destruct (truthy a); [|inversion H; subst; exact H1].
  destruct (Exporter.ends_with_domain a sn) as [[|]|e] eqn:E;
    try discriminate H.
  - eapply store_domain; eauto. now apply ends_with_domain_true.
  - inversion H; subst. exact H1.
Qed.

Lemma derive_aliases_all_domain (rid : json) (st : list json) :
  forall d d',
    Exporter.derive_aliases_all (Some sn) rid st d = Ok d' ->
    keys_in_domain sn d -> keys_in_domain sn d'.
Proof.
  induction st as [|ev rest IH]; intros d d' H Hd; simpl in H.
  - inversion H; subst. exact Hd.
  - unfold bind in H.
    destruct (Exporter.derive_aliases (Some sn) rid ev d) as [d1|e] eqn:H1;
      [|discriminate H].
    eapply IH; eauto. eapply derive_aliases_domain; eauto.
Qed.

End DomainFilter.

(** X16.  When the export runs with a domain filter and produces its
    documents, every alias of the alias document is a string that ends with
    [":" + server_name]. *)
Theorem exported_aliases_respect_the_domain_filter :
  forall (server_name : string)
         (api_room_state api_room_members : Exporter.Endpoint json)
         (listed : list json) (rooms_basic : list Exporter.dict)
         (docs : Exporter.Documents) (alias rid : json),
    Exporter.export_rooms (Some server_name) api_room_state api_room_members
                          listed = Ok (rooms_basic, docs) ->
    In (alias, rid) (Exporter.aliases docs) ->
    exists a, alias = JStr a /\ endswith a (":" ++ server_name) = true.
Proof.
  intros sn api_state api_members listed rooms_basic docs alias rid H Hin.
  unfold Exporter.export_rooms, bind in H.
  destruct (Exporter.rooms_basic_of listed) as [rbs|e]; [|discriminate H].
  destruct (Exporter.collect_rooms _ _ _ 0 rbs _) as [docs0|e] eqn:Hc;
    [|discriminate H].
  inversion H; subst. clear H.
  assert (Hinv : keys_in_domain sn (Exporter.aliases docs)).
  { eapply (collect_rooms_preserves
              (fun d => keys_in_domain sn (Exporter.aliases d)));
      [| apply incl_refl | | exact Hc].
    - intros n rb d n' d' _ Hinv Hstep.
      unfold Exporter.collect_room, bind in Hstep.
      destruct (negb (truthy (pyget rb "room_id")));
        [inversion Hstep; subst; exact Hinv|].
      destruct (iterate _) as [evs|e]; [|discriminate Hstep].
      destruct (Exporter.filter_important evs) as [filtered|e];
        [|discriminate Hstep].
      destruct (Exporter.store _ filtered _) as [rs|e]; [|discriminate Hstep].
      destruct (Exporter.derive_aliases_all _ _ evs _) as [al|e] eqn:Hal;
        [|discriminate Hstep].
      destruct (Exporter.store _ _ (Exporter.memberships d)) as [ms|e];
        [|discriminate Hstep].
      inversion Hstep; subst. simpl.
      eapply derive_aliases_all_domain; eauto.
    - intros k v []. }
  exact (Hinv alias rid Hin).
Qed.
Lemma exported_aliases_respect_the_domain_filter_witness :
  exists (rooms_basic : list Exporter.dict) (docs : Exporter.Documents),
    Exporter.export_rooms (Some "x") listed_aliases_state town_members
                          town_listed = Ok (rooms_basic, docs) /\
    In (JStr "#square:x", JStr "!a:x") (Exporter.aliases docs) /\
    exists a, JStr "#square:x" = JStr a /\ endswith a (":" ++ "x") = true.
Proof.
  eexists. eexists. split; [vm_compute; reflexivity|].
  split; [simpl; auto|].
  eapply (exported_aliases_respect_the_domain_filter
            "x" listed_aliases_state town_members town_listed _ _
            (JStr "#square:x")).
  - vm_compute. reflexivity.
  - simpl. auto.
Defined.

(** With the filter [x], of the aliases a room lists and of its canonical
    alias only those of the domain are kept. *)
Example filtered_aliases :
  match Exporter.export_rooms (Some "x") listed_aliases_state town_members
                              town_listed with
  | Ok (_, docs) => Exporter.aliases docs
  | Err _ => []
  end = [(JStr "#square:x", JStr "!a:x"); (JStr "#town:x", JStr "!a:x");
         (JStr "#back:x", JStr "!b:x")].
Proof. vm_compute. reflexivity. Qed.
(** ** Listings: a source that pages properly *)

(** X17.  In front of a source that answers the successive room-listing
    requests with pages carrying a non-zero integer token, and then with a
    page without token, [list_rooms] returns after that last page (given
    one request more than there are pages with a token) and has yielded the
    rooms of all the pages, in order. *)
Theorem list_rooms_yields_every_page :
  forall (int_of_str : string -> option Z) (pages : Exporter.Endpoint Z)
         (chunks : list (list json * Z)) (last : list json)
         (fuel n : nat) (from_tok : Z),
    (forall i rooms t,
        nth_error chunks i = Some (rooms, t) ->
        forall from, exists page,
            pages (n + i) from = Ok page /\
            rooms_page_with rooms (Some t) page) ->
    (forall from, exists page,
          pages (n + List.length chunks) from = Ok page /\
          rooms_page_with last None page) ->
    List.length chunks < fuel ->
    Exporter.list_rooms int_of_str pages fuel n from_tok =
    ((concat (map fst chunks) ++ last)%list, Exporter.Finished).
Proof.
  intros int_of_str pages chunks.
  induction chunks as [|[rooms t] rest IH];
    intros last fuel n from_tok Hchunks Hlast Hfuel;
    (destruct fuel as [|fuel]; [simpl in Hfuel; lia|]);
    cbn [Exporter.list_rooms].
  - destruct (Hlast from_tok) as (page & Hpage & data & -> & Hrooms & Hb & Ht).
    simpl in Hpage. rewrite Nat.add_0_r in Hpage. rewrite Hpage, Hrooms.
    cbn [iterate]. rewrite Hb, Ht. reflexivity.
  - destruct (Hchunks 0 rooms t eq_refl from_tok)
      as (page & Hpage & data & -> & Hrooms & Hb & Hnz).
    rewrite Nat.add_0_r in Hpage. rewrite Hpage, Hrooms.
    cbn [iterate]. rewrite Hb.
    assert (Htruthy : truthy (JNum t) = true).
    { simpl. apply negb_true_iff. now apply Z.eqb_neq. }
    rewrite Htruthy. cbn [negb Exporter.py_int].
    rewrite (IH last fuel (S n) t).
    + cbn [map concat fst]. rewrite ?Htruthy. cbn [negb].
      now rewrite <- app_assoc.
    + intros i rooms' t' Hi from.
      destruct (Hchunks (S i) rooms' t' Hi from) as (page & Hp & Hshape).
      exists page. split; [|exact Hshape].
      rewrite <- Hp. f_equal. lia.
    + intros from. destruct (Hlast from) as (page & Hp & Hshape).
      exists page. split; [|exact Hshape].
      rewrite <- Hp. f_equal. simpl. lia.
    + simpl in Hfuel. lia.
Qed.

Lemma list_rooms_yields_every_page_witness :
  Exporter.list_rooms (fun _ => None) three_pages 3 0 0 =
  ((concat (map fst [([JStr "r1"; JStr "r2"], 2%Z); ([JStr "r3"], 3%Z)])
      ++ [JStr "r4"])%list,
   Exporter.Finished).
Proof.
  apply (list_rooms_yields_every_page
           (fun _ => None) three_pages
           [([JStr "r1"; JStr "r2"], 2%Z); ([JStr "r3"], 3%Z)] [JStr "r4"]
           3 0 0%Z).
  - intros [|[|[|i]]] rooms t H from; simpl in H; inversion H; subst;
      eexists; (split; [reflexivity|]); eexists;
      (split; [reflexivity|]); repeat split; discriminate.
  - intros from. eexists. split; [reflexivity|].
    eexists. split; [reflexivity|]. repeat split.
  - simpl. lia.
Defined.
Lemma list_users_cycle_guard_witness :
  snd (Exporter.list_users
         (fun _ _ => Ok (JObj [("users", JArr [JObj [("name", JStr "@u:x")]]);
                               ("next_token", JStr "t1")]))
         (2 + 0) 0 (JNum 0))
  <> Exporter.Paging.
Proof.
  apply (list_users_cycle_guard
           (JObj [("users", JArr [JObj [("name", JStr "@u:x")]]);
                  ("next_token", JStr "t1")]) 0 0 (JNum 0)).
  intros d H. inversion H; subst. reflexivity.
Defined.

(** ** The devices document *)







(** The devices document of two users, the request of the second failing. *)
Example devices_of_two_users :
  match Exporter.users_document failing_state 0 two_users with
  | Ok users => Exporter.devices_of devices_source 0 users []
  | Err e => Err e
  end
  = Ok [(JStr "@u:x", JObj [("devices", JArr [JObj [("device_id", JStr "ABC")]])]);
        (JStr "@v:x", JObj [("_error", JStr "HTTP 404: User not found")])].
Proof. reflexivity. Qed.

(** ** The manifest *)

Lemma read_splits (size : N) (left : list Byte.byte) :
  left = (fst (Exporter.read size left) ++ snd (Exporter.read size left))%list.
Proof.
  revert size. induction left as [|b after IH]; intros size; simpl.
  - reflexivity.
  - destruct (N.eqb size 0); [reflexivity|].
    specialize (IH (N.pred size)).
    destruct (Exporter.read (N.pred size) after) as [chunk rest]; simpl in *.
    now rewrite <- IH.
Qed.

Lemma read_takes_some (size : N) (b : Byte.byte) (after : list Byte.byte) :
  size <> 0%N ->
  exists chunk rest, Exporter.read size (b :: after) = (b :: chunk, rest) /\
                     List.length rest <= List.length after.
Proof.
  intros Hs. simpl. apply N.eqb_neq in Hs. rewrite Hs.
  pose proof (read_splits (N.pred size) after) as H.
  destruct (Exporter.read (N.pred size) after) as [chunk rest]; simpl in H.
  exists chunk, rest. split; [reflexivity|].
  apply (f_equal (@List.length _)) in H. rewrite length_app in H. lia.
Qed.

Section ManifestFacts.
Variable hash_object : Type.
Variable sha256 : hash_object.
Variable update : hash_object -> list Byte.byte -> hash_object.
Variable hexdigest : hash_object -> string.
Hypothesis update_streams :
  forall h a b, update (update h a) b = update h (a ++ b)%list.

Lemma hash_chunks_whole (size : N) :
  size <> 0%N ->
  forall (fuel : nat) (left : list Byte.byte) (h : hash_object),
    List.length left < fuel ->
    Exporter.hash_chunks hash_object update size fuel left h =
    Some (match left with [] => h | _ :: _ => update h left end).
Proof.
  intros Hs. induction fuel as [|fuel IH]; intros left h Hlen; [lia|].
  cbn [Exporter.hash_chunks].
  destruct left as [|b after].
  - reflexivity.
  - destruct (read_takes_some size b after Hs) as (chunk & rest & Hr & Hle).
    pose proof (read_splits size (b :: after)) as Hsplit.
    rewrite Hr in *. cbn [is_nil fst snd] in *.
    rewrite IH by (simpl in Hlen; lia).
    rewrite Hsplit.
    destruct rest as [|r rest'].
    + now rewrite app_nil_r.
    + now rewrite update_streams.
Qed.

Lemma manifest_of_entries (out : string -> option (list Byte.byte))
      (fuel : nat) (files : list string) :
  (forall f content, In f files -> out f = Some content ->
                     List.length content < fuel) ->
  forall manifest0,
  exists manifest,
    Exporter.manifest_of hash_object sha256 update hexdigest fuel out files
                         manifest0 = Some manifest /\
    forall f,
      sget f manifest =
      match (if existsb (String.eqb f) files then out f else None) with
      | Some content => Some (whole_digest sha256 update hexdigest content)
      | None => sget f manifest0
      end.
Proof.
  induction files as [|fname rest IH]; intros Hfuel manifest0;
    cbn [Exporter.manifest_of].
  - exists manifest0. split; [reflexivity|]. intros f. reflexivity.
  - assert (Hrest : forall f content, In f rest -> out f = Some content ->
                                      List.length content < fuel)
      by (intros f c Hin; apply Hfuel; now right).
    destruct (out fname) as [content|] eqn:Hout.
    + rewrite hash_chunks_whole;
        [ | intros H; vm_compute in H; discriminate H
          | apply (Hfuel fname); [now left|exact Hout] ].
      destruct (IH Hrest (sset fname (hexdigest (match content with
                                                 | [] => sha256
                                                 | _ :: _ => update sha256 content
                                                 end)) manifest0))
        as (manifest & Hm & Hget).
      exists manifest. split; [exact Hm|].
      intros f. rewrite Hget. cbn [existsb].
      destruct (String.eqb f fname) eqn:E.
      * apply String.eqb_eq in E. subst f. cbn [orb]. rewrite Hout.
        destruct (existsb (String.eqb fname) rest); [reflexivity|].
        now rewrite sget_sset_same.
      * cbn [orb]. destruct (existsb (String.eqb f) rest).
        -- destruct (out f); [reflexivity|].
           apply sget_sset_other. now apply String.eqb_neq.
        -- apply sget_sset_other. now apply String.eqb_neq.
    + destruct (IH Hrest manifest0) as (manifest & Hm & Hget).
      exists manifest. split; [exact Hm|].
      intros f. rewrite Hget. cbn [existsb].
      destruct (String.eqb f fname) eqn:E; cbn [orb]; [|reflexivity].
      apply String.eqb_eq in E. subst f.
      destruct (existsb (String.eqb fname) rest); now rewrite Hout.
Qed.
End ManifestFacts.

(** X20.  The manifest of an export has an entry for exactly the schema
    files that exist in the output directory, and the entry of a file is the
    digest of its whole content: reading it in blocks of one MiB changes
    nothing, for a hash object on which two updates amount to one update
    with the concatenation. *)
Theorem manifest_holds_the_digest_of_every_listed_file :
  forall (hash_object : Type) (sha256 : hash_object)
         (update : hash_object -> list Byte.byte -> hash_object)
         (hexdigest : hash_object -> string)
         (out : string -> option (list Byte.byte))
         (include_devices include_media_refs : bool) (fuel : nat),
    (forall h a b, update (update h a) b = update h (a ++ b)%list) ->
    (forall f content, out f = Some content -> List.length content < fuel) ->
    exists manifest,
      Exporter.manifest_of hash_object sha256 update hexdigest fuel out
        (Exporter.schema_files include_devices include_media_refs) []
      = Some manifest /\
      forall f,
        sget f manifest =
        if existsb (String.eqb f)
                   (Exporter.schema_files include_devices include_media_refs)
        then option_map (whole_digest sha256 update hexdigest) (out f)
        else None.
Proof.
  intros hash_object sha256 update hexdigest out d m fuel Hstream Hfuel.
  destruct (manifest_of_entries hash_object sha256 update hexdigest Hstream
              out fuel (Exporter.schema_files d m)
              (fun f c _ => Hfuel f c) [])
    as (manifest & Hm & Hget).
  exists manifest. split; [exact Hm|].
  intros f. rewrite Hget.
  destruct (existsb (String.eqb f) (Exporter.schema_files d m));
    [destruct (out f)|]; reflexivity.
Qed.

Lemma manifest_holds_the_digest_of_every_listed_file_witness :
  exists manifest,
    Exporter.manifest_of (list Byte.byte) [] (@app Byte.byte) fed_bytes_digest
      3 sample_out (Exporter.schema_files true false) []
    = Some manifest /\
    forall f,
      sget f manifest =
      if existsb (String.eqb f) (Exporter.schema_files true false)
      then option_map (whole_digest [] (@app Byte.byte) fed_bytes_digest)
                      (sample_out f)
      else None.
Proof.
  apply (manifest_holds_the_digest_of_every_listed_file
           (list Byte.byte) [] (@app Byte.byte) fed_bytes_digest sample_out
           true false 3).
  - intros h a b. symmetry. apply app_assoc.
  - intros f content. unfold sample_out.
    destruct (f =? "users.json");
      [intros H; inversion H; simpl; lia|].
    destruct (f =? "aliases.json"); [|discriminate].
    intros H; inversion H; simpl; lia.
Defined.

(** The manifest of the sample directory. *)
Example sample_manifest :
  Exporter.manifest_of (list Byte.byte) [] (@app Byte.byte) fed_bytes_digest
    3 sample_out (Exporter.schema_files true false) []
  = Some [("users.json", "aa"); ("aliases.json", "")].
Proof. reflexivity. Qed.

(** ** The artifact and the bundle reader *)

Lemma length_append (a b : string) :
  String.length (a ++ b) = String.length a + String.length b.
Proof. induction a as [|c a IH]; simpl; [reflexivity | now rewrite IH]. Qed.

Lemma substring_whole (b : string) : substring 0 (String.length b) b = b.
Proof. induction b as [|c b IH]; simpl; [reflexivity | now rewrite IH]. Qed.

Lemma substring_app_right (a b : string) :
  substring (String.length a) (String.length b) (a ++ b) = b.
Proof.
  induction a as [|c a IH]; simpl; [apply substring_whole | exact IH].
Qed.

Lemma endswith_app (a suf : string) : endswith (a ++ suf) suf = true.
Proof.
  unfold endswith. rewrite length_append.
  replace (String.length a + String.length suf - String.length suf)
    with (String.length a) by lia.
  rewrite substring_app_right, String.eqb_refl.
  rewrite andb_true_r. apply Nat.leb_le. lia.
Qed.

Lemma rfind_dot_app (a b : string) :
  forall pos found,
    rfind_dot (a ++ b) pos found =
    rfind_dot b (pos + String.length a) (rfind_dot a pos found).
Proof.
  induction a as [|c a IH]; intros pos found; simpl.
  - now rewrite Nat.add_0_r.
  - rewrite IH. now rewrite Nat.add_succ_r.
Qed.

Lemma path_suffix_tar (b : string) :
  b <> "" -> path_suffix (b ++ ".tar") = ".tar".
Proof.
  intros Hb. unfold path_suffix.
  rewrite rfind_dot_app. cbn [rfind_dot Ascii.eqb Bool.eqb Nat.add].
  rewrite length_append. cbn [String.length].
  assert (0 < String.length b) by (destruct b; [congruence | simpl; lia]).
  replace (Nat.ltb 0 (String.length b)) with true
    by (symmetry; apply Nat.ltb_lt; lia).
  replace (Nat.ltb (String.length b) (String.length b + 4 - 1)) with true
    by (symmetry; apply Nat.ltb_lt; lia).
  cbn [andb].
  replace (String.length b + 4 - String.length b) with (String.length ".tar")
    by (simpl; lia).
  apply substring_app_right.
Qed.

Lemma endswith_tar_not_zst (b : string) :
  endswith (b ++ ".tar") ".tar.zst" = false.
Proof.
  unfold endswith. destruct (Nat.leb _ _) eqn:Hle; [|reflexivity].
  cbn [andb]. apply String.eqb_neq. intros H.
  apply Nat.leb_le in Hle. rewrite length_append in *. simpl in Hle, H.
  pose proof (substring_correct1 (b ++ ".tar") (String.length b + 4 - 8) 8 7)
    as Hget.
  rewrite H in Hget. specialize (Hget ltac:(lia)).
  replace (7 + (String.length b + 4 - 8)) with (3 + String.length b) in Hget
    by lia.
  rewrite <- append_correct2 in Hget. simpl in Hget. discriminate Hget.
Qed.

Lemma plain_name_head (c : string) :
  plain_name c = true ->
  exists a rest, c = String a rest /\ Ascii.eqb a "/" = false /\
                 contains "/" rest = false.
Proof.
  unfold plain_name. destruct c as [|a rest]; [discriminate|].
  cbn [String.eqb negb andb contains String.prefix].
  intros H. apply negb_true_iff in H. apply orb_false_iff in H.
  destruct H as [Hp Hc]. exists a, rest. split; [reflexivity|].
  split; [|exact Hc].
  destruct (Ascii.eqb a "/") eqn:E; [|reflexivity].
  apply Ascii.eqb_eq in E. subst a. simpl in Hp. now destruct rest.
Qed.

Lemma split_no_slash (a : string) :
  contains "/" a = false -> split "/" a = [a].
Proof.
  induction a as [|c a IH]; [reflexivity|].
  cbn [contains String.prefix split]. intros H.
  apply orb_false_iff in H. destruct H as [Hp Hc].
  destruct (Ascii.eqb c "/") eqn:E.
  - apply Ascii.eqb_eq in E. subst c. simpl in Hp. now destruct a.
  - now rewrite (IH Hc).
Qed.

Lemma split_app_slash (a b : string) :
  contains "/" a = false ->
  split "/" (a ++ "/" ++ b) = a :: split "/" b.
Proof.
  induction a as [|c a IH]; [reflexivity|].
  cbn [contains String.prefix]. intros H.
  apply orb_false_iff in H. destruct H as [Hp Hc].
  change ((String c a) ++ "/" ++ b) with (String c (a ++ "/" ++ b)).
  cbn [split].
  destruct (Ascii.eqb c "/") eqn:E.
  - apply Ascii.eqb_eq in E. subst c. simpl in Hp. now destruct a.
  - now rewrite (IH Hc).
Qed.

Lemma plain_name_no_slash (c : string) :
  plain_name c = true -> contains "/" c = false.
Proof.
  unfold plain_name. intros H. apply andb_true_iff in H.
  destruct H as [_ H]. now apply negb_true_iff in H.
Qed.

Lemma split_join (c : string) (comps : list string) :
  (forall x, In x (c :: comps) -> plain_name x = true) ->
  split "/" (join "/" (c :: comps)) = c :: comps.
Proof.
  revert c. induction comps as [|d comps IH]; intros c Hall.
  - apply split_no_slash, plain_name_no_slash, Hall. now left.
  - change (join "/" (c :: d :: comps)) with (c ++ "/" ++ join "/" (d :: comps)).
    rewrite split_app_slash by (apply plain_name_no_slash, Hall; now left).
    rewrite IH; [reflexivity|]. intros x Hx. apply Hall. now right.
Qed.

Lemma entry_name_parts (c : string) :
  entry_name c = true ->
  plain_name c = true /\ (c =? "") = false /\ (c =? ".") = false /\
  (c =? "..") = false.
Proof.
  unfold entry_name. intros H.
  apply andb_true_iff in H. destruct H as [H H2].
  apply andb_true_iff in H. destruct H as [Hp H1].
  apply negb_true_iff in H1, H2.
  split; [exact Hp|]. split; [|now split].
  unfold plain_name in Hp. apply andb_true_iff in Hp.
  destruct Hp as [Hp _]. now apply negb_true_iff in Hp.
Qed.

Lemma normpath_steps_keep (slashes : nat) (comps acc : list string) :
  (forall x, In x comps -> entry_name x = true) ->
  fold_left (normpath_step slashes) comps acc = (acc ++ comps)%list.
Proof.
  revert acc. induction comps as [|c comps IH]; intros acc Hall.
  - now rewrite app_nil_r.
  - cbn [fold_left].
    destruct (entry_name_parts c (Hall c (or_introl eq_refl)))
      as (_ & H0 & H1 & H2).
    unfold normpath_step at 2. rewrite H0, H1, H2. cbn [orb negb].
    rewrite IH by (intros x Hx; apply Hall; now right).
    now rewrite <- app_assoc.
Qed.

Lemma join_head (a : ascii) (rest : string) (comps : list string) :
  exists tail, join "/" (String a rest :: comps) = String a tail.
Proof.
  destruct comps as [|d comps].
  - now exists rest.
  - now exists (rest ++ "/" ++ join "/" (d :: comps)).
Qed.

Lemma entry_path_is_accepted (folder : string) (comps : list string) :
  entry_name folder = true -> startswith folder "." = false ->
  (forall c, In c comps -> entry_name c = true) ->
  rejected (join "/" (folder :: comps)) = false.
Proof.
  intros Hf Hdot Hcomps.
  assert (Hall : forall x, In x (folder :: comps) -> entry_name x = true)
    by (intros x [<- | Hx]; [exact Hf | now apply Hcomps]).
  destruct (entry_name_parts folder Hf) as (Hplain & _).
  destruct (plain_name_head folder Hplain) as (a & rest & -> & Ha & _).
  assert (Hd : Ascii.eqb a "." = false).
  { unfold startswith in Hdot. cbn [String.prefix] in Hdot.
    destruct (Ascii.eqb a ".") eqn:E; [|reflexivity].
    apply Ascii.eqb_eq in E. subst a. simpl in Hdot. now destruct rest. }
  assert (Hnorm : normpath (join "/" (String a rest :: comps))
                  = join "/" (String a rest :: comps)).
  { unfold normpath.
    rewrite split_join
      by (intros x Hx; now destruct (entry_name_parts x (Hall x Hx))).
    rewrite normpath_steps_keep by exact Hall. cbn [app].
    destruct (join_head a rest comps) as (tail & ->).
    cbn [String.eqb]. unfold startswith. cbn [String.prefix].
    assert (Hs : (if ascii_dec "/" a then true else false) = false).
    { destruct (ascii_dec "/" a) as [E|]; [|reflexivity].
      subst a. discriminate Ha. }
    destruct (ascii_dec "/" a) as [E|_]; [subst a; discriminate Ha|].
    reflexivity. }
  unfold rejected. cbv zeta. rewrite Hnorm.
  destruct (join_head a rest comps) as (tail & ->).
  unfold isabs, startswith. cbn [String.prefix].
  destruct (ascii_dec "/" a) as [E|_]; [subst a; discriminate Ha|].
  destruct (ascii_dec "." a) as [E|_]; [subst a; discriminate Hd|].
  reflexivity.
Qed.

Lemma tar_members_accepted (folder : string) (tree : list (list string)) :
  entry_name folder = true -> startswith folder "." = false ->
  (forall comps c, In comps tree -> In c comps -> entry_name c = true) ->
  Forall (fun m => rejected m = false) (Exporter.tar_members folder tree).
Proof.
  intros Hf Hdot Htree. unfold Exporter.tar_members.
  constructor.
  - apply (entry_path_is_accepted folder [] Hf Hdot). intros c [].
  - apply Forall_forall. intros m Hm. apply in_map_iff in Hm.
    destruct Hm as (comps & <- & Hin).
    apply entry_path_is_accepted; [exact Hf | exact Hdot |].
    intros c Hc. exact (Htree comps c Hin Hc).
Qed.

Lemma artifact_name_dispatch (zstd : bool) (timestamp : string) :
  let name := Exporter.artifact_name zstd timestamp in
  ((lower (path_suffix name) =? ".zst") || endswith name ".tar.zst") = zstd /\
  (zstd = false -> (lower (path_suffix name) =? ".tar") = true).
Proof.
  unfold Exporter.artifact_name. cbv zeta. destruct zstd.
  - split; [|discriminate].
    rewrite endswith_app. apply orb_true_r.
  - rewrite path_suffix_tar by discriminate.
    rewrite endswith_tar_not_zst. split; reflexivity.
Qed.

(** X21.  An archive as the exporter builds it is accepted by the importer's
    bundle reader: the artifact name selects the unpacking that fits it, no
    member of the exported folder is refused as unsafe, and the root of the
    bundle is the exported folder under the temporary directory.  The
    exported folder has an ordinary name that does not start with a dot,
    what is below it has ordinary names, [tar.extract] raises on none of
    these members, and the importer has the compression library when the
    exporter used it. *)
Theorem exported_archive_is_accepted_by_the_importer :
  forall (zstd_exporter zstd_importer : bool) (tmpdir : string)
         (iterdir : disk -> list string)
         (tar_extract : disk -> string -> option exn)
         (timestamp folder path : string) (tree : list (list string)),
    (zstd_exporter = true -> zstd_importer = true) ->
    entry_name folder = true ->
    startswith folder "." = false ->
    (forall comps c, In comps tree -> In c comps -> entry_name c = true) ->
    (forall done m, In m (Exporter.tar_members folder tree) ->
                    tar_extract done m = None) ->
    iterdir (Exporter.tar_members folder tree) = [tmpdir ++ "/" ++ folder] ->
    _extract_bundle_to_temp zstd_importer tmpdir iterdir tar_extract
      {| bp_path := path;
         bp_name := Exporter.artifact_name zstd_exporter timestamp;
         bp_is_dir := false;
         bp_members := Exporter.tar_members folder tree |}
    = (Ok (tmpdir ++ "/" ++ folder), Exporter.tar_members folder tree).
Proof.
  intros ze zi tmpdir iterdir tar_extract ts folder path tree
         Hz Hf Hdot Htree Hextract Hiter.
  unfold _extract_bundle_to_temp.
  cbn [bp_is_dir bp_name bp_members bp_path]. cbv zeta.
  destruct (artifact_name_dispatch ze ts) as [Hzst Htar]. cbv zeta in Hzst, Htar.
  rewrite Hzst.
  pose proof (safe_extract_all_accepted tar_extract _ []
                (tar_members_accepted folder tree Hf Hdot Htree)
                (fun done m Hin => Hextract ([] ++ done)%list m Hin)) as Hx.
  cbn [app] in Hx.
  destruct ze.
  - rewrite (Hz eq_refl). cbn [negb]. rewrite Hx, Hiter. reflexivity.
  - rewrite (Htar eq_refl). rewrite Hx, Hiter. reflexivity.
Qed.

Lemma exported_archive_is_accepted_by_the_importer_witness :
  _extract_bundle_to_temp true "/tmp/matrix-import-x"
    (top_level_of "/tmp/matrix-import-x") extracts_all
    {| bp_path := "/srv/synapse-export-20240102T030405Z.tar.zst";
       bp_name := Exporter.artifact_name true "20240102T030405Z";
       bp_is_dir := false;
       bp_members :=
         Exporter.tar_members "export_bundle"
           [["users.json"]; ["media_store"]; ["media_store"; "a.png"]] |}
  = (Ok ("/tmp/matrix-import-x" ++ "/" ++ "export_bundle"),
     Exporter.tar_members "export_bundle"
       [["users.json"]; ["media_store"]; ["media_store"; "a.png"]]).
Proof.
  apply (exported_archive_is_accepted_by_the_importer
           true true "/tmp/matrix-import-x" (top_level_of "/tmp/matrix-import-x")
           extracts_all
           "20240102T030405Z" "export_bundle"
           "/srv/synapse-export-20240102T030405Z.tar.zst"
           [["users.json"]; ["media_store"]; ["media_store"; "a.png"]]).
  - reflexivity.
  - reflexivity.
  - reflexivity.
  - intros comps c [<- | [<- | [<- | []]]];
      simpl; intros H; repeat (destruct H as [<- | H]; [reflexivity|]);
      destruct H.
  - reflexivity.
  - reflexivity.
Defined.

(** The archive of the default output folder, as the importer unpacks it. *)
Example exported_members :
  Exporter.tar_members "export_bundle" [["users.json"]; ["media_store"; "a.png"]]
  = ["export_bundle"; "export_bundle/users.json";
     "export_bundle/media_store/a.png"].
Proof. reflexivity. Qed.
